(** * Policy lifecycle, claims and support tickets of the insurance platform

    A shallow embedding of [app3.py]: the SQLAlchemy models become records,
    the tables become lists of rows, each Flask view becomes a function from
    the request, the session, the readings of the environment (clock, uuid)
    and the database to a response and a database, run inside a transaction
    that is rolled back when the view raises. *)

From Stdlib Require Import ZArith QArith List String Ascii Bool Lia.
From stdpp Require Import base option strings gmap.
Import ListNotations.

Local Open Scope string_scope.
Local Open Scope Z_scope.

(** ** Python strings

    A [str] is carried as the string of its UTF-8 bytes, so
    [s.encode('utf-8')] is the list of the characters' codes.  [upper],
    [lower] and [strip] act on the ASCII range and leave the bytes of other
    characters alone. *)
Module PyStr.

Definition code (c : ascii) : Z := Z.of_N (N_of_ascii c).

Definition chr (z : Z) : ascii := ascii_of_N (Z.to_N z).

Definition is_lower (c : ascii) : bool := (97 <=? code c) && (code c <=? 122).

Definition is_upper (c : ascii) : bool := (65 <=? code c) && (code c <=? 90).

Definition is_digit (c : ascii) : bool := (48 <=? code c) && (code c <=? 57).

(* the characters str.strip() removes: space, \t \n \v \f \r and the
   separators 0x1c .. 0x1f *)
Definition is_space (c : ascii) : bool :=
  (code c =? 32) || ((9 <=? code c) && (code c <=? 13))
  || ((28 <=? code c) && (code c <=? 31)).

Definition upper_char (c : ascii) : ascii :=
  if is_lower c then chr (code c - 32) else c.

Definition lower_char (c : ascii) : ascii :=
  if is_upper c then chr (code c + 32) else c.

Fixpoint upper (s : string) : string :=
  match s with
  | EmptyString => EmptyString
  | String c r => String (upper_char c) (upper r)
  end.

Fixpoint lower (s : string) : string :=
  match s with
  | EmptyString => EmptyString
  | String c r => String (lower_char c) (lower r)
  end.

Fixpoint lstrip (s : string) : string :=
  match s with
  | EmptyString => EmptyString
  | String c r => if is_space c then lstrip r else s
  end.

Fixpoint rev_string (s acc : string) : string :=
  match s with
  | EmptyString => acc
  | String c r => rev_string r (String c acc)
  end.

Definition rstrip (s : string) : string :=
  rev_string (lstrip (rev_string s "")) "".

Definition strip (s : string) : string := rstrip (lstrip s).

(* s[:n] *)
Fixpoint prefix (n : nat) (s : string) : string :=
  match n, s with
  | S k, String c r => String c (prefix k r)
  | _, _ => EmptyString
  end.

(* truthiness of a str *)
Definition nonempty (s : string) : bool :=
  match s with EmptyString => false | _ => true end.

Definition encode_utf8 (s : string) : list Z := map code (list_ascii_of_string s).

Definition digit_char (d : Z) : ascii := chr (48 + d).

(* the [w] low decimal digits of [n], most significant first *)
Fixpoint zero_pad (w : nat) (n : Z) : string :=
  match w with
  | O => EmptyString
  | S k => String.append (zero_pad k (n / 10)) (String (digit_char (n mod 10)) EmptyString)
  end.

Fixpoint all_digits (s : string) : bool :=
  match s with
  | EmptyString => true
  | String c r => is_digit c && all_digits r
  end.

Fixpoint digits_value (s : string) (acc : Z) : Z :=
  match s with
  | EmptyString => acc
  | String c r => digits_value r (10 * acc + (code c - 48))
  end.

(* a non-empty run of decimal digits, read as a number *)
Definition parse_digits (s : string) : option Z :=
  if nonempty s && all_digits s then Some (digits_value s 0) else None.

End PyStr.

(** ** hashlib.sha256

    FIPS 180-4 on words of 32 bits kept in [Z], every addition reduced
    modulo [2^32]. *)
Module Sha256.

Definition w32 (x : Z) : Z := x mod 4294967296.

Definition add32 (x y : Z) : Z := w32 (x + y).

Definition rotr (n x : Z) : Z :=
  Z.lor (Z.shiftr x n) (w32 (Z.shiftl x (32 - n))).

Definition not32 (x : Z) : Z := 4294967295 - x.

Definition ch (x y z : Z) : Z := Z.lxor (Z.land x y) (Z.land (not32 x) z).

Definition maj (x y z : Z) : Z :=
  Z.lxor (Z.lxor (Z.land x y) (Z.land x z)) (Z.land y z).

Definition bsig0 (x : Z) : Z := Z.lxor (Z.lxor (rotr 2 x) (rotr 13 x)) (rotr 22 x).

Definition bsig1 (x : Z) : Z := Z.lxor (Z.lxor (rotr 6 x) (rotr 11 x)) (rotr 25 x).

Definition ssig0 (x : Z) : Z := Z.lxor (Z.lxor (rotr 7 x) (rotr 18 x)) (Z.shiftr x 3).

Definition ssig1 (x : Z) : Z := Z.lxor (Z.lxor (rotr 17 x) (rotr 19 x)) (Z.shiftr x 10).

(* the primes in increasing order, the first [count] of them *)
Fixpoint primes_from (fuel : nat) (n : Z) (found : list Z) (count : nat) : list Z :=
  match fuel, count with
  | S f, S c =>
      if forallb (fun q => negb (n mod q =? 0)) found
      then primes_from f (n + 1) (n :: found) c
      else primes_from f (n + 1) found count
  | _, _ => rev found
  end.

Definition first_primes (count : nat) : list Z := primes_from 400 2 [] count.

(* the integer cube root, one bit at a time *)
Fixpoint cube_root_bits (bits : nat) (n r : Z) : Z :=
  match bits with
  | O => r
  | S b =>
      let c := r + 2 ^ Z.of_nat b in
      if c * c * c <=? n then cube_root_bits b n c else cube_root_bits b n r
  end.

(* the first 32 bits of the fractional part of the cube root of [q] *)
Definition frac_cube_root (q : Z) : Z := w32 (cube_root_bits 36 (q * 2 ^ 96) 0).

(* the first 32 bits of the fractional part of the square root of [q] *)
Definition frac_square_root (q : Z) : Z := w32 (Z.sqrt (q * 2 ^ 64)).

(* the round constants: from the cube roots of the first 64 primes *)
Definition K : list Z := Eval vm_compute in map frac_cube_root (first_primes 64).

(* the initial hash value: from the square roots of the first 8 primes *)
Definition H0 : list Z := Eval vm_compute in map frac_square_root (first_primes 8).

(* big-endian bytes of [x], [n] of them *)
Fixpoint be_bytes (n : nat) (x : Z) : list Z :=
  match n with
  | O => []
  | S k => be_bytes k (x / 256) ++ [x mod 256]
  end.

Definition pad (msg : list Z) : list Z :=
  let len := Z.of_nat (length msg) in
  let zeros := Z.to_nat ((55 - len) mod 64) in
  msg ++ [128] ++ repeat 0 zeros ++ be_bytes 8 (8 * len).

Fixpoint words (fuel : nat) (bs : list Z) : list Z :=
  match fuel, bs with
  | S f, b0 :: b1 :: b2 :: b3 :: r =>
      (((b0 * 256 + b1) * 256 + b2) * 256 + b3) :: words f r
  | _, _ => []
  end.

Fixpoint blocks (fuel : nat) (ws : list Z) : list (list Z) :=
  match fuel, ws with
  | S f, _ :: _ => firstn 16 ws :: blocks f (skipn 16 ws)
  | _, _ => []
  end.

(* the message schedule, most recent word first *)
Fixpoint schedule (n : nat) (rev_w : list Z) : list Z :=
  match n with
  | O => rev_w
  | S k =>
      let w := add32 (add32 (ssig1 (nth 1 rev_w 0)) (nth 6 rev_w 0))
                     (add32 (ssig0 (nth 14 rev_w 0)) (nth 15 rev_w 0)) in
      schedule k (w :: rev_w)
  end.

Definition round (st : list Z) (kw : Z * Z) : list Z :=
  match st with
  | [a; b; c; d; e; f; g; h] =>
      let t1 := add32 (add32 (add32 h (bsig1 e)) (add32 (ch e f g) (fst kw))) (snd kw) in
      let t2 := add32 (bsig0 a) (maj a b c) in
      [add32 t1 t2; a; b; c; add32 d t1; e; f; g]
  | _ => st
  end.

Definition compress (st : list Z) (block : list Z) : list Z :=
  let w := rev (schedule 48 (rev block)) in
  let st' := fold_left round (combine K w) st in
  map (fun p => add32 (fst p) (snd p)) (combine st st').

Definition digest (msg : list Z) : list Z :=
  let bs := pad msg in
  let ws := words (length bs) bs in
  fold_left compress (blocks (length ws) ws) H0.

Definition hex_digit (d : Z) : ascii :=
  if d <? 10 then PyStr.chr (48 + d) else PyStr.chr (87 + d).

Fixpoint hex (n : nat) (x : Z) : string :=
  match n with
  | O => EmptyString
  | S k => String.append (hex k (x / 16)) (String (hex_digit (x mod 16)) EmptyString)
  end.

Definition hexdigest (msg : list Z) : string :=
  fold_right (fun w acc => String.append (hex 8 w) acc) EmptyString (digest msg).

End Sha256.

(** ** Helper functions of the application *)

(* hashlib.sha256(password.encode('utf-8')).hexdigest() *)
Definition hash_password (password : string) : string :=
  Sha256.hexdigest (PyStr.encode_utf8 password).

Definition verify_password (password password_hash : string) : bool :=
  String.eqb (Sha256.hexdigest (PyStr.encode_utf8 password)) password_hash.


(** ** datetime

    [date] and [datetime] keep the fields Python keeps; arithmetic goes
    through the proleptic Gregorian ordinal, as in CPython's datetime. *)
Module Calendar.

Record date := mk_date { year : Z; month : Z; day : Z }.

Record datetime := mk_datetime {
  dt_year : Z; dt_month : Z; dt_day : Z;
  dt_hour : Z; dt_minute : Z; dt_second : Z; dt_microsecond : Z }.

Definition is_leap (y : Z) : bool :=
  (y mod 4 =? 0) && (negb (y mod 100 =? 0) || (y mod 400 =? 0)).

Definition days_before_year (y : Z) : Z :=
  let p := y - 1 in p * 365 + p / 4 - p / 100 + p / 400.

Definition DAYS_IN_MONTH : list Z := [-1; 31; 28; 31; 30; 31; 30; 31; 31; 30; 31; 30; 31].

Definition DAYS_BEFORE_MONTH : list Z :=
  [-1; 0; 31; 59; 90; 120; 151; 181; 212; 243; 273; 304; 334].

Definition days_in_month (y m : Z) : Z :=
  if (m =? 2) && is_leap y then 29 else nth (Z.to_nat m) DAYS_IN_MONTH 0.

Definition days_before_month (y m : Z) : Z :=
  nth (Z.to_nat m) DAYS_BEFORE_MONTH 0 + (if (2 <? m) && is_leap y then 1 else 0).

Definition ymd2ord (y m d : Z) : Z := days_before_year y + days_before_month y m + d.

Definition DI400Y : Z := 146097.
Definition DI100Y : Z := 36524.
Definition DI4Y : Z := 1461.
Definition MAXORDINAL : Z := 3652059.

Definition ord2ymd (ordinal : Z) : date :=
  let n := ordinal - 1 in
  let n400 := n / DI400Y in let n := n mod DI400Y in
  let y := n400 * 400 + 1 in
  let n100 := n / DI100Y in let n := n mod DI100Y in
  let n4 := n / DI4Y in let n := n mod DI4Y in
  let n1 := n / 365 in let n := n mod 365 in
  let y := y + n100 * 100 + n4 * 4 + n1 in
  if (n1 =? 4) || (n100 =? 4) then mk_date (y - 1) 12 31
  else
    let leapyear := (n1 =? 3) && (negb (n4 =? 24) || (n100 =? 3)) in
    let m := Z.shiftr (n + 50) 5 in
    let preceding :=
      nth (Z.to_nat m) DAYS_BEFORE_MONTH 0 + (if (2 <? m) && leapyear then 1 else 0) in
    if n <? preceding then
      let m' := m - 1 in
      let preceding' :=
        preceding - (nth (Z.to_nat m') DAYS_IN_MONTH 0
                     + (if (m' =? 2) && leapyear then 1 else 0)) in
      mk_date y m' (n - preceding' + 1)
    else mk_date y m (n - preceding + 1).

Definition toordinal (d : date) : Z := ymd2ord (year d) (month d) (day d).

(* date + timedelta(days=n); None is OverflowError *)
Definition date_add_days (d : date) (n : Z) : option date :=
  let o := toordinal d + n in
  if (0 <? o) && (o <=? MAXORDINAL) then Some (ord2ymd o) else None.

(* the fields of a date or a datetime are in range *)
Definition valid_date (d : date) : bool :=
  (1 <=? year d) && (year d <=? 9999) && (1 <=? month d) && (month d <=? 12)
  && (1 <=? day d) && (day d <=? days_in_month (year d) (month d)).

Definition dt_date (t : datetime) : date := mk_date (dt_year t) (dt_month t) (dt_day t).

Definition valid_datetime (t : datetime) : bool :=
  valid_date (dt_date t)
  && (0 <=? dt_hour t) && (dt_hour t <=? 23)
  && (0 <=? dt_minute t) && (dt_minute t <=? 59)
  && (0 <=? dt_second t) && (dt_second t <=? 59)
  && (0 <=? dt_microsecond t) && (dt_microsecond t <=? 999999).

(* a timedelta, as its number of microseconds *)
Definition timedelta : Type := Z.

(* self - other on two datetimes *)
Definition dt_sub (a b : datetime) : timedelta :=
  let days := toordinal (dt_date a) - toordinal (dt_date b) in
  let secs := (dt_second a + dt_minute a * 60 + dt_hour a * 3600)
              - (dt_second b + dt_minute b * 60 + dt_hour b * 3600) in
  (days * 86400 + secs) * 1000000 + (dt_microsecond a - dt_microsecond b).

(* td.total_seconds(): the quotient by 10**6, kept exact.  Python rounds it
   to the nearest double; doubles around 86400 are 2**-36 apart, so a
   quotient that is below 86400 by a microsecond or more stays below it *)
Definition total_seconds (td : timedelta) : Q := Qmake td 1000000.

(* x < y on the quotients *)
Definition Qlt_bool (x y : Q) : bool := negb (Qle_bool y x).

Definition directive (c : ascii) (t : datetime) : string :=
  if Ascii.eqb c "Y" then PyStr.zero_pad 4 (dt_year t)
  else if Ascii.eqb c "m" then PyStr.zero_pad 2 (dt_month t)
  else if Ascii.eqb c "d" then PyStr.zero_pad 2 (dt_day t)
  else if Ascii.eqb c "H" then PyStr.zero_pad 2 (dt_hour t)
  else if Ascii.eqb c "M" then PyStr.zero_pad 2 (dt_minute t)
  else if Ascii.eqb c "S" then PyStr.zero_pad 2 (dt_second t)
  else if Ascii.eqb c "%" then "%"
  else String "%" (String c EmptyString).

(* t.strftime(fmt) for the directives the application uses *)
Fixpoint strftime (fmt : string) (t : datetime) : string :=
  match fmt with
  | EmptyString => EmptyString
  | String c r =>
      if Ascii.eqb c "%" then
        match r with
        | String k r' => String.append (directive k t) (strftime r' t)
        | EmptyString => "%"
        end
      else String c (strftime r t)
  end.

End Calendar.
Export Calendar.


(** ** Values that arrive in a request

    A value of a JSON body, or the result of [request.form.get]: a [str],
    or anything else, of which only the truth value matters because every
    [str] method raises [AttributeError] on it ([None] is [PyOther false]). *)
Inductive pyval :=
| PyStr (s : string)
| PyOther (truthy : bool).

Definition truthy_val (v : pyval) : bool :=
  match v with
  | PyStr s => PyStr.nonempty s
  | PyOther b => b
  end.

(* the result of request.get_json() when it does not raise *)
Inductive jbody :=
| JDict (fields : gmap string pyval)
| JOther (truthy : bool).

Inductive http_method := GET | POST.

(* one uploaded file, with what the environment answers while it is
   handled: the reading of datetime.now() and whether file.save succeeds *)
Record upload := mk_upload {
  up_filename : string;
  up_now : datetime;
  up_saved : bool }.

Record request := mk_request {
  method : http_method;
  is_json : bool;
  (* None: get_json() raises (no JSON content type, malformed body) *)
  json : option jbody;
  form : gmap string string;
  files : list upload }.

(** ** Database models *)

(* what SQLite keeps in a column of INTEGER affinity *)
Inductive sqlval :=
| SqlInteger (z : Z)
| SqlText (s : string).

(* text made of decimal digits is stored as the integer; other text is
   kept as it is (SQLite's conversion of signed or padded text is left out) *)
Definition integer_affinity (s : string) : sqlval :=
  match PyStr.parse_digits s with
  | Some z => SqlInteger z
  | None => SqlText s
  end.

Record User := mk_User {
  user_id_ : Z;
  digital_token : string;
  username : string;
  password_hash : string;
  full_name : string;
  email : string;
  phone : string;
  date_of_birth : date;
  age : Z;
  gender : string;
  address : string;
  pan_number : string;
  face_data : option string;
  fingerprint_data : option string;
  retina_data : option string;
  profile_picture : option string;
  account_status : string;
  user_created_at : datetime;
  last_login : option datetime }.

Record Scheme := mk_Scheme {
  scheme_id_ : Z;
  scheme_name : string;
  category : string;
  scheme_description : string;
  scheme_premium_amount : Q;
  scheme_coverage_amount : Q;
  min_age : Z;
  max_age : Z;
  features : string;
  is_active : bool }.

Record Policy := mk_Policy {
  policy_id_ : Z;
  policy_number : string;
  policy_user_id : Z;
  policy_scheme_id : Z;
  start_date : date;
  end_date : date;
  premium_amount : Q;
  coverage_amount : Q;
  status : string;
  created_at : datetime }.

Record Nominee := mk_Nominee {
  nominee_id_ : Z;
  nominee_user_id : Z;
  nominee_policy_id : Z;
  nominee_name : string;
  relationship : string }.

Record Claim := mk_Claim {
  claim_id_ : Z;
  claim_number : string;
  claim_user_id : Z;
  claim_policy_id : sqlval;
  claim_amount : Q;
  (* the list that json.dumps writes into the column *)
  document_paths : list string;
  claim_status : string;
  submitted_at : datetime }.

Record Report := mk_Report {
  report_id_ : Z;
  report_user_id : Z;
  report_type : string;
  report_description : string;
  report_status : string;
  report_created_at : datetime }.

Record DB := mk_DB {
  users : list User;
  schemes : list Scheme;
  policies : list Policy;
  nominees : list Nominee;
  claims : list Claim;
  reports : list Report }.

(* the rowid SQLite gives a new row: one more than the largest in use *)
Definition next_id {A : Type} (id : A -> Z) (rows : list A) : Z :=
  1 + fold_right (fun r m => Z.max (id r) m) 0 rows.

(* Model.query.get(k) *)
Definition get_row {A : Type} (id : A -> Z) (k : Z) (rows : list A) : option A :=
  find (fun r => id r =? k) rows.

(* a UNIQUE column already holds [v] *)
Definition taken {A : Type} (col : A -> string) (v : string) (rows : list A) : bool :=
  existsb (fun r => String.eqb (col r) v) rows.

(** ** The session of a request

    [committed] is what the database holds, [pending] what the SQLAlchemy
    session sees: flushed rows and changed attributes live in [pending]
    until [commit], and are dropped by [rollback] or when the request ends.
    [session_user] is [session['user_id']]. *)
Inductive exn :=
| IntegrityError
| AttributeError
| TypeError
| ValueError
| OverflowError
| OSError
| KeyError
| BadRequestKeyError
| BadRequest
| NotFound.

Record store := mk_store {
  committed : DB;
  pending : DB;
  session_user : option Z }.

Inductive result (A : Type) :=
| Ret (a : A)
| Raise (e : exn).
Arguments Ret {A} a.
Arguments Raise {A} e.

Definition M (A : Type) : Type := store -> result A * store.

Definition ret {A : Type} (a : A) : M A := fun s => (Ret a, s).

Definition raise {A : Type} (e : exn) : M A := fun s => (Raise e, s).

Definition bind {A B : Type} (m : M A) (k : A -> M B) : M B :=
  fun s => match m s with
           | (Ret a, s') => k a s'
           | (Raise e, s') => (Raise e, s')
           end.

Notation "'let*' x ':=' m 'in' k" := (bind m (fun x => k))
  (at level 10, x pattern, m at level 100, k at level 200).

Notation "m ';;' k" := (bind m (fun _ => k))
  (at level 100, k at level 200, right associativity).

(* try: body except Exception as e: handler e *)
Definition try_except {A : Type} (body : M A) (handler : exn -> M A) : M A :=
  fun s => match body s with
           | (Ret a, s') => (Ret a, s')
           | (Raise e, s') => handler e s'
           end.

Definition of_option {A : Type} (e : exn) (o : option A) : M A :=
  match o with
  | Some a => ret a
  | None => raise e
  end.

Definition get_session : M (option Z) := fun s => (Ret (session_user s), s).

Definition set_session (uid : Z) : M unit :=
  fun s => (Ret tt, mk_store (committed s) (pending s) (Some uid)).

Definition query : M DB := fun s => (Ret (pending s), s).

Definition set_pending (db : DB) : M unit :=
  fun s => (Ret tt, mk_store (committed s) db (session_user s)).

(* db.session.commit() *)
Definition commit : M unit :=
  fun s => (Ret tt, mk_store (pending s) (pending s) (session_user s)).

(* db.session.rollback() *)
Definition rollback : M unit :=
  fun s => (Ret tt, mk_store (committed s) (committed s) (session_user s)).

(* str methods raise AttributeError on anything but a str *)
Definition as_str (v : pyval) : M string :=
  match v with
  | PyStr s => ret s
  | PyOther _ => raise AttributeError
  end.

(* request.form[key] *)
Definition form_item (req : request) (key : string) : M string :=
  of_option BadRequestKeyError (form req !! key).

(* request.form.get(key, '') *)
Definition form_get (req : request) (key : string) : string :=
  default "" (form req !! key).

(** ** Responses *)

Inductive json_response :=
(* {'success': success, 'message': message} *)
| Message (success : bool) (message : string)
(* {'success': True, 'redirect': location} *)
| LoggedIn (location : string)
(* {'success': True, 'digital_token': token, 'message': message} *)
| Registered (token : string) (message : string)
(* {'success': False, 'message': f'Registration failed: {str(e)}'} *)
| RegistrationFailed (e : exn).

Inductive page :=
| LoginForm
| RegisterForm
| ApplyForm (scheme : Scheme)
| TokenVerificationFailed
| ApplicationSuccessful (policy : Policy) (nominee : Nominee)
| ClaimForm (active_policies : list Policy)
| ClaimSubmitted (claim : Claim)
| ReportForm
(* the page shows "Reference ID:" followed by [reference_id] *)
| ReportSubmitted (reference_id : string)
| FeedbackForm
| FeedbackSubmitted (reference_id : string).

Inductive response :=
| Redirect (location : string)
| Json (body : json_response) (code : Z)
| Html (p : page)
(* the response Flask builds for an exception that leaves the view *)
| HttpError (code : Z).

Definition error_response (e : exn) : response :=
  match e with
  | NotFound => HttpError 404
  | BadRequestKeyError | BadRequest => HttpError 400
  | _ => HttpError 500
  end.

(* one request: the view runs on a session opened on [db]; what it has not
   committed is discarded when the request ends *)
Definition run_view (view : M response) (db : DB) (sess : option Z)
  : response * DB * option Z :=
  match view (mk_store db db sess) with
  | (Ret r, s) => (r, committed s, session_user s)
  | (Raise e, s) => (error_response e, committed s, session_user s)
  end.

(** ** Helper functions, continued *)

(* str(uuid.uuid4())[:8].upper() *)
Definition generate_token (uuid4 : string) : string :=
  PyStr.upper (PyStr.prefix 8 uuid4).

Definition generate_policy_number (now : datetime) (uuid4 : string) : string :=
  String.append "POL"
    (String.append (strftime "%Y%m%d%H%M" now) (PyStr.upper (PyStr.prefix 6 uuid4))).

Definition generate_claim_number (now : datetime) (uuid4 : string) : string :=
  String.append "CLM"
    (String.append (strftime "%Y%m%d%H%M" now) (PyStr.upper (PyStr.prefix 6 uuid4))).

(* (today.month, today.day) < (dob.month, dob.day) *)
Definition before_birthday (today dob : date) : bool :=
  (month today <? month dob)
  || ((month today =? month dob) && (day today <? day dob)).

Definition calculate_age (today dob : date) : Z :=
  year today - year dob - (if before_birthday today dob then 1 else 0).

Fixpoint all_chars (p : ascii -> bool) (s : string) : bool :=
  match s with
  | EmptyString => true
  | String c r => p c && all_chars p r
  end.

Definition substr (start len : nat) (s : string) : string := String.substring start len s.

(* re.match(r'^[A-Z]{5}[0-9]{4}[A-Z]{1}$', pan.upper()); '$' also matches
   before one final newline *)
Definition validate_pan (pan : string) : bool :=
  let u := PyStr.upper pan in
  let n := String.length u in
  ((Nat.eqb n 10) || ((Nat.eqb n 11) && String.eqb (substr 10 1 u) (String (PyStr.chr 10) EmptyString)))
  && all_chars PyStr.is_upper (substr 0 5 u)
  && all_chars PyStr.is_digit (substr 5 4 u)
  && all_chars PyStr.is_upper (substr 9 1 u).

(* Policy.is_withdrawable, with the reading of datetime.utcnow() *)
Definition is_withdrawable (utcnow : datetime) (p : Policy) : bool :=
  String.eqb (status p) "applied"
  && Qlt_bool (total_seconds (dt_sub utcnow (created_at p))) (inject_Z 86400).

(** ** Rows written through the session *)

Definition update_row {A : Type} (id : A -> Z) (k : Z) (f : A -> A) (rows : list A) : list A :=
  map (fun r => if id r =? k then f r else r) rows.

Definition with_users (db : DB) (l : list User) : DB :=
  mk_DB l (schemes db) (policies db) (nominees db) (claims db) (reports db).

Definition with_policies (db : DB) (l : list Policy) : DB :=
  mk_DB (users db) (schemes db) l (nominees db) (claims db) (reports db).

Definition with_nominees (db : DB) (l : list Nominee) : DB :=
  mk_DB (users db) (schemes db) (policies db) l (claims db) (reports db).

Definition with_claims (db : DB) (l : list Claim) : DB :=
  mk_DB (users db) (schemes db) (policies db) (nominees db) l (reports db).

Definition with_reports (db : DB) (l : list Report) : DB :=
  mk_DB (users db) (schemes db) (policies db) (nominees db) (claims db) l.

Definition set_last_login (t : datetime) (u : User) : User :=
  mk_User (user_id_ u) (digital_token u) (username u) (password_hash u) (full_name u)
    (email u) (phone u) (date_of_birth u) (age u) (gender u) (address u) (pan_number u)
    (face_data u) (fingerprint_data u) (retina_data u) (profile_picture u)
    (account_status u) (user_created_at u) (Some t).

Definition set_biometrics (face retina : string) (u : User) : User :=
  mk_User (user_id_ u) (digital_token u) (username u) (password_hash u) (full_name u)
    (email u) (phone u) (date_of_birth u) (age u) (gender u) (address u) (pan_number u)
    (Some face) (fingerprint_data u) (Some retina) (profile_picture u)
    (account_status u) (user_created_at u) (last_login u).

Definition set_status (st : string) (p : Policy) : Policy :=
  mk_Policy (policy_id_ p) (policy_number p) (policy_user_id p) (policy_scheme_id p)
    (start_date p) (end_date p) (premium_amount p) (coverage_amount p) st (created_at p).

(* db.session.add(user); db.session.flush(): the INSERT checks the UNIQUE
   columns and gives the row its id *)
Definition flush_user (mk : Z -> User) : M User :=
  let* db := query in
  let u := mk (next_id user_id_ (users db)) in
  if taken digital_token (digital_token u) (users db)
     || taken username (username u) (users db)
     || taken email (email u) (users db)
     || taken pan_number (pan_number u) (users db)
  then raise IntegrityError
  else set_pending (with_users db (users db ++ [u])) ;; ret u.

Definition flush_policy (mk : Z -> Policy) : M Policy :=
  let* db := query in
  let p := mk (next_id policy_id_ (policies db)) in
  if taken policy_number (policy_number p) (policies db)
  then raise IntegrityError
  else set_pending (with_policies db (policies db ++ [p])) ;; ret p.

Definition flush_nominee (mk : Z -> Nominee) : M Nominee :=
  let* db := query in
  let n := mk (next_id nominee_id_ (nominees db)) in
  set_pending (with_nominees db (nominees db ++ [n])) ;; ret n.

Definition flush_claim (mk : Z -> Claim) : M Claim :=
  let* db := query in
  let c := mk (next_id claim_id_ (claims db)) in
  if taken claim_number (claim_number c) (claims db)
  then raise IntegrityError
  else set_pending (with_claims db (claims db ++ [c])) ;; ret c.

Definition flush_report (mk : Z -> Report) : M Report :=
  let* db := query in
  let r := mk (next_id report_id_ (reports db)) in
  set_pending (with_reports db (reports db ++ [r])) ;; ret r.

(** ** /login *)

Definition body_truthy (b : jbody) : bool :=
  match b with
  | JDict m => bool_decide (m ≠ ∅)
  | JOther t => t
  end.

(* data.get(key, dflt) *)
Definition dict_get (b : jbody) (key : string) (dflt : pyval) : M pyval :=
  match b with
  | JDict m => ret (default dflt (m !! key))
  | JOther _ => raise AttributeError
  end.

(* data[key] for a key that is known to be there *)
Definition dict_item (b : jbody) (key : string) : M pyval :=
  match b with
  | JDict m => of_option KeyError (m !! key)
  | JOther _ => raise TypeError
  end.

(* request.form.get(key), None when the field is absent *)
Definition form_value (req : request) (key : string) : pyval :=
  match form req !! key with
  | Some v => PyStr v
  | None => PyOther false
  end.

Definition login_data (req : request) : M jbody :=
  if is_json req then of_option BadRequest (json req)
  else ret (JDict (<["username" := form_value req "username"]>
                     (<["password" := form_value req "password"]> ∅))).

(* User.query.filter_by(username=name).first() *)
Definition user_by_username (name : string) (db : DB) : option User :=
  find (fun u => String.eqb (username u) name) (users db).

Definition login (utcnow : datetime) (req : request) : M response :=
  match method req with
  | POST =>
      try_except
        (let* data := login_data req in
         if negb (body_truthy data)
         then ret (Json (Message false "No data received") 400)
         else
           let* u := dict_get data "username" (PyStr "") in
           let* u := as_str u in
           let uname := PyStr.strip u in
           let* password := dict_get data "password" (PyStr "") in
           if negb (PyStr.nonempty uname) || negb (truthy_val password)
           then ret (Json (Message false "Username and password are required") 400)
           else
             let* db := query in
             match user_by_username uname db with
             | Some user =>
                 let* pw := as_str password in
                 if verify_password pw (password_hash user) then
                   set_session (user_id_ user) ;;
                   set_pending (with_users db
                     (update_row user_id_ (user_id_ user) (set_last_login utcnow) (users db))) ;;
                   commit ;;
                   ret (Json (LoggedIn "/dashboard") 200)
                 else ret (Json (Message false "Invalid username or password") 401)
             | None => ret (Json (Message false "Invalid username or password") 401)
             end)
        (fun _ => ret (Json (Message false "Login failed. Please try again.") 500))
  | GET => ret (Html LoginForm)
  end.

(** ** /register *)

Record register_env := mk_register_env {
  reg_uuid4 : string;      (* str(uuid.uuid4()) in generate_token *)
  reg_today : date;        (* date.today() in calculate_age *)
  reg_utcnow : datetime    (* datetime.utcnow(), the default of created_at *) }.

Definition required_fields : list string :=
  ["username"; "password"; "full_name"; "email"; "phone";
   "date_of_birth"; "gender"; "address"; "pan_number"].

(* the first field of the list for which [not data.get(field)] holds *)
Fixpoint first_missing (data : jbody) (fields : list string) : M (option string) :=
  match fields with
  | [] => ret None
  | f :: r =>
      let* v := dict_get data f (PyOther false) in
      if truthy_val v then first_missing data r else ret (Some f)
  end.

(* a column compared with a submitted value in filter_by: a value that is
   not a str is taken to equal no stored text *)
Definition column_is (v : pyval) (col : string) : bool :=
  match v with
  | PyStr s => String.eqb col s
  | PyOther _ => false
  end.

Section Register.

(* datetime.strptime(s, '%Y-%m-%d').date(); None is ValueError *)
Variable strptime_ymd : string -> option date.

Definition register_user (env : register_env) (data : jbody) (birth_date : date)
    (calculated_age : Z) : M response :=
  let* v_username := dict_item data "username" in
  let* s_username := as_str v_username in
  let* v_password := dict_item data "password" in
  let* s_password := as_str v_password in
  let* v_full_name := dict_item data "full_name" in
  let* s_full_name := as_str v_full_name in
  let* v_email := dict_item data "email" in
  let* s_email := as_str v_email in
  let* v_phone := dict_item data "phone" in
  let* s_phone := as_str v_phone in
  let* v_gender := dict_item data "gender" in
  let* s_gender := as_str v_gender in
  let* v_address := dict_item data "address" in
  let* s_address := as_str v_address in
  let* v_pan := dict_item data "pan_number" in
  let* s_pan := as_str v_pan in
  let* user := flush_user (fun new_id =>
    mk_User new_id
      (generate_token (reg_uuid4 env))
      (PyStr.strip s_username)
      (hash_password s_password)
      (PyStr.strip s_full_name)
      (PyStr.lower (PyStr.strip s_email))
      (PyStr.strip s_phone)
      birth_date
      calculated_age
      (PyStr.lower s_gender)
      (PyStr.strip s_address)
      (PyStr.strip (PyStr.upper s_pan))
      None None None None
      "active"
      (reg_utcnow env)
      None) in
  let* db := query in
  set_pending (with_users db
    (update_row user_id_ (user_id_ user) (set_biometrics "verified" "verified") (users db))) ;;
  commit ;;
  ret (Json (Registered (digital_token user)
               "Registration successful! Please save your digital token securely.") 200).

Definition register_checked (env : register_env) (data : jbody) : M response :=
  let* db := query in
  let* v_username := dict_item data "username" in
  if existsb (fun u => column_is v_username (username u)) (users db)
  then ret (Json (Message false
         "Username already exists. Please choose a different username.") 400)
  else
  let* v_email := dict_item data "email" in
  if existsb (fun u => column_is v_email (email u)) (users db)
  then ret (Json (Message false
         "Email already registered. Please use a different email.") 400)
  else
  let* v_pan := dict_item data "pan_number" in
  let* s_pan := as_str v_pan in
  if taken pan_number (PyStr.upper s_pan) (users db)
  then ret (Json (Message false
         "PAN number already registered. Please check your PAN number.") 400)
  else
  if negb (validate_pan s_pan)
  then ret (Json (Message false
         "Invalid PAN number format. Please enter a valid PAN number.") 400)
  else
  let* v_dob := dict_item data "date_of_birth" in
  match v_dob with
  | PyOther _ => raise TypeError
  | PyStr s_dob =>
      match strptime_ymd s_dob with
      | None => ret (Json (Message false
          "Invalid date format. Please enter a valid date of birth.") 400)
      | Some birth_date =>
          let calculated_age := calculate_age (reg_today env) birth_date in
          if calculated_age <? 18
          then ret (Json (Message false
                 "You must be at least 18 years old to register.") 400)
          else if 100 <? calculated_age
          then ret (Json (Message false "Please enter a valid date of birth.") 400)
          else register_user env data birth_date calculated_age
      end
  end.

Definition register (env : register_env) (req : request) : M response :=
  match method req with
  | POST =>
      try_except
        (let* data := of_option BadRequest (json req) in
         let* missing := first_missing data required_fields in
         match missing with
         | Some field =>
             ret (Json (Message false (String.append "Missing required field: " field)) 400)
         | None => register_checked env data
         end)
        (fun e => rollback ;; ret (Json (RegistrationFailed e) 500))
  | GET => ret (Html RegisterForm)
  end.

End Register.

(** ** /apply-policy/<scheme_id> *)

Record apply_env := mk_apply_env {
  apply_now : datetime;        (* datetime.now() in generate_policy_number *)
  apply_uuid4 : string;        (* str(uuid.uuid4()) in generate_policy_number *)
  apply_today_start : date;    (* date.today() of start_date *)
  apply_today_end : date;      (* date.today() of end_date *)
  apply_utcnow : datetime      (* datetime.utcnow(), the default of created_at *) }.

Definition apply_policy (env : apply_env) (scheme_id : Z) (req : request) : M response :=
  let* sess := get_session in
  match sess with
  | None => ret (Redirect "/login")
  | Some uid =>
      let* db := query in
      let* scheme := of_option NotFound (get_row scheme_id_ scheme_id (schemes db)) in
      match method req with
      | POST =>
          (* user is None when the session names no row: user.digital_token raises *)
          let* user := of_option AttributeError (get_row user_id_ uid (users db)) in
          let token_entered := PyStr.upper (form_get req "digital_token") in
          if negb (String.eqb (digital_token user) token_entered)
          then ret (Html TokenVerificationFailed)
          else
            let number := generate_policy_number (apply_now env) (apply_uuid4 env) in
            let* ends := of_option OverflowError
                           (date_add_days (apply_today_end env) (365 * 10)) in
            let* new_policy := flush_policy (fun new_id =>
              mk_Policy new_id number (user_id_ user) (scheme_id_ scheme)
                (apply_today_start env) ends
                (scheme_premium_amount scheme) (scheme_coverage_amount scheme)
                "applied" (apply_utcnow env)) in
            let* name := form_item req "nominee_name" in
            let* rel := form_item req "nominee_relationship" in
            let* nominee := flush_nominee (fun new_id =>
              mk_Nominee new_id (user_id_ user) (policy_id_ new_policy) name rel) in
            commit ;;
            ret (Html (ApplicationSuccessful new_policy nominee))
      | GET => ret (Html (ApplyForm scheme))
      end
  end.

(** ** /withdraw-policy/<policy_id> *)

Definition withdraw_policy (utcnow : datetime) (policy_id : Z) : M response :=
  let* sess := get_session in
  match sess with
  | None => ret (Redirect "/login")
  | Some uid =>
      let* db := query in
      let* policy := of_option NotFound (get_row policy_id_ policy_id (policies db)) in
      (if (policy_user_id policy =? uid) && is_withdrawable utcnow policy
       then set_pending (with_policies db
              (update_row policy_id_ (policy_id_ policy) (set_status "withdrawn") (policies db))) ;;
            commit
       else ret tt) ;;
      ret (Redirect "/my-policies")
  end.

(** ** /make-claim *)

Record claim_env := mk_claim_env {
  claim_now : datetime;      (* datetime.now() in generate_claim_number *)
  claim_uuid4 : string;      (* str(uuid.uuid4()) in generate_claim_number *)
  claim_utcnow : datetime    (* datetime.utcnow(), the default of submitted_at *) }.

Section MakeClaim.

(* float(s); None is ValueError *)
Variable float_of_str : string -> option Q.
(* werkzeug.utils.secure_filename and os.path.join *)
Variable secure_filename : string -> string.
Variable os_path_join : string -> string -> string.

(* the loop over request.files.getlist('documents') *)
Fixpoint save_documents (fs : list upload) : M (list string) :=
  match fs with
  | [] => ret []
  | file :: rest =>
      if PyStr.nonempty (up_filename file) then
        let filename := secure_filename (up_filename file) in
        let timestamp := strftime "%Y%m%d_%H%M%S_" (up_now file) in
        let filename := String.append timestamp filename in
        let path := os_path_join "claim_documents" filename in
        if up_saved file
        then let* doc_paths := save_documents rest in ret (path :: doc_paths)
        else raise OSError
      else save_documents rest
  end.

Definition make_claim (env : claim_env) (req : request) : M response :=
  let* sess := get_session in
  match sess with
  | None => ret (Redirect "/login")
  | Some uid =>
      let* db := query in
      let* user := of_option AttributeError (get_row user_id_ uid (users db)) in
      let active_policies :=
        filter (fun p => (policy_user_id p =? user_id_ user) && String.eqb (status p) "active")
               (policies db) in
      match method req with
      | POST =>
          let token_entered := PyStr.upper (form_get req "digital_token") in
          if negb (String.eqb (digital_token user) token_entered)
          then ret (Html TokenVerificationFailed)
          else
            let* doc_paths := save_documents (files req) in
            let number := generate_claim_number (claim_now env) (claim_uuid4 env) in
            let* policy_id := form_item req "policy_id" in
            let* amount_text := form_item req "claim_amount" in
            let* amount := of_option ValueError (float_of_str amount_text) in
            let* claim := flush_claim (fun new_id =>
              mk_Claim new_id number (user_id_ user) (integer_affinity policy_id)
                amount doc_paths "submitted" (claim_utcnow env)) in
            commit ;;
            ret (Html (ClaimSubmitted claim))
      | GET => ret (Html (ClaimForm active_policies))
      end
  end.

End MakeClaim.

(** ** /report-transaction and /complaints-feedback *)

Record report_env := mk_report_env {
  report_utcnow : datetime;   (* datetime.utcnow(), the default of created_at *)
  render_now : datetime       (* datetime.utcnow() in inject_user_and_now *) }.

Definition report_transaction (env : report_env) (req : request) : M response :=
  let* sess := get_session in
  match sess with
  | None => ret (Redirect "/login")
  | Some uid =>
      match method req with
      | POST =>
          let* description := form_item req "description" in
          let* report := flush_report (fun new_id =>
            mk_Report new_id uid "unauthorized_transaction" description
              "submitted" (report_utcnow env)) in
          commit ;;
          (* REP{{ now.strftime('%Y%m%d%H%M') }} *)
          ret (Html (ReportSubmitted
                 (String.append "REP" (strftime "%Y%m%d%H%M" (render_now env)))))
      | GET => ret (Html ReportForm)
      end
  end.

Definition complaints_feedback (env : report_env) (req : request) : M response :=
  let* sess := get_session in
  match sess with
  | None => ret (Redirect "/login")
  | Some uid =>
      match method req with
      | POST =>
          let* description := form_item req "description" in
          let* report := flush_report (fun new_id =>
            mk_Report new_id uid "complaint_feedback" description
              "submitted" (report_utcnow env)) in
          commit ;;
          (* FB{{ now.strftime('%Y%m%d%H%M') }} *)
          ret (Html (FeedbackSubmitted
                 (String.append "FB" (strftime "%Y%m%d%H%M" (render_now env)))))
      | GET => ret (Html FeedbackForm)
      end
  end.

(** ** What a request returns *)

Definition response_of (r : response * DB * option Z) : response := fst (fst r).

Definition db_of (r : response * DB * option Z) : DB := snd (fst r).

Definition session_of (r : response * DB * option Z) : option Z := snd r.

(** ** Instances of the library functions, and sample rows *)

(* strptime on the zero-padded form YYYY-MM-DD *)
Definition strptime_padded (s : string) : option date :=
  match PyStr.parse_digits (substr 0 4 s), PyStr.parse_digits (substr 5 2 s),
        PyStr.parse_digits (substr 8 2 s) with
  | Some y, Some m, Some d =>
      if Nat.eqb (String.length s) 10
         && String.eqb (substr 4 1 s) "-" && String.eqb (substr 7 1 s) "-"
         && valid_date (mk_date y m d)
      then Some (mk_date y m d) else None
  | _, _, _ => None
  end.

(* float on a run of decimal digits *)
Definition float_of_digits (s : string) : option Q :=
  option_map inject_Z (PyStr.parse_digits s).

Definition posix_join (a b : string) : string := String.append a (String.append "/" b).

Definition t_2024_03_15_1030 : datetime := mk_datetime 2024 3 15 10 30 0 0.

Definition alice : User :=
  mk_User 1 "A1B2C3D4" "alice"
    "fcf730b6d95236ecd3c9fc2d92d7b6b2bb061514961aec041d6c7a7192f592e4"
    "Alice Rao" "alice@example.com" "9876543210" (mk_date 1994 1 20) 30 "female"
    "12 Lake Road" "ABCDE1234F" (Some "verified") None (Some "verified") None
    "active" (mk_datetime 2024 3 1 9 0 0 0) None.

Definition pure_life : Scheme :=
  mk_Scheme 1 "Pure Life Term Insurance" "life" "Pure term life insurance"
    (inject_Z 750) (inject_Z 10000000) 18 65 "[]" true.

Definition applied_policy : Policy :=
  mk_Policy 1 "POL202403151030AB12CD" 1 1 (mk_date 2024 3 15) (mk_date 2034 3 13)
    (inject_Z 750) (inject_Z 10000000) "applied" t_2024_03_15_1030.

Definition db0 : DB := mk_DB [alice] [pure_life] [] [] [] [].

Definition db1 : DB := mk_DB [alice] [pure_life] [applied_policy] [] [] [].

Definition post_form (fields : list (string * string)) : request :=
  mk_request POST false None (list_to_map fields) [].

Definition post_json (fields : list (string * pyval)) : request :=
  mk_request POST true (Some (JDict (list_to_map fields))) ∅ [].

(** ** The reference id as the specification words it *)

(* the type prefix of a reference id *)
Definition reference_prefix (rtype : string) : string :=
  if String.eqb rtype "unauthorized_transaction" then "REP"
  else if String.eqb rtype "complaint_feedback" then "FB"
  else "".

(* a time written YYYYMMDDHHMM: the year on four digits, then month, day,
   hour and minute on two digits each *)
Definition YYYYMMDDHHMM (t : datetime) : string :=
  String.append (PyStr.zero_pad 4 (dt_year t))
    (String.append (PyStr.zero_pad 2 (dt_month t))
      (String.append (PyStr.zero_pad 2 (dt_day t))
        (String.append (PyStr.zero_pad 2 (dt_hour t))
          (PyStr.zero_pad 2 (dt_minute t))))).

(* {PREFIX}{YYYYMMDDHHMM} *)
Definition reference_id_spec (rtype : string) (submitted : datetime) : string :=
  String.append (reference_prefix rtype) (YYYYMMDDHHMM submitted).

(* the same twelve digits read as one number *)
Definition stamp_number (t : datetime) : Z :=
  (((dt_year t * 100 + dt_month t) * 100 + dt_day t) * 100 + dt_hour t) * 100 + dt_minute t.

Definition jane_doe : Nominee := mk_Nominee 1 1 1 "Jane Doe" "spouse".

(* the policy of a request handled while the date changes *)
Definition midnight_policy : Policy :=
  mk_Policy 1 "POL202403152359AB12CD" 1 1 (mk_date 2024 3 15) (mk_date 2034 3 14)
    (inject_Z 750) (inject_Z 10000000) "applied" (mk_datetime 2024 3 15 18 29 0 0).

Definition claim_on_applied : Claim :=
  mk_Claim 1 "CLM202403151030AB12CD" 1 (SqlInteger 1) (inject_Z 1000) [] "submitted"
    t_2024_03_15_1030.

(* the rows a successful application writes *)
Definition applied_rows (env : apply_env) (req : request) (db : DB) (user : User)
    (scheme : Scheme) (ends : date) (name rel : string) : Policy * Nominee :=
  let p := mk_Policy (next_id policy_id_ (policies db))
             (generate_policy_number (apply_now env) (apply_uuid4 env))
             (user_id_ user) (scheme_id_ scheme) (apply_today_start env) ends
             (scheme_premium_amount scheme) (scheme_coverage_amount scheme)
             "applied" (apply_utcnow env) in
  (p, mk_Nominee (next_id nominee_id_ (nominees db)) (user_id_ user) (policy_id_ p) name rel).

Definition bob_request : request :=
  post_json [("username", PyStr "bob"); ("password", PyStr "correct horse");
             ("full_name", PyStr "Bob Iyer"); ("email", PyStr "Bob@Example.org");
             ("phone", PyStr "9123456780"); ("date_of_birth", PyStr "1994-03-15");
             ("gender", PyStr "Male"); ("address", PyStr "4 Hill Street");
             ("pan_number", PyStr "abcde1234g")].

(** ** The views that only read, the profile, and the routing

    Their pages are kept apart from the pages above: an [answer] is a
    response of one of the views above or one of these listings. *)

Record policy_card := mk_policy_card {
  card_policy : Policy;
  (* policy.scheme.name; the empty text when the scheme row is missing *)
  card_scheme_name : string;
  (* whether the withdraw form is shown *)
  card_withdrawable : bool;
  (* the hours the page announces beside the form *)
  card_hours : option Z }.

Inductive listing :=
| HomePage
(* jsonify({'success': True}) *)
| BiometricAccepted
| DashboardPage (user : User) (policies_count claims_count : nat)
| SchemesPage (listed : list Scheme)
| MyPoliciesPage (cards : list policy_card)
| ProfilePage (user : User) (policies_count claims_count : nat)
| ProfileUpdated.

Inductive answer :=
| Answer (r : response)
| Listing (l : listing).

Definition run_answer (view : M answer) (db : DB) (sess : option Z)
  : answer * DB * option Z :=
  match view (mk_store db db sess) with
  | (Ret a, s) => (a, committed s, session_user s)
  | (Raise e, s) => (Answer (error_response e), committed s, session_user s)
  end.

(* a view above, as a view that gives an answer *)
Definition answered (view : M response) : M answer :=
  let* r := view in ret (Answer r).

(* session.clear() *)
Definition clear_session : M unit :=
  fun s => (Ret tt, mk_store (committed s) (pending s) None).

Definition home : M answer := ret (Listing HomePage).

Definition verify_proximity : M answer := ret (Listing BiometricAccepted).

Definition verify_retina : M answer := ret (Listing BiometricAccepted).

Definition logout : M answer :=
  clear_session ;; ret (Answer (Redirect "/")).

(* Policy.query.filter_by(user_id=uid).count() *)
Definition count_policies (uid : Z) (db : DB) : nat :=
  length (List.filter (fun p => policy_user_id p =? uid) (policies db)).

(* Claim.query.filter_by(user_id=uid).count() *)
Definition count_claims (uid : Z) (db : DB) : nat :=
  length (List.filter (fun c => claim_user_id c =? uid) (claims db)).

Definition dashboard : M answer :=
  let* sess := get_session in
  match sess with
  | None => ret (Answer (Redirect "/login"))
  | Some uid =>
      let* db := query in
      match get_row user_id_ uid (users db) with
      | None => clear_session ;; ret (Answer (Redirect "/login"))
      | Some user =>
          ret (Listing (DashboardPage user (count_policies (user_id_ user) db)
                          (count_claims (user_id_ user) db)))
      end
  end.

Definition schemes_view : M answer :=
  let* sess := get_session in
  match sess with
  | None => ret (Answer (Redirect "/login"))
  | Some _ =>
      let* db := query in
      ret (Listing (SchemesPage (List.filter is_active (schemes db))))
  end.

(** *** /my-policies *)

Record my_policies_env := mk_my_policies_env {
  mp_now : datetime;            (* datetime.utcnow() in inject_user_and_now *)
  mp_utcnow : Z -> datetime     (* datetime.utcnow() in is_withdrawable, for the
                                   card of the policy with that id *) }.

(* the position of a creation time in the order of the column *)
Definition created_key (p : Policy) : Z :=
  dt_sub (created_at p) (mk_datetime 1 1 1 0 0 0 0).

(* order_by(Policy.created_at.desc()); rows created at the same time keep
   the order of their ids *)
Fixpoint insert_desc (p : Policy) (l : list Policy) : list Policy :=
  match l with
  | [] => [p]
  | q :: r => if created_key q <=? created_key p then p :: l else q :: insert_desc p r
  end.

Definition order_by_created_at_desc (l : list Policy) : list Policy :=
  fold_right insert_desc [] l.

(* (86400 - (now - policy.created_at).total_seconds())|int // 3600: the int
   filter drops the fraction, towards zero *)
Definition hours_left (now : datetime) (p : Policy) : Z :=
  Z.quot (86400 * 1000000 - dt_sub now (created_at p)) 1000000 / 3600.

Definition card_of (env : my_policies_env) (db : DB) (p : Policy) : policy_card :=
  let w := is_withdrawable (mp_utcnow env (policy_id_ p)) p in
  mk_policy_card p
    (default EmptyString
       (option_map scheme_name (get_row scheme_id_ (policy_scheme_id p) (schemes db))))
    w
    (if w then Some (hours_left (mp_now env) p) else None).

Definition my_policies (env : my_policies_env) : M answer :=
  let* sess := get_session in
  match sess with
  | None => ret (Answer (Redirect "/login"))
  | Some uid =>
      let* db := query in
      let rows := order_by_created_at_desc
                    (List.filter (fun p => policy_user_id p =? uid) (policies db)) in
      ret (Listing (MyPoliciesPage (map (card_of env db) rows)))
  end.

(** *** /profile *)

Definition set_profile_picture (path : string) (u : User) : User :=
  mk_User (user_id_ u) (digital_token u) (username u) (password_hash u) (full_name u)
    (email u) (phone u) (date_of_birth u) (age u) (gender u) (address u) (pan_number u)
    (face_data u) (fingerprint_data u) (retina_data u) (Some path)
    (account_status u) (user_created_at u) (last_login u).

(* the decimal digits of a positive number, as str() writes them *)
Fixpoint digits_of (fuel : nat) (n : Z) (acc : string) : string :=
  match fuel with
  | O => acc
  | S f =>
      let acc' := String (PyStr.digit_char (n mod 10)) acc in
      if n / 10 =? 0 then acc' else digits_of f (n / 10) acc'
  end.

(* str(n) for an int *)
Definition str_of_int (n : Z) : string :=
  if n <? 0 then String "-" (digits_of (Z.to_nat (Z.log2 (- n)) + 1) (- n) EmptyString)
  else digits_of (Z.to_nat (Z.log2 n) + 1) n EmptyString.

Section Profile.

Variable secure_filename : string -> string.
Variable os_path_join : string -> string -> string.
(* os.path.splitext(name)[1] *)
Variable splitext_ext : string -> string.

(* [picture] is request.files['profile_picture'], None when the request has
   no such file; [makedirs_ok] is whether os.makedirs succeeds *)
Definition profile (picture : option upload) (makedirs_ok : bool) (req : request)
  : M answer :=
  let* sess := get_session in
  match sess with
  | None => ret (Answer (Redirect "/login"))
  | Some uid =>
      let* db := query in
      let user := get_row user_id_ uid (users db) in
      let page :=
        let* user := of_option AttributeError user in
        ret (Listing (ProfilePage user (count_policies (user_id_ user) db)
                        (count_claims (user_id_ user) db))) in
      match method req, picture with
      | POST, Some file =>
          if PyStr.nonempty (up_filename file) then
            let filename := secure_filename (up_filename file) in
            let timestamp := strftime "%Y%m%d_%H%M%S_" (up_now file) in
            let* user := of_option AttributeError user in
            let filename :=
              String.append "profile_"
                (String.append (str_of_int (user_id_ user))
                   (String.append "_"
                      (String.append timestamp (splitext_ext filename)))) in
            (if makedirs_ok then ret tt else raise OSError) ;;
            let file_path := os_path_join "profile_pictures" filename in
            (if up_saved file then ret tt else raise OSError) ;;
            set_pending (with_users db
              (update_row user_id_ (user_id_ user) (set_profile_picture file_path)
                 (users db))) ;;
            commit ;;
            ret (Listing ProfileUpdated)
          else page
      | _, _ => page
      end
  end.

End Profile.

(** *** The routes

    A [call] is a request that Flask has matched to a view, with what the
    environment answers while the view runs. *)
Inductive call :=
| CallHome
| CallLogin (utcnow : datetime) (req : request)
| CallDashboard
| CallLogout
| CallRegister (env : register_env) (req : request)
| CallVerifyProximity
| CallVerifyRetina
| CallSchemes
| CallApplyPolicy (env : apply_env) (scheme_id : Z) (req : request)
| CallMyPolicies (env : my_policies_env)
| CallWithdrawPolicy (utcnow : datetime) (policy_id : Z)
| CallMakeClaim (env : claim_env) (req : request)
| CallProfile (picture : option upload) (makedirs_ok : bool) (req : request)
| CallReportTransaction (env : report_env) (req : request)
| CallComplaintsFeedback (env : report_env) (req : request).

Section Routes.

Variable strptime_ymd : string -> option date.
Variable float_of_str : string -> option Q.
Variable secure_filename : string -> string.
Variable os_path_join : string -> string -> string.
Variable splitext_ext : string -> string.

Definition view_of (c : call) : M answer :=
  match c with
  | CallHome => home
  | CallLogin utcnow req => answered (login utcnow req)
  | CallDashboard => dashboard
  | CallLogout => logout
  | CallRegister env req => answered (register strptime_ymd env req)
  | CallVerifyProximity => verify_proximity
  | CallVerifyRetina => verify_retina
  | CallSchemes => schemes_view
  | CallApplyPolicy env scheme_id req => answered (apply_policy env scheme_id req)
  | CallMyPolicies env => my_policies env
  | CallWithdrawPolicy utcnow policy_id => answered (withdraw_policy utcnow policy_id)
  | CallMakeClaim env req =>
      answered (make_claim float_of_str secure_filename os_path_join env req)
  | CallProfile picture makedirs_ok req =>
      profile secure_filename os_path_join splitext_ext picture makedirs_ok req
  | CallReportTransaction env req => answered (report_transaction env req)
  | CallComplaintsFeedback env req => answered (complaints_feedback env req)
  end.

(* the database and the session after one request *)
Definition after_call (c : call) (w : DB * option Z) : DB * option Z :=
  let r := run_answer (view_of c) (fst w) (snd w) in (snd (fst r), snd r).

(* ... and after a sequence of requests *)
Definition after_calls (cs : list call) (w : DB * option Z) : DB * option Z :=
  fold_left (fun w c => after_call c w) cs w.

End Routes.

(* the views that need a logged-in user *)
Definition protected (c : call) : bool :=
  match c with
  | CallHome | CallLogin _ _ | CallLogout | CallRegister _ _
  | CallVerifyProximity | CallVerifyRetina => false
  | _ => true
  end.

(* what a request may do to the database *)
Inductive transition (db : DB) : DB -> Prop :=
| t_nothing : transition db db
| t_last_login (uid : Z) (t : datetime) :
    transition db
      (with_users db (update_row user_id_ uid (set_last_login t) (users db)))
| t_profile_picture (uid : Z) (path : string) :
    transition db
      (with_users db (update_row user_id_ uid (set_profile_picture path) (users db)))
| t_user (u : User) :
    user_id_ u = next_id user_id_ (users db) ->
    taken digital_token (digital_token u) (users db) = false ->
    taken username (username u) (users db) = false ->
    taken email (email u) (users db) = false ->
    taken pan_number (pan_number u) (users db) = false ->
    transition db (with_users db (users db ++ [u]))
| t_policy (p : Policy) (n : Nominee) :
    policy_id_ p = next_id policy_id_ (policies db) ->
    taken policy_number (policy_number p) (policies db) = false ->
    status p = "applied" ->
    nominee_id_ n = next_id nominee_id_ (nominees db) ->
    nominee_policy_id n = policy_id_ p ->
    nominee_user_id n = policy_user_id p ->
    transition db
      (mk_DB (users db) (schemes db) (policies db ++ [p]) (nominees db ++ [n])
         (claims db) (reports db))
| t_withdrawn (p : Policy) :
    get_row policy_id_ (policy_id_ p) (policies db) = Some p ->
    status p = "applied" ->
    transition db
      (with_policies db
         (update_row policy_id_ (policy_id_ p) (set_status "withdrawn") (policies db)))
| t_claim (c : Claim) :
    claim_id_ c = next_id claim_id_ (claims db) ->
    taken claim_number (claim_number c) (claims db) = false ->
    claim_status c = "submitted" ->
    transition db (with_claims db (claims db ++ [c]))
| t_report (r : Report) :
    report_id_ r = next_id report_id_ (reports db) ->
    transition db (with_reports db (reports db ++ [r])).

(* sorted, newest first *)
Fixpoint newest_first (l : list Policy) : Prop :=
  match l with
  | [] => True
  | p :: r => (forall q, In q r -> created_key q <= created_key p) /\ newest_first r
  end.

(* (y, m, d) <= (y', m', d') in the order of the calendar *)
Definition date_le (a b : date) : Prop :=
  year a < year b
  \/ (year a = year b /\ (month a < month b \/ (month a = month b /\ day a <= day b))).

(* the columns of the users table that are declared UNIQUE hold no value twice *)
Definition unique_users (db : DB) : Prop :=
  List.NoDup (map digital_token (users db)) /\ List.NoDup (map username (users db))
  /\ List.NoDup (map email (users db)) /\ List.NoDup (map pan_number (users db)).

(* primary keys *)
Definition unique_ids (db : DB) : Prop :=
  List.NoDup (map user_id_ (users db)) /\ List.NoDup (map policy_id_ (policies db))
  /\ List.NoDup (map nominee_id_ (nominees db)) /\ List.NoDup (map claim_id_ (claims db))
  /\ List.NoDup (map report_id_ (reports db)).

(* every nominee names a policy of the table, held by the same user *)
Definition nominees_attached (db : DB) : Prop :=
  forall n, In n (nominees db) ->
  exists p, get_row policy_id_ (nominee_policy_id n) (policies db) = Some p
            /\ policy_user_id p = nominee_user_id n.

(* no policy is active *)
Definition no_active_policy (db : DB) : Prop :=
  forall p, In p (policies db) -> status p <> "active".

(* all that a policy holds but its status *)
Definition same_contract (p q : Policy) : Prop :=
  policy_id_ q = policy_id_ p /\ policy_number q = policy_number p
  /\ policy_user_id q = policy_user_id p /\ policy_scheme_id q = policy_scheme_id p
  /\ start_date q = start_date p /\ end_date q = end_date p
  /\ premium_amount q = premium_amount p /\ coverage_amount q = coverage_amount p
  /\ created_at q = created_at p.


(* the numbers of policies and claims, declared UNIQUE, hold no value twice *)
Definition unique_numbers (db : DB) : Prop :=
  List.NoDup (map policy_number (policies db)) /\ List.NoDup (map claim_number (claims db)).

(* [q] is [p] at a later time: the same contract, and the status is the same
   or went from 'applied' to 'withdrawn' *)
Definition policy_later (p q : Policy) : Prop :=
  same_contract p q
  /\ (status q = status p \/ (status p = "applied" /\ status q = "withdrawn")).

(* [v] is [u] at a later time: all but the last login and the picture kept *)
Definition user_later (u v : User) : Prop :=
  user_id_ v = user_id_ u /\ digital_token v = digital_token u
  /\ username v = username u /\ password_hash v = password_hash u
  /\ full_name v = full_name u /\ email v = email u /\ phone v = phone u
  /\ date_of_birth v = date_of_birth u /\ age v = age u /\ gender v = gender u
  /\ address v = address u /\ pan_number v = pan_number u
  /\ face_data v = face_data u /\ fingerprint_data v = fingerprint_data u
  /\ retina_data v = retina_data u /\ account_status v = account_status u
  /\ user_created_at v = user_created_at u.

(* [l'] is [l] with its rows kept in place, each one related to what it
   was, and rows added at the end *)
Definition grown {A : Type} (R : A -> A -> Prop) (l l' : list A) : Prop :=
  exists kept added, l' = (kept ++ added)%list /\ Forall2 R l kept.

(* nothing is deleted, and nothing but a status, a last login or a picture
   is rewritten *)
Definition history (db db' : DB) : Prop :=
  schemes db' = schemes db
  /\ grown user_later (users db) (users db')
  /\ grown policy_later (policies db) (policies db')
  /\ grown eq (nominees db) (nominees db')
  /\ grown eq (claims db) (claims db')
  /\ grown eq (reports db) (reports db').

(* keys are keys, UNIQUE columns are, and nominees hang on policies *)
Definition consistent (db : DB) : Prop :=
  unique_ids db /\ unique_users db /\ unique_numbers db /\ nominees_attached db.

(* the extension of a file name, from its last dot on *)
Fixpoint last_dot (s : string) : option string :=
  match s with
  | EmptyString => None
  | String c r =>
      match last_dot r with
      | Some e => Some e
      | None => if Ascii.eqb c "." then Some s else None
      end
  end.

Definition ext_of_name (s : string) : string := default EmptyString (last_dot s).

(* a session of sample requests: bob registers and logs in, applies for the
   first scheme, looks at his policies, withdraws, and logs out *)
Definition sample_calls : list call :=
  [ CallRegister
      (mk_register_env "9f8e7d6c-0000-4000-8000-000000000000" (mk_date 2024 3 15)
         t_2024_03_15_1030)
      bob_request;
    CallLogin t_2024_03_15_1030
      (post_json [("username", PyStr "bob"); ("password", PyStr "correct horse")]);
    CallApplyPolicy
      (mk_apply_env t_2024_03_15_1030 "ab12cd34-0000-4000-8000-000000000000"
         (mk_date 2024 3 15) (mk_date 2024 3 15) t_2024_03_15_1030)
      1
      (post_form [("digital_token", "9f8e7d6c"); ("nominee_name", "Jane Doe");
                  ("nominee_relationship", "spouse")]);
    CallMyPolicies (mk_my_policies_env t_2024_03_15_1030 (fun _ => t_2024_03_15_1030));
    CallWithdrawPolicy (mk_datetime 2024 3 15 11 0 0 0) 1;
    CallLogout ].


Definition sample_claim_env : claim_env :=
  mk_claim_env t_2024_03_15_1030 "cd34ef56-0000-4000-8000-000000000000" t_2024_03_15_1030.

(* a claim with three uploads: the second has no file name, the third
   cannot be saved *)
Definition claim_with_documents : request :=
  mk_request POST false None
    (list_to_map [("digital_token", "a1b2c3d4"); ("policy_id", "1");
                  ("claim_amount", "1000")])
    [mk_upload "bill.pdf" t_2024_03_15_1030 true;
     mk_upload EmptyString t_2024_03_15_1030 true;
     mk_upload "scan.png" t_2024_03_15_1030 false].

(* a scheme that is not offered, for people from 60 to 80 years *)
Definition senior_plan : Scheme :=
  mk_Scheme 2 "Senior Citizen Life Cover" "life" "Life cover for senior citizens"
    (inject_Z 1200) (inject_Z 500000) 60 80 "[]" false.

Definition db2 : DB := mk_DB [alice] [pure_life; senior_plan] [] [] [] [].
(** * Properties *)

(** ** Basic facts *)

Ltac unfold_m :=
  unfold run_view, response_of, db_of, session_of, try_except, bind, ret, raise,
    of_option, get_session, set_session, query, set_pending, commit, rollback,
    form_item, form_get in *.

Lemma Qlt_bool_iff (x y : Q) : Qlt_bool x y = true <-> (x < y)%Q.
Proof.
  unfold Qlt_bool. rewrite negb_true_iff. split.
  - intros H. apply Qnot_le_lt. intros Hle.
    apply Qle_bool_iff in Hle. congruence.
  - intros H. destruct (Qle_bool y x) eqn:E; [|reflexivity].
    apply Qle_bool_iff in E. exfalso. exact (Qlt_not_le _ _ H E).
Qed.

(* seconds and microseconds: the quotient is below s exactly when the
   number of microseconds is below s * 10^6 *)
Lemma total_seconds_lt (td : timedelta) (s : Z) :
  (total_seconds td < inject_Z s)%Q <-> td < s * 1000000.
Proof. unfold total_seconds, Qlt, inject_Z. simpl. lia. Qed.

Lemma total_seconds_ge (td : timedelta) (s : Z) :
  (inject_Z s <= total_seconds td)%Q <-> s * 1000000 <= td.
Proof. unfold total_seconds, Qle, inject_Z. simpl. lia. Qed.

Lemma get_row_update {A : Type} (id : A -> Z) (f : A -> A) (k : Z) (rows : list A) :
  (forall r, id (f r) = id r) ->
  get_row id k (update_row id k f rows) = option_map f (get_row id k rows).
Proof.
  intros Hid. unfold get_row, update_row.
  induction rows as [|r rows IH]; simpl; [reflexivity|].
  destruct (id r =? k) eqn:E; simpl.
  - rewrite Hid, E. reflexivity.
  - rewrite E. exact IH.
Qed.

Lemma get_row_id {A : Type} (id : A -> Z) (k : Z) (rows : list A) (r : A) :
  get_row id k rows = Some r -> id r = k.
Proof.
  unfold get_row. intros H. apply find_some in H. destruct H as [_ H].
  apply Z.eqb_eq in H. exact H.
Qed.

Lemma update_row_length {A : Type} (id : A -> Z) (f : A -> A) (k : Z) (rows : list A) :
  length (update_row id k f rows) = length rows.
Proof. unfold update_row. apply length_map. Qed.

Lemma update_row_other {A : Type} (id : A -> Z) (f : A -> A) (k j : Z) (rows : list A) :
  (forall r, id (f r) = id r) -> j <> k ->
  get_row id j (update_row id k f rows) = get_row id j rows.
Proof.
  intros Hid Hne. unfold get_row, update_row.
  induction rows as [|r rows IH]; simpl; [reflexivity|].
  destruct (id r =? k) eqn:E.
  - rewrite Hid. apply Z.eqb_eq in E.
    destruct (id r =? j) eqn:E'; [apply Z.eqb_eq in E'; lia | exact IH].
  - destruct (id r =? j); [reflexivity | exact IH].
Qed.

(** ** The withdrawal window *)

Lemma is_withdrawable_iff (utcnow : datetime) (p : Policy) :
  is_withdrawable utcnow p = true <->
  status p = "applied"
  /\ (total_seconds (dt_sub utcnow (created_at p)) < inject_Z 86400)%Q.
Proof.
  unfold is_withdrawable.
  rewrite andb_true_iff, String.eqb_eq, Qlt_bool_iff. reflexivity.
Qed.

(** C1: [is_withdrawable] holds exactly when the status is 'applied' and the
    time elapsed since creation, at the reading of the clock the query
    makes, is below 86400 seconds; at 86400 seconds or more it is false
    whatever the status. *)
Theorem is_withdrawable_window (utcnow : datetime) (p : Policy) :
  (is_withdrawable utcnow p = true <->
     status p = "applied"
     /\ (total_seconds (dt_sub utcnow (created_at p)) < inject_Z 86400)%Q)
  /\ ((inject_Z 86400 <= total_seconds (dt_sub utcnow (created_at p)))%Q ->
      is_withdrawable utcnow p = false).
Proof.
  split.
  - apply is_withdrawable_iff.
  - intros Hge. unfold is_withdrawable. apply andb_false_iff. right.
    destruct (Qlt_bool _ _) eqn:E; [|reflexivity].
    apply Qlt_bool_iff in E. exfalso. exact (Qlt_not_le _ _ E Hge).
Qed.

Lemma is_withdrawable_window_witness :
  is_withdrawable (mk_datetime 2024 3 16 10 30 0 0) applied_policy = false.
Proof.
  apply (proj2 (is_withdrawable_window (mk_datetime 2024 3 16 10 30 0 0) applied_policy)).
  apply total_seconds_ge. vm_compute. discriminate.
Defined.

(* one microsecond before the 24 hours are over, and exactly at 24 hours *)
Example window_boundary :
  dt_sub (mk_datetime 2024 3 16 10 29 59 999999) t_2024_03_15_1030 = 86399999999
  /\ is_withdrawable (mk_datetime 2024 3 16 10 29 59 999999) applied_policy = true
  /\ dt_sub (mk_datetime 2024 3 16 10 30 0 0) t_2024_03_15_1030 = 86400000000
  /\ is_withdrawable (mk_datetime 2024 3 16 10 30 0 0) applied_policy = false
  /\ is_withdrawable (mk_datetime 2024 3 15 10 31 0 0) (set_status "active" applied_policy) = false.
Proof. vm_compute. repeat split. Qed.

(* the window in whole microseconds *)
Corollary is_withdrawable_microseconds (utcnow : datetime) (p : Policy) :
  is_withdrawable utcnow p = true <->
  status p = "applied" /\ dt_sub utcnow (created_at p) < 86400 * 1000000.
Proof.
  rewrite <- total_seconds_lt. apply is_withdrawable_iff.
Qed.

(** ** Withdrawing a policy *)

Lemma is_withdrawable_withdrawn (t : datetime) (p : Policy) :
  is_withdrawable t (set_status "withdrawn" p) = false.
Proof. unfold is_withdrawable. simpl. reflexivity. Qed.

(* the guard of the view fails: nothing is written *)
Lemma withdraw_policy_skip (utcnow : datetime) (policy_id uid : Z) (db : DB) (p : Policy) :
  get_row policy_id_ policy_id (policies db) = Some p ->
  policy_user_id p <> uid \/ is_withdrawable utcnow p = false ->
  run_view (withdraw_policy utcnow policy_id) db (Some uid)
    = (Redirect "/my-policies", db, Some uid).
Proof.
  intros Hget Hgate.
  assert (Hcond : (policy_user_id p =? uid) && is_withdrawable utcnow p = false).
  { destruct Hgate as [Hne | Hw].
    - apply andb_false_iff. left. apply Z.eqb_neq. exact Hne.
    - apply andb_false_iff. right. exact Hw. }
  unfold withdraw_policy. unfold_m. simpl. rewrite Hget. simpl. rewrite Hcond.
  reflexivity.
Qed.

(** C10: a withdraw call on an existing policy that the caller does not own,
    or that is not withdrawable when the call is made, answers with the
    redirect to the list of policies and leaves the database, hence every
    field of the policy, as it was. *)
Theorem withdraw_policy_gated (utcnow : datetime) (policy_id uid : Z) (db : DB) (p : Policy) :
  get_row policy_id_ policy_id (policies db) = Some p ->
  policy_user_id p <> uid \/ is_withdrawable utcnow p = false ->
  run_view (withdraw_policy utcnow policy_id) db (Some uid)
    = (Redirect "/my-policies", db, Some uid)
  /\ get_row policy_id_ policy_id
       (policies (db_of (run_view (withdraw_policy utcnow policy_id) db (Some uid)))) = Some p.
Proof.
  intros Hget Hgate.
  pose proof (withdraw_policy_skip utcnow policy_id uid db p Hget Hgate) as Hrun.
  split; [exact Hrun|]. rewrite Hrun. exact Hget.
Qed.

Lemma withdraw_policy_gated_witness :
  run_view (withdraw_policy (mk_datetime 2024 3 15 11 0 0 0) 1) db1 (Some 2)
    = (Redirect "/my-policies", db1, Some 2)
  /\ get_row policy_id_ 1
       (policies (db_of (run_view (withdraw_policy (mk_datetime 2024 3 15 11 0 0 0) 1) db1 (Some 2))))
     = Some applied_policy.
Proof.
  apply (withdraw_policy_gated (mk_datetime 2024 3 15 11 0 0 0) 1 2 db1 applied_policy).
  - reflexivity.
  - left. vm_compute. discriminate.
Defined.

(* what a withdraw call by the owner inside the window does *)
Lemma withdraw_policy_first (utcnow : datetime) (policy_id uid : Z) (db : DB) (p : Policy) :
  get_row policy_id_ policy_id (policies db) = Some p ->
  policy_user_id p = uid ->
  is_withdrawable utcnow p = true ->
  run_view (withdraw_policy utcnow policy_id) db (Some uid)
    = (Redirect "/my-policies",
       with_policies db (update_row policy_id_ policy_id (set_status "withdrawn") (policies db)),
       Some uid).
Proof.
  intros Hget Hown Hw. unfold withdraw_policy. unfold_m. simpl. rewrite Hget. simpl.
  rewrite Hw. apply Z.eqb_eq in Hown. rewrite Hown. simpl.
  rewrite (get_row_id _ _ _ _ Hget). reflexivity.
Qed.

(** C5: for a policy of the caller with status 'applied' and less than 24
    hours old, the first withdraw call sets the status to 'withdrawn'; a
    second call, whenever it is made, raises nothing and changes nothing, so
    the status stays 'withdrawn'. *)
Theorem withdraw_policy_twice (t1 t2 : datetime) (policy_id uid : Z) (db : DB) (p : Policy) :
  get_row policy_id_ policy_id (policies db) = Some p ->
  policy_user_id p = uid ->
  status p = "applied" ->
  (total_seconds (dt_sub t1 (created_at p)) < inject_Z 86400)%Q ->
  let first := run_view (withdraw_policy t1 policy_id) db (Some uid) in
  let second := run_view (withdraw_policy t2 policy_id) (db_of first) (Some uid) in
  response_of first = Redirect "/my-policies"
  /\ get_row policy_id_ policy_id (policies (db_of first)) = Some (set_status "withdrawn" p)
  /\ response_of second = Redirect "/my-policies"
  /\ db_of second = db_of first
  /\ option_map status (get_row policy_id_ policy_id (policies (db_of second)))
     = Some "withdrawn".
Proof.
  intros Hget Hown Hst Hage first second.
  assert (Hw : is_withdrawable t1 p = true).
  { apply is_withdrawable_iff. split; assumption. }
  assert (Hfirst : first = (Redirect "/my-policies",
            with_policies db (update_row policy_id_ policy_id (set_status "withdrawn") (policies db)),
            Some uid)).
  { apply (withdraw_policy_first t1 policy_id uid db p); assumption. }
  assert (Hget' : get_row policy_id_ policy_id (policies (db_of first))
                  = Some (set_status "withdrawn" p)).
  { rewrite Hfirst. unfold db_of. simpl.
    rewrite get_row_update by (intros r; reflexivity). rewrite Hget. reflexivity. }
  assert (Hsecond : second = (Redirect "/my-policies", db_of first, Some uid)).
  { apply (withdraw_policy_skip t2 policy_id uid (db_of first) (set_status "withdrawn" p) Hget').
    right. apply is_withdrawable_withdrawn. }
  split; [rewrite Hfirst; reflexivity|].
  split; [exact Hget'|].
  split; [rewrite Hsecond; reflexivity|].
  split; [rewrite Hsecond; reflexivity|].
  rewrite Hsecond. unfold db_of at 1. simpl. fold (db_of first). rewrite Hget'. reflexivity.
Qed.

Lemma withdraw_policy_twice_witness :
  let first := run_view (withdraw_policy (mk_datetime 2024 3 15 11 0 0 0) 1) db1 (Some 1) in
  let second := run_view (withdraw_policy (mk_datetime 2024 3 15 11 5 0 0) 1) (db_of first) (Some 1) in
  response_of first = Redirect "/my-policies"
  /\ get_row policy_id_ 1 (policies (db_of first)) = Some (set_status "withdrawn" applied_policy)
  /\ response_of second = Redirect "/my-policies"
  /\ db_of second = db_of first
  /\ option_map status (get_row policy_id_ 1 (policies (db_of second))) = Some "withdrawn".
Proof.
  apply (withdraw_policy_twice (mk_datetime 2024 3 15 11 0 0 0) (mk_datetime 2024 3 15 11 5 0 0)
           1 1 db1 applied_policy).
  - reflexivity.
  - reflexivity.
  - reflexivity.
  - apply total_seconds_lt. vm_compute. reflexivity.
Defined.

(** ** Passwords *)


Example sha256_constants :
  nth 0 Sha256.K 0 = 1116352408 /\ nth 63 Sha256.K 0 = 3329325298
  /\ length Sha256.K = 64%nat
  /\ nth 0 Sha256.H0 0 = 1779033703 /\ nth 7 Sha256.H0 0 = 1541459225.
Proof. vm_compute. repeat split. Qed.

Example hash_password_vectors :
  hash_password "abc" = "ba7816bf8f01cfea414140de5dae2223b00361a396177a9cb410ff61f20015ad"
  /\ hash_password "" = "e3b0c44298fc1c149afbf4c8996fb92427ae41e4649b934ca495991b7852b855"
  /\ hash_password "aaaaaaaaaaaaaaaaaaaaaaaaaaaaaaaaaaaaaaaaaaaaaaaaaaaaaaaa"
     = "b35439a4ac6f0948b6d6f9e3c6af0f5f590ce20f1bde7090ef7970686ec6738a"
  /\ hash_password "secret123" = password_hash alice
  /\ verify_password "secret123" (password_hash alice) = true
  /\ verify_password "Secret123" (password_hash alice) = false.
Proof. vm_compute. repeat split. Qed.

(** ** Dates *)

Example calendar_samples :
  toordinal (mk_date 2024 3 15) = 738960
  /\ ord2ymd 738960 = mk_date 2024 3 15
  /\ date_add_days (mk_date 2024 3 15) 3650 = Some (mk_date 2034 3 13)
  /\ ord2ymd 1 = mk_date 1 1 1
  /\ ord2ymd MAXORDINAL = mk_date 9999 12 31
  /\ date_add_days (mk_date 9999 12 31) 1 = None
  /\ ord2ymd (ymd2ord 2000 2 29) = mk_date 2000 2 29
  /\ ord2ymd (ymd2ord 2024 12 31) = mk_date 2024 12 31
  /\ calculate_age (mk_date 2024 3 15) (mk_date 1994 3 16) = 29
  /\ calculate_age (mk_date 2024 3 15) (mk_date 1994 3 15) = 30
  /\ strftime "%Y%m%d_%H%M%S_" (mk_datetime 2024 3 15 10 30 7 5) = "20240315_103007_"
  /\ validate_pan "abcde1234f" = true
  /\ validate_pan "ABCD1234EF" = false.
Proof. vm_compute. repeat split. Qed.

(** ** Applying with a wrong token *)



(** ** Reference ids of reports *)

Lemma append_empty_r (s : string) : String.append s "" = s.
Proof.
  induction s as [|c s IH]; [reflexivity|].
  change (String c (String.append s "") = String c s). rewrite IH. reflexivity.
Qed.

Lemma strftime_stamp (t : datetime) : strftime "%Y%m%d%H%M" t = YYYYMMDDHHMM t.
Proof.
  unfold YYYYMMDDHHMM. cbn -[PyStr.zero_pad String.append].
  rewrite append_empty_r. reflexivity.
Qed.

Lemma report_transaction_post (env : report_env) (req : request) (db : DB) (uid : Z)
    (description : string) :
  method req = POST ->
  form req !! "description" = Some description ->
  run_view (report_transaction env req) db (Some uid)
  = (Html (ReportSubmitted (String.append "REP" (strftime "%Y%m%d%H%M" (render_now env)))),
     with_reports db
       (reports db ++ [mk_Report (next_id report_id_ (reports db)) uid
                         "unauthorized_transaction" description "submitted"
                         (report_utcnow env)])%list,
     Some uid).
Proof.
  intros Hpost Hdesc. unfold report_transaction, flush_report. unfold_m.
  cbn -[strftime String.append]. rewrite Hpost, Hdesc. reflexivity.
Qed.




(* the stored created_at is a reading of its own; the id shows its digits
   whenever both readings fall in the same minute *)
Lemma report_reference_created_at (env : report_env) (req : request) (db : DB) (uid : Z)
    (description : string) :
  method req = POST ->
  form req !! "description" = Some description ->
  YYYYMMDDHHMM (render_now env) = YYYYMMDDHHMM (report_utcnow env) ->
  exists row,
    reports (db_of (run_view (report_transaction env req) db (Some uid)))
    = (reports db ++ [row])%list
    /\ response_of (run_view (report_transaction env req) db (Some uid))
       = Html (ReportSubmitted (reference_id_spec (report_type row) (report_created_at row))).
Proof.
  intros Hpost Hdesc Hminute.
  rewrite (report_transaction_post env req db uid description Hpost Hdesc).
  eexists. split; [reflexivity|].
  unfold response_of, reference_id_spec, reference_prefix.
  cbn -[strftime String.append YYYYMMDDHHMM]. rewrite strftime_stamp, Hminute. reflexivity.
Qed.

(* the scenario of the specification *)
Example report_2024_03_15 :
  response_of (run_view
    (report_transaction (mk_report_env t_2024_03_15_1030 t_2024_03_15_1030)
       (post_form [("description", "card charged twice")])) db0 (Some 1))
  = Html (ReportSubmitted "REP202403151030")
  /\ response_of (run_view
    (complaints_feedback (mk_report_env t_2024_03_15_1030 t_2024_03_15_1030)
       (post_form [("description", "slow service")])) db0 (Some 1))
  = Html (FeedbackSubmitted "FB202403151030").
Proof. vm_compute. split; reflexivity. Qed.

(** The same id as a numeral: the twelve digits of [stamp_number]. *)

Lemma zero_pad_S (w : nat) (n : Z) :
  PyStr.zero_pad (S w) n
  = String.append (PyStr.zero_pad w (n / 10))
      (String (PyStr.digit_char (n mod 10)) EmptyString).
Proof. reflexivity. Qed.

Lemma append_assoc (a b c : string) :
  String.append (String.append a b) c = String.append a (String.append b c).
Proof.
  induction a as [|x a IH]; [reflexivity|].
  change (String x (String.append (String.append a b) c)
          = String x (String.append a (String.append b c))).
  rewrite IH. reflexivity.
Qed.

Lemma zero_pad_split (b a : nat) (x y : Z) :
  0 <= y < 10 ^ Z.of_nat b ->
  PyStr.zero_pad (a + b) (x * 10 ^ Z.of_nat b + y)
  = String.append (PyStr.zero_pad a x) (PyStr.zero_pad b y).
Proof.
  revert y. induction b as [|b IH]; intros y Hy.
  - change (10 ^ Z.of_nat 0) with 1 in *. assert (y = 0) by lia. subst y.
    rewrite Nat.add_0_r. replace (x * 1 + 0) with x by lia.
    change (PyStr.zero_pad 0 0) with EmptyString. rewrite append_empty_r. reflexivity.
  - rewrite Nat.add_succ_r, !zero_pad_S.
    rewrite Nat2Z.inj_succ, Z.pow_succ_r in * by lia.
    assert (Hdiv : (x * (10 * 10 ^ Z.of_nat b) + y) / 10 = x * 10 ^ Z.of_nat b + y / 10).
    { replace (x * (10 * 10 ^ Z.of_nat b) + y) with (y + (x * 10 ^ Z.of_nat b) * 10) by lia.
      rewrite Z.div_add by lia. lia. }
    assert (Hmod : (x * (10 * 10 ^ Z.of_nat b) + y) mod 10 = y mod 10).
    { replace (x * (10 * 10 ^ Z.of_nat b) + y) with (y + (x * 10 ^ Z.of_nat b) * 10) by lia.
      apply Z.mod_add. lia. }
    rewrite Hdiv, Hmod, IH.
    + apply append_assoc.
    + split; [apply Z.div_pos; lia|]. apply Z.div_lt_upper_bound; lia.
Qed.

Lemma days_in_month_le (y m : Z) : days_in_month y m <= 31.
Proof.
  unfold days_in_month. destruct ((m =? 2) && is_leap y); [lia|].
  unfold DAYS_IN_MONTH.
  generalize (Z.to_nat m) as n. intros n.
  do 13 (destruct n as [|n]; [simpl; lia|]).
  simpl. destruct n; lia.
Qed.

Lemma zero_pad_two (a : nat) (x y : Z) :
  0 <= y < 100 ->
  PyStr.zero_pad (S (S a)) (x * 100 + y)
  = String.append (PyStr.zero_pad a x) (PyStr.zero_pad 2 y).
Proof.
  intros Hy. replace (S (S a)) with (a + 2)%nat by lia.
  exact (zero_pad_split 2 a x y Hy).
Qed.

Lemma stamp_digits (t : datetime) :
  valid_datetime t = true ->
  YYYYMMDDHHMM t = PyStr.zero_pad 12 (stamp_number t).
Proof.
  intros H. unfold valid_datetime, valid_date, dt_date in H. simpl in H.
  rewrite !andb_true_iff, !Z.leb_le in H.
  pose proof (days_in_month_le (dt_year t) (dt_month t)) as Hd.
  unfold YYYYMMDDHHMM, stamp_number.
  rewrite !zero_pad_two by lia.
  rewrite !append_assoc. reflexivity.
Qed.

Example stamp_2024_03_15 :
  stamp_number t_2024_03_15_1030 = 202403151030
  /\ reference_id_spec "unauthorized_transaction" t_2024_03_15_1030 = "REP202403151030"
  /\ reference_id_spec "complaint_feedback" t_2024_03_15_1030 = "FB202403151030".
Proof. vm_compute. repeat split. Qed.

(** ** Filing a claim *)

Section MakeClaimFacts.

Variable float_of_str : string -> option Q.
Variable secure_filename : string -> string.
Variable os_path_join : string -> string -> string.

(* saving the documents reads and writes no table *)
Lemma save_documents_store (fs : list upload) (s : store) :
  snd (save_documents secure_filename os_path_join fs s) = s.
Proof.
  induction fs as [|f fs IH]; simpl; [reflexivity|].
  destruct (PyStr.nonempty (up_filename f)); [|exact IH].
  destruct (up_saved f); [|reflexivity].
  unfold bind, ret.
  destruct (save_documents secure_filename os_path_join fs s) as [[docs|e] s'] eqn:E;
    simpl in IH; subst s'; reflexivity.
Qed.

(* with the right token, an amount that parses and a fresh claim number,
   the Claim row is written whatever the policy the form names: the
   policies table is not consulted *)
Lemma make_claim_post (env : claim_env) (req : request) (db : DB) (uid : Z) (user : User)
    (policy_id amount_text : string) (amount : Q) (docs : list string) :
  method req = POST ->
  get_row user_id_ uid (users db) = Some user ->
  PyStr.upper (form_get req "digital_token") = digital_token user ->
  fst (save_documents secure_filename os_path_join (files req) (mk_store db db (Some uid)))
    = Ret docs ->
  form req !! "policy_id" = Some policy_id ->
  form req !! "claim_amount" = Some amount_text ->
  float_of_str amount_text = Some amount ->
  taken claim_number (generate_claim_number (claim_now env) (claim_uuid4 env)) (claims db)
    = false ->
  let claim :=
    mk_Claim (next_id claim_id_ (claims db))
      (generate_claim_number (claim_now env) (claim_uuid4 env))
      (user_id_ user) (integer_affinity policy_id) amount docs "submitted"
      (claim_utcnow env) in
  run_view (make_claim float_of_str secure_filename os_path_join env req) db (Some uid)
  = (Html (ClaimSubmitted claim), with_claims db (claims db ++ [claim])%list, Some uid).
Proof.
  intros Hpost Huser Htoken Hdocs Hpid Hamt Hfloat Hfresh claim.
  unfold make_claim, flush_claim. unfold_m.
  cbn -[generate_claim_number save_documents PyStr.upper integer_affinity next_id].
  rewrite Huser. cbn -[generate_claim_number save_documents PyStr.upper integer_affinity next_id].
  rewrite Hpost.
  unfold form_get in Htoken. rewrite Htoken, String.eqb_refl.
  cbn -[generate_claim_number save_documents PyStr.upper integer_affinity next_id].
  pose proof (save_documents_store (files req) (mk_store db db (Some uid))) as Hs.
  destruct (save_documents secure_filename os_path_join (files req) (mk_store db db (Some uid)))
    as [r s'] eqn:E.
  simpl in Hs, Hdocs. subst s' r.
  rewrite Hpid. cbn -[generate_claim_number save_documents PyStr.upper integer_affinity next_id].
  rewrite Hamt. cbn -[generate_claim_number save_documents PyStr.upper integer_affinity next_id].
  rewrite Hfloat. cbn -[generate_claim_number save_documents PyStr.upper integer_affinity next_id].
  rewrite Hfresh. reflexivity.
Qed.

End MakeClaimFacts.

(** C2: the view does not check the policy a claim names.  For user 1, whose
    only policy has status 'applied', a request with the right token files a
    Claim against that policy: the page of a submitted claim comes back and
    the claims table, empty before, holds the new row. *)
Theorem make_claim_applied_policy :
  run_view
    (make_claim float_of_digits (fun s => s) posix_join
       (mk_claim_env t_2024_03_15_1030 "ab12cd34-0000-4000-8000-000000000000"
          t_2024_03_15_1030)
       (post_form [("digital_token", "A1B2C3D4"); ("policy_id", "1");
                   ("claim_amount", "1000")]))
    db1 (Some 1)
  = (Html (ClaimSubmitted claim_on_applied),
     mk_DB [alice] [pure_life] [applied_policy] [] [claim_on_applied] [], Some 1)
  /\ get_row policy_id_ 1 (policies db1) = Some applied_policy
  /\ status applied_policy = "applied"
  /\ claims db1 = []
  /\ claim_policy_id claim_on_applied = SqlInteger 1.
Proof. repeat split; vm_compute; reflexivity. Qed.

(* the same for a policy that belongs to nobody *)
Example make_claim_foreign_policy :
  db_of (run_view
    (make_claim float_of_digits (fun s => s) posix_join
       (mk_claim_env t_2024_03_15_1030 "ab12cd34-0000-4000-8000-000000000000"
          t_2024_03_15_1030)
       (post_form [("digital_token", "a1b2c3d4"); ("policy_id", "77");
                   ("claim_amount", "1000")]))
    db1 (Some 1))
  = mk_DB [alice] [pure_life] [applied_policy] []
      [mk_Claim 1 "CLM202403151030AB12CD" 1 (SqlInteger 77) (inject_Z 1000) [] "submitted"
         t_2024_03_15_1030] []
  /\ get_row policy_id_ 77 (policies db1) = None.
Proof. repeat split; vm_compute; reflexivity. Qed.


(** ** Applying for a policy *)

Ltac step_apply :=
  cbn -[generate_policy_number PyStr.upper date_add_days next_id Z.mul].

(* every way a request to the view can end: nothing is written, or one
   Policy and one Nominee are, by the single commit *)
Lemma apply_policy_outcome (env : apply_env) (scheme_id : Z) (req : request) (db : DB)
    (sess : option Z) :
  let r := run_view (apply_policy env scheme_id req) db sess in
  (db_of r = db /\ forall p n, response_of r <> Html (ApplicationSuccessful p n))
  \/ (exists uid user scheme ends name rel,
        sess = Some uid
        /\ get_row user_id_ uid (users db) = Some user
        /\ get_row scheme_id_ scheme_id (schemes db) = Some scheme
        /\ PyStr.upper (form_get req "digital_token") = digital_token user
        /\ date_add_days (apply_today_end env) 3650 = Some ends
        /\ form req !! "nominee_name" = Some name
        /\ form req !! "nominee_relationship" = Some rel
        /\ let (p, n) := applied_rows env req db user scheme ends name rel in
           response_of r = Html (ApplicationSuccessful p n)
           /\ db_of r = mk_DB (users db) (schemes db) (policies db ++ [p])%list
                          (nominees db ++ [n])%list (claims db) (reports db)).
Proof.
  intros r. subst r. unfold apply_policy, flush_policy, flush_nominee. unfold_m.
  step_apply.
  destruct sess as [uid|]; step_apply; [|left; split; [reflexivity | discriminate]].
  destruct (get_row scheme_id_ scheme_id (schemes db)) as [scheme|] eqn:Hscheme; step_apply;
    [|left; split; [reflexivity | discriminate]].
  destruct (method req) eqn:Hm; step_apply; [left; split; [reflexivity | discriminate]|].
  destruct (get_row user_id_ uid (users db)) as [user|] eqn:Huser; step_apply;
    [|left; split; [reflexivity | discriminate]].
  destruct (String.eqb (digital_token user)
              (PyStr.upper (default "" (form req !! "digital_token")))) eqn:Htok; step_apply;
    [|left; split; [reflexivity | discriminate]].
  change (365 * 10) with 3650.
  destruct (date_add_days (apply_today_end env) 3650) as [ends|] eqn:Hends; step_apply;
    [|left; split; [reflexivity | discriminate]].
  destruct (taken policy_number (generate_policy_number (apply_now env) (apply_uuid4 env))
              (policies db)) eqn:Htaken; step_apply;
    [left; split; [reflexivity | discriminate]|].
  destruct (form req !! "nominee_name") as [name|] eqn:Hname; step_apply;
    [|left; split; [reflexivity | discriminate]].
  destruct (form req !! "nominee_relationship") as [rel|] eqn:Hrel; step_apply;
    [|left; split; [reflexivity | discriminate]].
  right. exists uid, user, scheme, ends, name, rel.
  apply String.eqb_eq in Htok.
  repeat (split; [solve [reflexivity | assumption | (symmetry; exact Htok)]|]).
  unfold applied_rows. split; reflexivity.
Qed.

(* a successful application: the rows, and what they hold *)
Lemma apply_policy_success (env : apply_env) (scheme_id : Z) (req : request) (db : DB)
    (sess : option Z) (p : Policy) (n : Nominee) :
  response_of (run_view (apply_policy env scheme_id req) db sess)
    = Html (ApplicationSuccessful p n) ->
  exists scheme,
    get_row scheme_id_ scheme_id (schemes db) = Some scheme
    /\ policies (db_of (run_view (apply_policy env scheme_id req) db sess))
       = (policies db ++ [p])%list
    /\ nominees (db_of (run_view (apply_policy env scheme_id req) db sess))
       = (nominees db ++ [n])%list
    /\ status p = "applied"
    /\ premium_amount p = scheme_premium_amount scheme
    /\ coverage_amount p = scheme_coverage_amount scheme
    /\ start_date p = apply_today_start env
    /\ Some (end_date p) = date_add_days (apply_today_end env) 3650
    /\ nominee_policy_id n = policy_id_ p
    /\ sess = Some (policy_user_id p)
    /\ nominee_user_id n = policy_user_id p.
Proof.
  intros Hresp.
  destruct (apply_policy_outcome env scheme_id req db sess)
    as [[_ Hno] | (uid & user & scheme & ends & name & rel & Hs & Hu & Hsch & Ht & He & Hn & Hr & H)].
  - exfalso. exact (Hno p n Hresp).
  - unfold applied_rows in H. destruct H as [Hresp' Hdb].
    rewrite Hresp in Hresp'. injection Hresp' as -> ->.
    exists scheme. rewrite Hdb. simpl.
    repeat (split; [solve [reflexivity | assumption | (symmetry; assumption)]|]).
    split; [|reflexivity].
    rewrite Hs. f_equal. symmetry. exact (get_row_id _ _ _ _ Hu).
Qed.

(* when both readings of the date agree, the policy ends 3650 days after it starts *)
Lemma apply_policy_same_day (env : apply_env) (scheme_id : Z) (req : request) (db : DB)
    (sess : option Z) (p : Policy) (n : Nominee) :
  apply_today_start env = apply_today_end env ->
  response_of (run_view (apply_policy env scheme_id req) db sess)
    = Html (ApplicationSuccessful p n) ->
  Some (end_date p) = date_add_days (start_date p) 3650.
Proof.
  intros Hday Hresp.
  destruct (apply_policy_success env scheme_id req db sess p n Hresp)
    as (scheme & _ & _ & _ & _ & _ & _ & Hstart & Hend & _).
  rewrite Hstart, Hday. exact Hend.
Qed.

(* the scenario of the specification *)
Example apply_pure_life :
  run_view
    (apply_policy
       (mk_apply_env t_2024_03_15_1030 "ab12cd34-0000-4000-8000-000000000000"
          (mk_date 2024 3 15) (mk_date 2024 3 15) t_2024_03_15_1030)
       1
       (post_form [("digital_token", "a1b2c3d4"); ("nominee_name", "Jane Doe");
                   ("nominee_relationship", "spouse")]))
    db0 (Some 1)
  = (Html (ApplicationSuccessful applied_policy jane_doe),
     mk_DB [alice] [pure_life] [applied_policy] [jane_doe] [] [], Some 1)
  /\ status applied_policy = "applied"
  /\ premium_amount applied_policy = scheme_premium_amount pure_life
  /\ coverage_amount applied_policy = scheme_coverage_amount pure_life
  /\ Some (end_date applied_policy) = date_add_days (start_date applied_policy) 3650
  /\ toordinal (end_date applied_policy) = toordinal (start_date applied_policy) + 3650.
Proof. repeat split; vm_compute; reflexivity. Qed.

(* the nominee's name is missing: the flushed Policy is dropped with the request *)
Example apply_without_nominee :
  run_view
    (apply_policy
       (mk_apply_env t_2024_03_15_1030 "ab12cd34-0000-4000-8000-000000000000"
          (mk_date 2024 3 15) (mk_date 2024 3 15) t_2024_03_15_1030)
       1 (post_form [("digital_token", "a1b2c3d4")]))
    db0 (Some 1)
  = (HttpError 400, db0, Some 1).
Proof. vm_compute. reflexivity. Qed.

(** C4: the view reads the current date once for start_date and once more
    for end_date.  A request handled while the date changes, the first
    reading 2024-03-15 and the second 2024-03-16, succeeds and stores one
    Policy and its Nominee, and that policy ends 3651 days after it starts:
    its end_date is 2034-03-14 where start_date plus 3650 days is
    2034-03-13. *)
Theorem apply_policy_across_midnight :
  run_view
    (apply_policy
       (mk_apply_env (mk_datetime 2024 3 15 23 59 0 0)
          "ab12cd34-0000-4000-8000-000000000000"
          (mk_date 2024 3 15) (mk_date 2024 3 16) (mk_datetime 2024 3 15 18 29 0 0))
       1
       (post_form [("digital_token", "A1B2C3D4"); ("nominee_name", "Jane Doe");
                   ("nominee_relationship", "spouse")]))
    db0 (Some 1)
  = (Html (ApplicationSuccessful midnight_policy jane_doe),
     mk_DB [alice] [pure_life] [midnight_policy] [jane_doe] [] [], Some 1)
  /\ status midnight_policy = "applied"
  /\ start_date midnight_policy = mk_date 2024 3 15
  /\ end_date midnight_policy = mk_date 2034 3 14
  /\ date_add_days (start_date midnight_policy) 3650 = Some (mk_date 2034 3 13)
  /\ toordinal (end_date midnight_policy) = toordinal (start_date midnight_policy) + 3651.
Proof. repeat split; vm_compute; reflexivity. Qed.

(** ** Logging in *)

(* the credentials are strings: the user is unknown, or the password does
   not hash to what is stored; both give the same answer, and nothing is
   written *)
Lemma login_invalid_credentials (utcnow : datetime) (req : request) (db : DB)
    (sess : option Z) (m : gmap string pyval) (u pw : string) :
  method req = POST ->
  (forall s, login_data req s = (Ret (JDict m), s)) ->
  m !! "username" = Some (PyStr u) ->
  m !! "password" = Some (PyStr pw) ->
  PyStr.nonempty (PyStr.strip u) = true ->
  PyStr.nonempty pw = true ->
  match user_by_username (PyStr.strip u) db with
  | None => True
  | Some user => verify_password pw (password_hash user) = false
  end ->
  run_view (login utcnow req) db sess
  = (Json (Message false "Invalid username or password") 401, db, sess).
Proof.
  intros Hpost Hdata Hu Hpw Hune Hpwne Hfail.
  unfold login. rewrite Hpost. unfold_m. rewrite Hdata.
  assert (Hm : body_truthy (JDict m) = true).
  { unfold body_truthy. apply bool_decide_eq_true. intros ->.
    rewrite lookup_empty in Hu. discriminate. }
  rewrite Hm. cbn -[PyStr.strip verify_password user_by_username].
  rewrite Hu. cbn -[PyStr.strip verify_password user_by_username].
  rewrite Hpw. cbn -[PyStr.strip verify_password user_by_username].
  rewrite Hune, Hpwne. cbn -[PyStr.strip verify_password user_by_username].
  destruct (user_by_username (PyStr.strip u) db) as [user|].
  - cbn -[PyStr.strip verify_password user_by_username]. rewrite Hfail. reflexivity.
  - reflexivity.
Qed.

(* the password of a JSON body is not a string (a number, true, a list):
   the answer tells a known username from an unknown one *)
Lemma login_nonstr_password (utcnow : datetime) (req : request) (db : DB)
    (sess : option Z) (m : gmap string pyval) (u : string) :
  method req = POST ->
  is_json req = true ->
  json req = Some (JDict m) ->
  m !! "username" = Some (PyStr u) ->
  m !! "password" = Some (PyOther true) ->
  PyStr.nonempty (PyStr.strip u) = true ->
  run_view (login utcnow req) db sess
  = match user_by_username (PyStr.strip u) db with
    | Some _ => (Json (Message false "Login failed. Please try again.") 500, db, sess)
    | None => (Json (Message false "Invalid username or password") 401, db, sess)
    end.
Proof.
  intros Hpost Hjson Hbody Hu Hpw Hune.
  unfold login, login_data. rewrite Hpost, Hjson, Hbody. unfold_m.
  assert (Hm : body_truthy (JDict m) = true).
  { unfold body_truthy. apply bool_decide_eq_true. intros ->.
    rewrite lookup_empty in Hu. discriminate. }
  cbn -[PyStr.strip verify_password user_by_username body_truthy].
  rewrite Hm. cbn -[PyStr.strip verify_password user_by_username].
  rewrite Hu. cbn -[PyStr.strip verify_password user_by_username].
  rewrite Hpw. cbn -[PyStr.strip verify_password user_by_username].
  rewrite Hune. cbn -[PyStr.strip verify_password user_by_username].
  destruct (user_by_username (PyStr.strip u) db) as [user|]; reflexivity.
Qed.


(** C7: the view answers a wrong password and an unknown username with the
    same message only as long as the password is a string.  With the JSON
    password 123 the attempt for the registered username alice ends in the
    handler of exceptions, status 500 and 'Login failed. Please try again.',
    and the attempt for the unknown username ghost in status 401 and
    'Invalid username or password'. *)
Theorem login_distinguishes_known_username :
  let known := post_json [("username", PyStr "alice"); ("password", PyOther true)] in
  let unknown := post_json [("username", PyStr "ghost"); ("password", PyOther true)] in
  user_by_username "alice" db0 = Some alice
  /\ user_by_username "ghost" db0 = None
  /\ run_view (login t_2024_03_15_1030 known) db0 None
     = (Json (Message false "Login failed. Please try again.") 500, db0, None)
  /\ run_view (login t_2024_03_15_1030 unknown) db0 None
     = (Json (Message false "Invalid username or password") 401, db0, None).
Proof. vm_compute. repeat split. Qed.

(* with string passwords both failures read alike, and the right password logs in *)
Example login_alice :
  response_of (run_view (login t_2024_03_15_1030
      (post_json [("username", PyStr "alice"); ("password", PyStr "wrong")])) db0 None)
  = Json (Message false "Invalid username or password") 401
  /\ response_of (run_view (login t_2024_03_15_1030
      (post_json [("username", PyStr "ghost"); ("password", PyStr "wrong")])) db0 None)
  = Json (Message false "Invalid username or password") 401
  /\ response_of (run_view (login t_2024_03_15_1030
      (post_form [("username", " alice "); ("password", "secret123")])) db0 None)
  = Json (LoggedIn "/dashboard") 200
  /\ session_of (run_view (login t_2024_03_15_1030
      (post_form [("username", " alice "); ("password", "secret123")])) db0 None)
  = Some 1.
Proof. vm_compute. repeat split. Qed.

(** ** Registering *)

Lemma next_id_above {A : Type} (id : A -> Z) (rows : list A) (r : A) :
  In r rows -> id r < next_id id rows.
Proof.
  unfold next_id. induction rows as [|x rows IH]; simpl; [tauto|].
  intros [-> | Hin]; [lia|]. specialize (IH Hin). lia.
Qed.

Lemma update_row_absent {A : Type} (id : A -> Z) (f : A -> A) (k : Z) (rows : list A) :
  (forall r, In r rows -> id r <> k) -> update_row id k f rows = rows.
Proof.
  unfold update_row. induction rows as [|x rows IH]; simpl; [reflexivity|].
  intros H. rewrite IH by (intros r Hr; apply H; right; exact Hr).
  destruct (id x =? k) eqn:E; [|reflexivity].
  apply Z.eqb_eq in E. exfalso. apply (H x); [left; reflexivity | exact E].
Qed.

(* the row that was just inserted is the only one with its id *)
Lemma update_row_last {A : Type} (id : A -> Z) (f : A -> A) (rows : list A) (x : A) :
  id x = next_id id rows ->
  update_row id (next_id id rows) f (rows ++ [x]) = (rows ++ [f x])%list.
Proof.
  intros Hx. unfold update_row. rewrite map_app. fold (update_row id (next_id id rows) f rows).
  rewrite update_row_absent.
  - simpl. rewrite Hx, Z.eqb_refl. reflexivity.
  - intros r Hr. pose proof (next_id_above id rows r Hr). lia.
Qed.

Lemma taken_false {A : Type} (col : A -> string) (v : string) (rows : list A) :
  taken col v rows = false <-> forall r, In r rows -> col r <> v.
Proof.
  unfold taken. split.
  - intros H r Hr E.
    assert (existsb (fun r0 => String.eqb (col r0) v) rows = true).
    { apply existsb_exists. exists r. split; [exact Hr | apply String.eqb_eq; exact E]. }
    congruence.
  - intros H. destruct (existsb _ rows) eqn:E; [|reflexivity].
    apply existsb_exists in E. destruct E as (r & Hr & E).
    apply String.eqb_eq in E. exfalso. exact (H r Hr E).
Qed.

Ltac innermost_match :=
  match goal with
  | |- context [match ?x with _ => _ end] =>
      lazymatch x with
      | context [match _ with _ => _ end] => fail
      | context [register_user] => fail
      | _ => destruct x eqn:?
      end
  end.

Ltac step_register :=
  cbn -[PyStr.strip PyStr.upper PyStr.lower hash_password generate_token validate_pan
        calculate_age next_id taken existsb Z.ltb update_row String.append orb].

Section RegisterFacts.

Variable strptime_ymd : string -> option date.

(* inserting the user: either the whole registration is written by the one
   commit, or an exception leaves the store as it was *)
Lemma register_user_outcome (env : register_env) (data : jbody) (birth_date : date)
    (calculated_age : Z) (db : DB) (sess : option Z) :
  match register_user env data birth_date calculated_age (mk_store db db sess) with
  | (Raise _, s) => s = mk_store db db sess
  | (Ret resp, s) =>
      exists u,
        resp = Json (Registered (digital_token u)
                 "Registration successful! Please save your digital token securely.") 200
        /\ digital_token u = generate_token (reg_uuid4 env)
        /\ taken digital_token (digital_token u) (users db) = false
        /\ s = mk_store (with_users db (users db ++ [u])) (with_users db (users db ++ [u])) sess
  end.
Proof.
  unfold register_user, flush_user, dict_item, as_str. unfold_m. step_register.
  destruct data as [m|t]; step_register; [|reflexivity].
  repeat (innermost_match; step_register; try reflexivity).
  match goal with H : orb _ _ = false |- _ =>
    apply orb_false_iff in H; destruct H as [H _];
    apply orb_false_iff in H; destruct H as [H _];
    apply orb_false_iff in H; destruct H as [Htok _] end.
  rewrite update_row_last by reflexivity.
  lazymatch goal with
  | |- context [[set_biometrics ?face ?retina ?x]] => exists (set_biometrics face retina x)
  end.
  split; [reflexivity|]. split; [reflexivity|]. split; [exact Htok|]. reflexivity.
Qed.

Lemma first_missing_store (data : jbody) (fields : list string) (s : store) :
  snd (first_missing data fields s) = s.
Proof.
  induction fields as [|f fields IH]; [reflexivity|].
  simpl. unfold bind, dict_get. destruct data as [m|t]; [|reflexivity].
  unfold ret. destruct (truthy_val (default (PyOther false) (m !! f))); [exact IH | reflexivity].
Qed.

Ltac no_write :=
  left; split; [reflexivity
              | intros ? ? ? Hresp; unfold_m; cbn -[generate_token] in Hresp; discriminate Hresp].

Lemma register_outcome (env : register_env) (req : request) (db : DB) (sess : option Z) :
  let r := run_view (register strptime_ymd env req) db sess in
  (db_of r = db /\ forall tok msg code, response_of r <> Json (Registered tok msg) code)
  \/ (exists u msg,
        response_of r = Json (Registered (digital_token u) msg) 200
        /\ digital_token u = generate_token (reg_uuid4 env)
        /\ taken digital_token (digital_token u) (users db) = false
        /\ db_of r = with_users db (users db ++ [u])).
Proof.
  intros r. subst r. unfold register.
  destruct (method req); [no_write|].
  unfold run_view, try_except, bind, of_option.
  destruct (json req) as [data|]; [|no_write].
  cbn -[first_missing required_fields register_checked generate_token taken].
  pose proof (first_missing_store data required_fields (mk_store db db sess)) as Hs.
  destruct (first_missing data required_fields (mk_store db db sess)) as [[missing|e] s].
  2:{ simpl in Hs. subst s. no_write. }
  simpl in Hs. subst s.
  destruct missing as [field|]; [no_write|].
  unfold register_checked, dict_item, as_str. unfold_m. step_register.
  destruct data as [m|t]; step_register; [|no_write].
  repeat (innermost_match; step_register;
          try (no_write)).
  all: match goal with
       | |- context [register_user ?e ?d ?b ?a ?s] =>
           pose proof (register_user_outcome e d b a db sess) as Hout;
           destruct (register_user e d b a s) as [[resp|ex] s'] eqn:Hreg
       end.
  all: step_register.
  - destruct Hout as (u & -> & Htok & Hfresh & ->).
    right. exists u. eexists. repeat split; assumption.
  - subst s'. no_write.
Qed.

End RegisterFacts.

(* a candidate that an existing user holds: the INSERT is refused, the
   registration fails and nothing is stored *)
Lemma register_token_collision (strptime_ymd : string -> option date) (env : register_env)
    (req : request) (db : DB) (sess : option Z) :
  (exists u, In u (users db) /\ digital_token u = generate_token (reg_uuid4 env)) ->
  db_of (run_view (register strptime_ymd env req) db sess) = db
  /\ forall tok msg code,
       response_of (run_view (register strptime_ymd env req) db sess)
       <> Json (Registered tok msg) code.
Proof.
  intros (v & Hv & Hvt).
  destruct (register_outcome strptime_ymd env req db sess)
    as [[Hdb Hno] | (u & msg & Hresp & Htok & Hfresh & Hdb)].
  - split; assumption.
  - exfalso. rewrite <- Htok in Hvt.
    exact (proj1 (taken_false digital_token (digital_token u) (users db)) Hfresh v Hv Hvt).
Qed.

(** C6: the token a successful registration returns is held by no user that
    exists when the row is created: the candidate that [generate_token]
    draws is checked against the stored tokens by the UNIQUE column when the
    row is inserted, and the new row is the only one added. *)
Theorem register_token_unique (strptime_ymd : string -> option date) (env : register_env)
    (req : request) (db : DB) (sess : option Z) (tok msg : string) (code : Z) :
  response_of (run_view (register strptime_ymd env req) db sess)
    = Json (Registered tok msg) code ->
  tok = generate_token (reg_uuid4 env)
  /\ taken digital_token tok (users db) = false
  /\ (forall u, In u (users db) -> digital_token u <> tok)
  /\ exists u,
       users (db_of (run_view (register strptime_ymd env req) db sess))
       = (users db ++ [u])%list
       /\ digital_token u = tok.
Proof.
  intros H.
  destruct (register_outcome strptime_ymd env req db sess)
    as [[Hdb Hno] | (u & msg' & Hresp & Htok & Hfresh & Hdb)].
  - exfalso. exact (Hno tok msg code H).
  - rewrite Hresp in H. injection H as <- _ _.
    split; [exact Htok|]. split; [exact Hfresh|]. split.
    + apply taken_false. exact Hfresh.
    + exists u. rewrite Hdb. split; reflexivity.
Qed.

Lemma register_token_unique_witness :
  let env := mk_register_env "9f8e7d6c-0000-4000-8000-000000000000" (mk_date 2024 3 15)
               t_2024_03_15_1030 in
  "9F8E7D6C" = generate_token (reg_uuid4 env)
  /\ taken digital_token "9F8E7D6C" (users db0) = false
  /\ (forall u, In u (users db0) -> digital_token u <> "9F8E7D6C")
  /\ exists u,
       users (db_of (run_view (register strptime_padded env bob_request) db0 None))
       = (users db0 ++ [u])%list
       /\ digital_token u = "9F8E7D6C".
Proof.
  apply (register_token_unique strptime_padded
           (mk_register_env "9f8e7d6c-0000-4000-8000-000000000000" (mk_date 2024 3 15)
              t_2024_03_15_1030)
           bob_request db0 None "9F8E7D6C"
           "Registration successful! Please save your digital token securely." 200).
  vm_compute. reflexivity.
Defined.

(* the candidate A1B2C3D4 is the token of alice: status 500, nothing stored *)
Example register_collision_alice :
  run_view
    (register strptime_padded
       (mk_register_env "a1b2c3d4-0000-4000-8000-000000000000" (mk_date 2024 3 15)
          t_2024_03_15_1030)
       bob_request)
    db0 None
  = (Json (RegistrationFailed IntegrityError) 500, db0, None).
Proof. vm_compute. reflexivity. Qed.

(** * Further properties *)

(** ** Logging in and out *)

Ltac step_login := cbn -[PyStr.strip verify_password user_by_username update_row].

(* every way a login can end *)
Lemma login_outcome (utcnow : datetime) (req : request) (db : DB) (sess : option Z) :
  let r := run_view (login utcnow req) db sess in
  (db_of r = db /\ session_of r = sess
   /\ forall location code, response_of r <> Json (LoggedIn location) code)
  \/ (exists m u pw user,
        method req = POST
        /\ fst (login_data req (mk_store db db sess)) = Ret (JDict m)
        /\ m !! "username" = Some (PyStr u)
        /\ m !! "password" = Some (PyStr pw)
        /\ user_by_username (PyStr.strip u) db = Some user
        /\ verify_password pw (password_hash user) = true
        /\ response_of r = Json (LoggedIn "/dashboard") 200
        /\ session_of r = Some (user_id_ user)
        /\ db_of r
           = with_users db
               (update_row user_id_ (user_id_ user) (set_last_login utcnow) (users db))).
Proof.
  intros r. subst r. unfold login.
  destruct (method req) eqn:Hm;
    [left; repeat split; intros; discriminate|].
  unfold run_view, response_of, db_of, session_of, try_except, bind.
  assert (Hd : snd (login_data req (mk_store db db sess)) = mk_store db db sess).
  { unfold login_data, of_option, ret, raise.
    destruct (is_json req); [destruct (json req)|]; reflexivity. }
  destruct (login_data req (mk_store db db sess)) as [[data|e] s] eqn:Hdata;
    simpl in Hd; subst s;
    [|left; repeat split; intros; discriminate].
  destruct (body_truthy data) eqn:Htruthy;
    [|left; repeat split; intros; discriminate].
  destruct data as [m|t]; [|left; repeat split; intros; discriminate].
  unfold dict_get, as_str, ret, raise.
  destruct (m !! "username") as [[u|b]|] eqn:Hu; step_login;
    [ | left; repeat split; intros; discriminate
      | left; repeat split; intros; discriminate ].
  destruct (m !! "password") as [pv|] eqn:Hp; step_login.
  2:{ rewrite orb_true_r. left; repeat split; intros; discriminate. }
  destruct (negb (PyStr.nonempty (PyStr.strip u)) || negb (truthy_val pv)) eqn:Hreq;
    [left; repeat split; intros; discriminate|].
  unfold query. step_login.
  destruct (user_by_username (PyStr.strip u) db) as [user|] eqn:Huser;
    [|left; repeat split; intros; discriminate].
  destruct pv as [pw|b]; step_login;
    [|left; repeat split; intros; discriminate].
  destruct (verify_password pw (password_hash user)) eqn:Hv;
    [|left; repeat split; intros; discriminate].
  right. exists m, u, pw, user.
  unfold set_session, set_pending, commit. step_login.
  repeat split; try assumption; reflexivity.
Qed.

(** ** What each view may write *)

Lemma login_transition (utcnow : datetime) (req : request) (db : DB) (sess : option Z) :
  transition db (db_of (run_view (login utcnow req) db sess)).
Proof.
  destruct (login_outcome utcnow req db sess)
    as [(Hdb & _) | (m & u & pw & user & _ & _ & _ & _ & _ & _ & _ & _ & Hdb)];
    rewrite Hdb; constructor.
Qed.

Ltac nothing_registered :=
  left; split; [reflexivity
               | intros ? ? ? Hresp; unfold_m; cbn -[generate_token] in Hresp;
                 discriminate Hresp].

Section RegisterRow.

Variable strptime_ymd : string -> option date.

(* the row a registration inserts, field by field *)
Lemma register_user_row (env : register_env) (data : jbody) (birth_date : date)
    (calculated_age : Z) (db : DB) (sess : option Z) :
  match register_user env data birth_date calculated_age (mk_store db db sess) with
  | (Raise _, s) => s = mk_store db db sess
  | (Ret resp, s) =>
      exists m s_username s_password s_full_name s_email s_phone s_gender s_address s_pan u,
        data = JDict m
        /\ m !! "username" = Some (PyStr s_username)
        /\ m !! "password" = Some (PyStr s_password)
        /\ m !! "full_name" = Some (PyStr s_full_name)
        /\ m !! "email" = Some (PyStr s_email)
        /\ m !! "phone" = Some (PyStr s_phone)
        /\ m !! "gender" = Some (PyStr s_gender)
        /\ m !! "address" = Some (PyStr s_address)
        /\ m !! "pan_number" = Some (PyStr s_pan)
        /\ u = mk_User (next_id user_id_ (users db)) (generate_token (reg_uuid4 env))
                 (PyStr.strip s_username) (hash_password s_password)
                 (PyStr.strip s_full_name) (PyStr.lower (PyStr.strip s_email))
                 (PyStr.strip s_phone) birth_date calculated_age (PyStr.lower s_gender)
                 (PyStr.strip s_address) (PyStr.strip (PyStr.upper s_pan))
                 (Some "verified") None (Some "verified") None "active"
                 (reg_utcnow env) None
        /\ taken digital_token (digital_token u) (users db) = false
        /\ taken username (username u) (users db) = false
        /\ taken email (email u) (users db) = false
        /\ taken pan_number (pan_number u) (users db) = false
        /\ resp = Json (Registered (digital_token u)
                    "Registration successful! Please save your digital token securely.") 200
        /\ s = mk_store (with_users db (users db ++ [u])) (with_users db (users db ++ [u])) sess
  end.
Proof.
  unfold register_user, flush_user, dict_item, as_str. unfold_m. step_register.
  destruct data as [m|t]; step_register; [|reflexivity].
  repeat (innermost_match; step_register; try reflexivity).
  match goal with H : orb _ _ = false |- _ =>
    apply orb_false_iff in H; destruct H as [H Hpan];
    apply orb_false_iff in H; destruct H as [H Hemail];
    apply orb_false_iff in H; destruct H as [Htok Hname] end.
  rewrite update_row_last by reflexivity.
  do 10 eexists.
  repeat (split; [first [reflexivity | eassumption]|]).
  reflexivity.
Qed.

(* every way a registration can end, with the row it inserts *)
Lemma register_result (env : register_env) (req : request) (db : DB) (sess : option Z) :
  let r := run_view (register strptime_ymd env req) db sess in
  (db_of r = db /\ forall tok msg code, response_of r <> Json (Registered tok msg) code)
  \/ (exists m s_username s_password s_email s_pan s_dob birth_date u,
        method req = POST
        /\ json req = Some (JDict m)
        /\ m !! "username" = Some (PyStr s_username)
        /\ m !! "password" = Some (PyStr s_password)
        /\ m !! "email" = Some (PyStr s_email)
        /\ m !! "pan_number" = Some (PyStr s_pan)
        /\ m !! "date_of_birth" = Some (PyStr s_dob)
        /\ strptime_ymd s_dob = Some birth_date
        /\ validate_pan s_pan = true
        /\ user_id_ u = next_id user_id_ (users db)
        /\ digital_token u = generate_token (reg_uuid4 env)
        /\ username u = PyStr.strip s_username
        /\ password_hash u = hash_password s_password
        /\ email u = PyStr.lower (PyStr.strip s_email)
        /\ pan_number u = PyStr.strip (PyStr.upper s_pan)
        /\ date_of_birth u = birth_date
        /\ age u = calculate_age (reg_today env) birth_date
        /\ 18 <= age u <= 100
        /\ face_data u = Some "verified" /\ retina_data u = Some "verified"
        /\ account_status u = "active" /\ last_login u = None
        /\ user_created_at u = reg_utcnow env
        /\ taken digital_token (digital_token u) (users db) = false
        /\ taken username (username u) (users db) = false
        /\ taken email (email u) (users db) = false
        /\ taken pan_number (pan_number u) (users db) = false
        /\ response_of r
           = Json (Registered (digital_token u)
               "Registration successful! Please save your digital token securely.") 200
        /\ session_of r = sess
        /\ db_of r = with_users db (users db ++ [u])).
Proof.
  intros r. subst r. unfold register.
  destruct (method req) eqn:Hmethod; [nothing_registered|].
  unfold run_view, try_except, bind, of_option.
  destruct (json req) as [data|] eqn:Hjson; [|nothing_registered].
  cbn -[first_missing required_fields register_checked generate_token taken].
  pose proof (first_missing_store data required_fields (mk_store db db sess)) as Hs.
  destruct (first_missing data required_fields (mk_store db db sess)) as [[missing|e] s].
  2:{ simpl in Hs. subst s. nothing_registered. }
  simpl in Hs. subst s.
  destruct missing as [field|]; [nothing_registered|].
  unfold register_checked, dict_item, as_str. unfold_m. step_register.
  destruct data as [m|t]; step_register; [|nothing_registered].
  repeat (innermost_match; step_register; try nothing_registered).
  all: match goal with
       | |- context [register_user ?e ?d ?b ?a ?s] =>
           pose proof (register_user_row e d b a db sess) as Hout;
           destruct (register_user e d b a s) as [[resp|ex] s'] eqn:Hreg
       end.
  all: step_register.
  2:{ subst s'. nothing_registered. }
  destruct Hout as (m' & su & sp & sf & se & sph & sg & sa & span & u & Hm' & Hu & Hp & _ & He
                    & _ & _ & _ & Hpan & Hrow & Ht1 & Ht2 & Ht3 & Ht4 & -> & ->).
  injection Hm' as <-.
  right.
  repeat match goal with
         | H1 : ?x = Some _, H2 : ?x = Some _ |- _ =>
             rewrite H1 in H2; injection H2 as ?; subst
         end.
  match goal with
  | Hd : strptime_ymd ?sd = Some ?bd |- _ => exists m, su, sp, se, span, sd, bd
  end.
  eexists (mk_User _ _ _ _ _ _ _ _ _ _ _ _ _ _ _ _ _ _ _).
  match goal with H : negb (validate_pan _) = false |- _ => apply negb_false_iff in H end.
  repeat match goal with H : (_ <? _) = false |- _ => apply Z.ltb_ge in H end.
  repeat (split; [first [reflexivity | eassumption | simpl; lia]|]).
  reflexivity.
Qed.

Lemma register_transition (env : register_env) (req : request) (db : DB) (sess : option Z) :
  transition db (db_of (run_view (register strptime_ymd env req) db sess)).
Proof.
  destruct (register_result env req db sess) as [(Hdb & _) | H].
  - rewrite Hdb. constructor.
  - destruct H as (m & su & sp & se & span & sd & bd & u & H).
    repeat match type of H with _ /\ _ => let H1 := fresh "H" in destruct H as [H1 H] end.
    rewrite H. apply t_user; assumption.
Qed.

End RegisterRow.

Lemma apply_policy_transition (env : apply_env) (scheme_id : Z) (req : request) (db : DB)
    (sess : option Z) :
  transition db (db_of (run_view (apply_policy env scheme_id req) db sess)).
Proof.
  unfold apply_policy, flush_policy, flush_nominee. unfold_m. step_apply.
  destruct sess as [uid|]; step_apply; [|constructor].
  destruct (get_row scheme_id_ scheme_id (schemes db)) as [scheme|]; step_apply;
    [|constructor].
  destruct (method req); step_apply; [constructor|].
  destruct (get_row user_id_ uid (users db)) as [user|]; step_apply; [|constructor].
  destruct (String.eqb (digital_token user)
              (PyStr.upper (default "" (form req !! "digital_token")))); step_apply;
    [|constructor].
  destruct (date_add_days (apply_today_end env) (365 * 10)) as [ends|]; step_apply;
    [|constructor].
  destruct (taken policy_number (generate_policy_number (apply_now env) (apply_uuid4 env))
              (policies db)) eqn:Htaken; step_apply; [constructor|].
  destruct (form req !! "nominee_name") as [name|]; step_apply; [|constructor].
  destruct (form req !! "nominee_relationship") as [rel|]; step_apply; [|constructor].
  lazymatch goal with
  | |- context [@cons Policy ?p nil] =>
      lazymatch goal with
      | |- context [@cons Nominee ?n nil] =>
          exact (t_policy db p n eq_refl Htaken eq_refl eq_refl eq_refl eq_refl)
      end
  end.
Qed.

(* every way a withdraw call can end *)
Lemma withdraw_policy_outcome (utcnow : datetime) (policy_id : Z) (db : DB)
    (sess : option Z) :
  let r := run_view (withdraw_policy utcnow policy_id) db sess in
  session_of r = sess
  /\ ((sess = None /\ response_of r = Redirect "/login" /\ db_of r = db)
      \/ (sess <> None /\ get_row policy_id_ policy_id (policies db) = None
          /\ response_of r = HttpError 404 /\ db_of r = db)
      \/ (exists uid p,
            sess = Some uid /\ get_row policy_id_ policy_id (policies db) = Some p
            /\ response_of r = Redirect "/my-policies"
            /\ ((policy_user_id p = uid /\ is_withdrawable utcnow p = true
                 /\ db_of r
                    = with_policies db
                        (update_row policy_id_ (policy_id_ p) (set_status "withdrawn")
                           (policies db)))
                \/ ((policy_user_id p <> uid \/ is_withdrawable utcnow p = false)
                    /\ db_of r = db)))).
Proof.
  intros r. subst r. unfold withdraw_policy. unfold_m. cbn -[is_withdrawable update_row].
  destruct sess as [uid|]; cbn -[is_withdrawable update_row];
    [|split; [reflexivity | left; repeat split]].
  destruct (get_row policy_id_ policy_id (policies db)) as [p|] eqn:Hget;
    cbn -[is_withdrawable update_row];
    [|split; [reflexivity | right; left; repeat split; discriminate]].
  destruct (policy_user_id p =? uid) eqn:Hown;
    [destruct (is_withdrawable utcnow p) eqn:Hw|]; cbn -[is_withdrawable update_row];
    (split; [reflexivity | right; right; exists uid, p; repeat split]).
  - left. apply Z.eqb_eq in Hown. repeat split; first [assumption | reflexivity].
  - right. split; [right; first [assumption | reflexivity] | reflexivity].
  - right. apply Z.eqb_neq in Hown. split; [left; exact Hown | reflexivity].
Qed.

Lemma withdraw_policy_transition (utcnow : datetime) (policy_id : Z) (db : DB)
    (sess : option Z) :
  transition db (db_of (run_view (withdraw_policy utcnow policy_id) db sess)).
Proof.
  destruct (withdraw_policy_outcome utcnow policy_id db sess)
    as [_ [(_ & _ & Hdb) | [(_ & _ & _ & Hdb) | (uid & p & _ & Hget & _ & H)]]].
  - rewrite Hdb. constructor.
  - rewrite Hdb. constructor.
  - destruct H as [(_ & Hw & Hdb) | (_ & Hdb)]; rewrite Hdb; [|constructor].
    apply t_withdrawn.
    + rewrite (get_row_id _ _ _ _ Hget). exact Hget.
    + apply is_withdrawable_iff in Hw. apply Hw.
Qed.

Section ClaimOutcome.

Variable float_of_str : string -> option Q.
Variable secure_filename : string -> string.
Variable os_path_join : string -> string -> string.

(* the paths of the documents: one for each upload that has a name, in the
   order of the uploads; a save that fails ends the loop with OSError *)
Lemma save_documents_result (fs : list upload) (s : store) :
  fst (save_documents secure_filename os_path_join fs s)
  = if forallb up_saved (List.filter (fun f => PyStr.nonempty (up_filename f)) fs)
    then Ret (map (fun f => os_path_join "claim_documents"
                              (String.append (strftime "%Y%m%d_%H%M%S_" (up_now f))
                                 (secure_filename (up_filename f))))
                (List.filter (fun f => PyStr.nonempty (up_filename f)) fs))
    else Raise OSError.
Proof.
  induction fs as [|f fs IH]; [reflexivity|].
  cbn -[strftime String.append].
  destruct (PyStr.nonempty (up_filename f)); [|exact IH].
  cbn -[strftime String.append].
  destruct (up_saved f); [|reflexivity].
  unfold bind, ret. cbn -[strftime String.append].
  destruct (save_documents secure_filename os_path_join fs s) as [[docs|e] s'];
    cbn -[strftime String.append] in *;
    destruct (forallb up_saved
                (List.filter (fun f0 => PyStr.nonempty (up_filename f0)) fs));
    try discriminate IH.
  - injection IH as ->. reflexivity.
  - injection IH as ->. reflexivity.
Qed.

(* every way a request to /make-claim can end *)
Lemma make_claim_outcome (env : claim_env) (req : request) (db : DB) (sess : option Z) :
  let r := run_view (make_claim float_of_str secure_filename os_path_join env req) db sess in
  session_of r = sess
  /\ ((db_of r = db /\ forall c, response_of r <> Html (ClaimSubmitted c))
      \/ (exists uid user policy_id amount_text amount c,
            sess = Some uid
            /\ method req = POST
            /\ get_row user_id_ uid (users db) = Some user
            /\ PyStr.upper (form_get req "digital_token") = digital_token user
            /\ forallb up_saved
                 (List.filter (fun f => PyStr.nonempty (up_filename f)) (files req)) = true
            /\ form req !! "policy_id" = Some policy_id
            /\ form req !! "claim_amount" = Some amount_text
            /\ float_of_str amount_text = Some amount
            /\ taken claim_number (claim_number c) (claims db) = false
            /\ c = mk_Claim (next_id claim_id_ (claims db))
                     (generate_claim_number (claim_now env) (claim_uuid4 env))
                     (user_id_ user) (integer_affinity policy_id) amount
                     (map (fun f => os_path_join "claim_documents"
                                      (String.append (strftime "%Y%m%d_%H%M%S_" (up_now f))
                                         (secure_filename (up_filename f))))
                        (List.filter (fun f => PyStr.nonempty (up_filename f)) (files req)))
                     "submitted" (claim_utcnow env)
            /\ response_of r = Html (ClaimSubmitted c)
            /\ db_of r = with_claims db (claims db ++ [c]))).
Proof.
  intros r. subst r. unfold make_claim, flush_claim. unfold_m.
  cbn -[generate_claim_number save_documents PyStr.upper integer_affinity next_id].
  destruct sess as [uid|];
    cbn -[generate_claim_number save_documents PyStr.upper integer_affinity next_id];
    [|split; [reflexivity | left; split; [reflexivity | discriminate]]].
  destruct (get_row user_id_ uid (users db)) as [user|] eqn:Huser;
    cbn -[generate_claim_number save_documents PyStr.upper integer_affinity next_id];
    [|split; [reflexivity | left; split; [reflexivity | discriminate]]].
  destruct (method req) eqn:Hm;
    cbn -[generate_claim_number save_documents PyStr.upper integer_affinity next_id];
    [split; [reflexivity | left; split; [reflexivity | discriminate]]|].
  destruct (String.eqb (digital_token user)
              (PyStr.upper (default "" (form req !! "digital_token")))) eqn:Htok;
    cbn -[generate_claim_number save_documents PyStr.upper integer_affinity next_id];
    [|split; [reflexivity | left; split; [reflexivity | discriminate]]].
  pose proof (save_documents_store secure_filename os_path_join (files req)
                (mk_store db db (Some uid))) as Hs.
  pose proof (save_documents_result (files req) (mk_store db db (Some uid))) as Hr.
  destruct (save_documents secure_filename os_path_join (files req)
              (mk_store db db (Some uid))) as [res s'].
  simpl in Hs, Hr. subst s' res.
  destruct (forallb up_saved
              (List.filter (fun f => PyStr.nonempty (up_filename f)) (files req))) eqn:Hsaved;
    cbn -[generate_claim_number save_documents PyStr.upper integer_affinity next_id
          strftime String.append];
    [|split; [reflexivity | left; split; [reflexivity | discriminate]]].
  destruct (form req !! "policy_id") as [pid|] eqn:Hpid;
    cbn -[generate_claim_number save_documents PyStr.upper integer_affinity next_id
          strftime String.append];
    [|split; [reflexivity | left; split; [reflexivity | discriminate]]].
  destruct (form req !! "claim_amount") as [atext|] eqn:Hamt;
    cbn -[generate_claim_number save_documents PyStr.upper integer_affinity next_id
          strftime String.append];
    [|split; [reflexivity | left; split; [reflexivity | discriminate]]].
  destruct (float_of_str atext) as [amount|] eqn:Hfloat;
    cbn -[generate_claim_number save_documents PyStr.upper integer_affinity next_id
          strftime String.append];
    [|split; [reflexivity | left; split; [reflexivity | discriminate]]].
  destruct (taken claim_number (generate_claim_number (claim_now env) (claim_uuid4 env))
              (claims db)) eqn:Hfresh;
    cbn -[generate_claim_number save_documents PyStr.upper integer_affinity next_id
          strftime String.append];
    [split; [reflexivity | left; split; [reflexivity | discriminate]]|].
  split; [reflexivity|]. right.
  exists uid, user, pid, atext, amount. eexists (mk_Claim _ _ _ _ _ _ _ _).
  apply String.eqb_eq in Htok.
  repeat (split; [first [reflexivity | eassumption | (symmetry; exact Htok)]|]).
  reflexivity.
Qed.

Lemma make_claim_transition (env : claim_env) (req : request) (db : DB) (sess : option Z) :
  transition db
    (db_of (run_view (make_claim float_of_str secure_filename os_path_join env req) db sess)).
Proof.
  destruct (make_claim_outcome env req db sess) as [_ [(Hdb & _) | H]].
  - rewrite Hdb. constructor.
  - destruct H as (uid & user & pid & atext & amount & c & _ & _ & _ & _ & _ & _ & _ & _
                   & Hfresh & Hc & _ & Hdb).
    rewrite Hdb. apply t_claim; [rewrite Hc; reflexivity | exact Hfresh | rewrite Hc; reflexivity].
Qed.

End ClaimOutcome.

Lemma report_transaction_transition (env : report_env) (req : request) (db : DB)
    (sess : option Z) :
  transition db (db_of (run_view (report_transaction env req) db sess)).
Proof.
  unfold report_transaction, flush_report. unfold_m. cbn -[strftime String.append].
  destruct sess as [uid|]; cbn -[strftime String.append]; [|constructor].
  destruct (method req); cbn -[strftime String.append]; [constructor|].
  destruct (form req !! "description"); cbn -[strftime String.append]; [|constructor].
  apply t_report. reflexivity.
Qed.

Lemma complaints_feedback_transition (env : report_env) (req : request) (db : DB)
    (sess : option Z) :
  transition db (db_of (run_view (complaints_feedback env req) db sess)).
Proof.
  unfold complaints_feedback, flush_report. unfold_m. cbn -[strftime String.append].
  destruct sess as [uid|]; cbn -[strftime String.append]; [|constructor].
  destruct (method req); cbn -[strftime String.append]; [constructor|].
  destruct (form req !! "description"); cbn -[strftime String.append]; [|constructor].
  apply t_report. reflexivity.
Qed.

Section ProfileOutcome.

Variable secure_filename : string -> string.
Variable os_path_join : string -> string -> string.
Variable splitext_ext : string -> string.

(* every way a request to /profile can end *)
Lemma profile_outcome (picture : option upload) (makedirs_ok : bool) (req : request)
    (db : DB) (sess : option Z) :
  let r := run_answer (profile secure_filename os_path_join splitext_ext picture
                         makedirs_ok req) db sess in
  snd r = sess
  /\ ((snd (fst r) = db /\ fst (fst r) <> Listing ProfileUpdated)
      \/ (exists uid user file,
            sess = Some uid /\ method req = POST /\ picture = Some file
            /\ PyStr.nonempty (up_filename file) = true
            /\ makedirs_ok = true /\ up_saved file = true
            /\ get_row user_id_ uid (users db) = Some user
            /\ fst (fst r) = Listing ProfileUpdated
            /\ snd (fst r)
               = with_users db
                   (update_row user_id_ uid
                      (set_profile_picture
                         (os_path_join "profile_pictures"
                            (String.append "profile_"
                               (String.append (str_of_int uid)
                                  (String.append "_"
                                     (String.append
                                        (strftime "%Y%m%d_%H%M%S_" (up_now file))
                                        (splitext_ext
                                           (secure_filename (up_filename file)))))))))
                      (users db)))).
Proof.
  intros r. subst r. unfold profile, run_answer. unfold_m.
  cbn -[strftime String.append str_of_int update_row].
  destruct sess as [uid|]; cbn -[strftime String.append str_of_int update_row];
    [|split; [reflexivity | left; split; [reflexivity | discriminate]]].
  destruct (method req) eqn:Hm;
    [ destruct (get_row user_id_ uid (users db));
      cbn -[strftime String.append str_of_int update_row];
      (split; [reflexivity | left; split; [reflexivity | discriminate]]) |].
  destruct picture as [file|];
    [| destruct (get_row user_id_ uid (users db));
       cbn -[strftime String.append str_of_int update_row];
       (split; [reflexivity | left; split; [reflexivity | discriminate]])].
  destruct (PyStr.nonempty (up_filename file)) eqn:Hname;
    [| destruct (get_row user_id_ uid (users db));
       cbn -[strftime String.append str_of_int update_row];
       (split; [reflexivity | left; split; [reflexivity | discriminate]])].
  destruct (get_row user_id_ uid (users db)) as [user|] eqn:Huser;
    cbn -[strftime String.append str_of_int update_row];
    [|split; [reflexivity | left; split; [reflexivity | discriminate]]].
  destruct makedirs_ok; cbn -[strftime String.append str_of_int update_row];
    [|split; [reflexivity | left; split; [reflexivity | discriminate]]].
  destruct (up_saved file) eqn:Hsaved; cbn -[strftime String.append str_of_int update_row];
    [|split; [reflexivity | left; split; [reflexivity | discriminate]]].
  split; [reflexivity|]. right. exists uid, user, file.
  rewrite (get_row_id _ _ _ _ Huser).
  repeat (split; [first [reflexivity | assumption]|]). reflexivity.
Qed.

End ProfileOutcome.

Section RouteFacts.

Variable strptime_ymd : string -> option date.
Variable float_of_str : string -> option Q.
Variable secure_filename : string -> string.
Variable os_path_join : string -> string -> string.
Variable splitext_ext : string -> string.

Local Abbreviation after_call' :=
  (after_call strptime_ymd float_of_str secure_filename os_path_join splitext_ext).
Local Abbreviation after_calls' :=
  (after_calls strptime_ymd float_of_str secure_filename os_path_join splitext_ext).

Lemma after_answered (view : M response) (db : DB) (sess : option Z) :
  run_answer (answered view) db sess
  = (Answer (response_of (run_view view db sess)), db_of (run_view view db sess),
     session_of (run_view view db sess)).
Proof.
  unfold run_answer, answered, run_view, response_of, db_of, session_of, bind, ret.
  destruct (view (mk_store db db sess)) as [[r|e] s]; reflexivity.
Qed.

(* whatever the request, the database moves by one [transition] *)
Lemma after_call_transition (c : call) (db : DB) (sess : option Z) :
  transition db (fst (after_call' c (db, sess))).
Proof.
  unfold after_call. cbn [fst snd].
  destruct c; cbn [view_of]; try rewrite after_answered; cbn [fst snd].
  - constructor.
  - apply login_transition.
  - unfold dashboard, run_answer, clear_session. unfold_m. simpl.
    destruct sess as [uid|]; simpl; [|constructor].
    destruct (get_row user_id_ uid (users db)); simpl; constructor.
  - constructor.
  - apply register_transition.
  - constructor.
  - constructor.
  - unfold schemes_view, run_answer. unfold_m. simpl.
    destruct sess; simpl; constructor.
  - apply apply_policy_transition.
  - unfold my_policies, run_answer. unfold_m. cbn -[order_by_created_at_desc card_of].
    destruct sess; cbn -[order_by_created_at_desc card_of]; constructor.
  - apply withdraw_policy_transition.
  - apply make_claim_transition.
  - destruct (profile_outcome secure_filename os_path_join splitext_ext picture
                makedirs_ok req db sess) as [_ [(Hdb & _) | H]].
    + rewrite Hdb. constructor.
    + destruct H as (uid & user & file & _ & _ & _ & _ & _ & _ & _ & _ & Hdb).
      rewrite Hdb. constructor.
  - apply report_transaction_transition.
  - apply complaints_feedback_transition.
Qed.

End RouteFacts.

(** ** What the database keeps through every request *)

Lemma map_update_row {A B : Type} (id : A -> Z) (f : A -> A) (g : A -> B) (k : Z)
    (rows : list A) :
  (forall r, g (f r) = g r) -> map g (update_row id k f rows) = map g rows.
Proof.
  intros Hg. unfold update_row. rewrite map_map. apply map_ext.
  intros r. destruct (id r =? k); [apply Hg | reflexivity].
Qed.

Lemma NoDup_map_snoc {A B : Type} (g : A -> B) (rows : list A) (x : A) :
  List.NoDup (map g rows) -> (forall r, In r rows -> g r <> g x) ->
  List.NoDup (map g (rows ++ [x])).
Proof.
  induction rows as [|y rows IH]; simpl; intros Hnd Hfresh.
  - apply List.NoDup_cons; [intros Hin; inversion Hin | apply List.NoDup_nil].
  - inversion Hnd as [|? ? Hy Hnd']; subst. apply List.NoDup_cons.
    + rewrite map_app. intros Hin. apply in_app_or in Hin. destruct Hin as [Hin | [E | []]].
      * exact (Hy Hin).
      * apply (Hfresh y); [left; reflexivity | symmetry; exact E].
    + apply IH; [exact Hnd'|]. intros r Hr. apply Hfresh. right. exact Hr.
Qed.

Lemma NoDup_ids_snoc {A : Type} (id : A -> Z) (rows : list A) (x : A) :
  List.NoDup (map id rows) -> id x = next_id id rows -> List.NoDup (map id (rows ++ [x])).
Proof.
  intros Hnd Hx. apply NoDup_map_snoc; [exact Hnd|].
  intros r Hr. pose proof (next_id_above id rows r Hr). lia.
Qed.

Lemma NoDup_taken_snoc {A : Type} (col : A -> string) (rows : list A) (x : A) :
  List.NoDup (map col rows) -> taken col (col x) rows = false ->
  List.NoDup (map col (rows ++ [x])).
Proof.
  intros Hnd Hx. apply NoDup_map_snoc; [exact Hnd|].
  apply taken_false. exact Hx.
Qed.

Lemma transition_unique_users (db db' : DB) :
  transition db db' -> unique_users db -> unique_users db'.
Proof.
  intros Ht (H1 & H2 & H3 & H4). unfold unique_users.
  destruct Ht; simpl; try (repeat split; assumption).
  - rewrite !map_update_row by (intros r; reflexivity). repeat split; assumption.
  - rewrite !map_update_row by (intros r; reflexivity). repeat split; assumption.
  - repeat split; apply NoDup_taken_snoc; assumption.
Qed.

Lemma transition_unique_ids (db db' : DB) :
  transition db db' -> unique_ids db -> unique_ids db'.
Proof.
  intros Ht (H1 & H2 & H3 & H4 & H5). unfold unique_ids.
  destruct Ht; simpl; try (repeat split; assumption).
  - rewrite map_update_row by (intros r; reflexivity). repeat split; assumption.
  - rewrite map_update_row by (intros r; reflexivity). repeat split; assumption.
  - repeat split; try assumption. apply NoDup_ids_snoc; assumption.
  - repeat split; try assumption; apply NoDup_ids_snoc; assumption.
  - rewrite map_update_row by (intros r; reflexivity). repeat split; assumption.
  - repeat split; try assumption. apply NoDup_ids_snoc; assumption.
  - repeat split; try assumption. apply NoDup_ids_snoc; assumption.
Qed.

Lemma transition_unique_numbers (db db' : DB) :
  transition db db' -> unique_numbers db -> unique_numbers db'.
Proof.
  intros Ht (H1 & H2). unfold unique_numbers.
  destruct Ht; simpl; try (split; assumption).
  - split; [apply NoDup_taken_snoc; assumption | assumption].
  - rewrite map_update_row by (intros r; reflexivity). split; assumption.
  - split; [assumption | apply NoDup_taken_snoc; assumption].
Qed.

Lemma get_row_app_old {A : Type} (id : A -> Z) (k : Z) (rows : list A) (x r : A) :
  get_row id k rows = Some r -> get_row id k (rows ++ [x]) = Some r.
Proof.
  unfold get_row. induction rows as [|y rows IH]; simpl; [discriminate|].
  destruct (id y =? k); [auto | exact IH].
Qed.

Lemma get_row_app_new {A : Type} (id : A -> Z) (rows : list A) (x : A) :
  id x = next_id id rows -> get_row id (id x) (rows ++ [x]) = Some x.
Proof.
  intros Hx. unfold get_row.
  assert (Hall : forall r, In r rows -> id r <> id x).
  { intros r Hr. pose proof (next_id_above id rows r Hr). lia. }
  clear Hx. induction rows as [|y rows IH]; simpl.
  - rewrite Z.eqb_refl. reflexivity.
  - destruct (id y =? id x) eqn:E.
    + apply Z.eqb_eq in E. exfalso. apply (Hall y); [left; reflexivity | exact E].
    + apply IH. intros r Hr. apply Hall. right. exact Hr.
Qed.

Lemma transition_nominees_attached (db db' : DB) :
  transition db db' -> nominees_attached db -> nominees_attached db'.
Proof.
  intros Ht Hinv. unfold nominees_attached in *.
  destruct Ht; simpl; try exact Hinv.
  - intros n0 Hin. apply in_app_or in Hin. destruct Hin as [Hin | [<- | []]].
    + destruct (Hinv n0 Hin) as (q & Hq & Hown). exists q. split; [|exact Hown].
      apply get_row_app_old. exact Hq.
    + exists p. split; [|symmetry; assumption].
      match goal with H : nominee_policy_id n = policy_id_ p |- _ => rewrite H end.
      apply get_row_app_new. assumption.
  - intros n Hin. destruct (Hinv n Hin) as (q & Hq & Hown).
    destruct (Z.eq_dec (nominee_policy_id n) (policy_id_ p)) as [E | E].
    + rewrite E in *. rewrite get_row_update by (intros r; reflexivity).
      rewrite Hq. simpl. eexists. split; [reflexivity | exact Hown].
    + rewrite update_row_other by (first [intros r; reflexivity | exact E]).
      exists q. split; assumption.
Qed.

Lemma in_update_row {A : Type} (id : A -> Z) (f : A -> A) (k : Z) (rows : list A) (x : A) :
  In x (update_row id k f rows) -> In x rows \/ exists r, In r rows /\ x = f r.
Proof.
  unfold update_row. intros Hin. apply in_map_iff in Hin.
  destruct Hin as (r & Hr & Hin). destruct (id r =? k).
  - right. exists r. split; [exact Hin | symmetry; exact Hr].
  - left. subst x. exact Hin.
Qed.

Lemma transition_no_active_policy (db db' : DB) :
  transition db db' -> no_active_policy db -> no_active_policy db'.
Proof.
  intros Ht Hinv. unfold no_active_policy in *.
  destruct Ht; simpl; try exact Hinv.
  - intros q Hin. apply in_app_or in Hin. destruct Hin as [Hin | [<- | []]].
    + exact (Hinv q Hin).
    + match goal with H : status p = _ |- _ => rewrite H end. discriminate.
  - intros q Hin. apply in_update_row in Hin. destruct Hin as [Hin | (r & Hr & ->)].
    + exact (Hinv q Hin).
    + simpl. discriminate.
Qed.

Lemma Forall2_refl_on {A : Type} (R : A -> A -> Prop) (l : list A) :
  (forall x, R x x) -> Forall2 R l l.
Proof. intros HR. induction l; constructor; auto. Qed.

Lemma Forall2_trans_on {A : Type} (R : A -> A -> Prop) (l1 l2 l3 : list A) :
  (forall x y z, R x y -> R y z -> R x z) ->
  Forall2 R l1 l2 -> Forall2 R l2 l3 -> Forall2 R l1 l3.
Proof.
  intros HR H12. revert l3. induction H12; intros l3 H23; inversion H23; subst.
  - constructor.
  - constructor; eauto.
Qed.

Lemma Forall2_app_split {A : Type} (R : A -> A -> Prop) (l : list A) (k1 k2 : list A) :
  Forall2 R (k1 ++ k2) l ->
  exists l1 l2, l = (l1 ++ l2)%list /\ Forall2 R k1 l1 /\ Forall2 R k2 l2.
Proof.
  revert l. induction k1 as [|x k1 IH]; intros l H; simpl in H.
  - exists [], l. repeat split; [constructor | exact H].
  - inversion H as [|? y ? l' Hxy Hrest]; subst.
    destruct (IH l' Hrest) as (l1 & l2 & -> & H1 & H2).
    exists (y :: l1), l2. repeat split; [constructor; assumption | exact H2].
Qed.

Lemma grown_refl {A : Type} (R : A -> A -> Prop) (l : list A) :
  (forall x, R x x) -> grown R l l.
Proof.
  intros HR. exists l, []. split; [symmetry; apply app_nil_r | apply Forall2_refl_on; exact HR].
Qed.

Lemma grown_trans {A : Type} (R : A -> A -> Prop) (l1 l2 l3 : list A) :
  (forall x y z, R x y -> R y z -> R x z) ->
  grown R l1 l2 -> grown R l2 l3 -> grown R l1 l3.
Proof.
  intros HR (k2 & a2 & -> & H12) (k3 & a3 & -> & H23).
  apply Forall2_app_split in H23. destruct H23 as (m1 & m2 & -> & Hk & _).
  exists m1, (m2 ++ a3)%list. split; [symmetry; apply app_assoc|].
  exact (Forall2_trans_on R l1 k2 m1 HR H12 Hk).
Qed.

Lemma grown_snoc {A : Type} (R : A -> A -> Prop) (l : list A) (x : A) :
  (forall x, R x x) -> grown R l (l ++ [x]).
Proof.
  intros HR. exists l, [x]. split; [reflexivity | apply Forall2_refl_on; exact HR].
Qed.

Lemma grown_update {A : Type} (R : A -> A -> Prop) (id : A -> Z) (f : A -> A) (k : Z)
    (l : list A) :
  (forall x, R x x) -> (forall x, In x l -> id x = k -> R x (f x)) ->
  grown R l (update_row id k f l).
Proof.
  intros HR Hf. exists (update_row id k f l), []. split; [symmetry; apply app_nil_r|].
  unfold update_row. induction l as [|x l IH]; simpl; constructor.
  - destruct (id x =? k) eqn:E; [|apply HR].
    apply Hf; [left; reflexivity | apply Z.eqb_eq; exact E].
  - apply IH. intros y Hy. apply Hf. right. exact Hy.
Qed.

(* each row of before has its place, and its later version, after *)
Lemma grown_in {A : Type} (R : A -> A -> Prop) (l l' : list A) (x : A) :
  grown R l l' -> In x l -> exists y, In y l' /\ R x y.
Proof.
  intros (kept & added & -> & H) Hin. induction H as [|a b l k Hab H IH].
  - destruct Hin.
  - destruct Hin as [<- | Hin].
    + exists b. split; [left; reflexivity | exact Hab].
    + destruct (IH Hin) as (y & Hy & Hxy). exists y. split; [right; exact Hy | exact Hxy].
Qed.

Lemma grown_length {A : Type} (R : A -> A -> Prop) (l l' : list A) :
  grown R l l' -> (length l <= length l')%nat.
Proof.
  intros (kept & added & -> & H). rewrite length_app.
  assert (length l = length kept) by (induction H; simpl; congruence). lia.
Qed.

Lemma user_later_refl (u : User) : user_later u u.
Proof. unfold user_later. repeat split. Qed.

Lemma user_later_trans (u v w : User) : user_later u v -> user_later v w -> user_later u w.
Proof.
  unfold user_later. intros H1 H2.
  repeat match goal with H : _ /\ _ |- _ => destruct H end.
  repeat split; congruence.
Qed.

Lemma policy_later_refl (p : Policy) : policy_later p p.
Proof. unfold policy_later, same_contract. repeat split. left. reflexivity. Qed.

Lemma policy_later_trans (p q r : Policy) :
  policy_later p q -> policy_later q r -> policy_later p r.
Proof.
  unfold policy_later, same_contract. intros (Hc1 & Hs1) (Hc2 & Hs2).
  repeat match goal with H : _ /\ _ |- _ => destruct H end.
  split; [repeat split; congruence|].
  destruct Hs1 as [E1 | (E1 & E1')], Hs2 as [E2 | (E2 & E2')].
  - left. congruence.
  - right. split; congruence.
  - right. split; congruence.
  - rewrite E1' in E2. discriminate.
Qed.

Lemma history_refl (db : DB) : history db db.
Proof.
  unfold history. split; [reflexivity|].
  split; [apply grown_refl; apply user_later_refl|].
  split; [apply grown_refl; apply policy_later_refl|].
  repeat split; apply grown_refl; reflexivity.
Qed.

Lemma history_trans (a b c : DB) : history a b -> history b c -> history a c.
Proof.
  unfold history. intros (S1 & U1 & P1 & N1 & C1 & R1) (S2 & U2 & P2 & N2 & C2 & R2).
  split; [congruence|].
  split; [exact (grown_trans _ _ _ _ user_later_trans U1 U2)|].
  split; [exact (grown_trans _ _ _ _ policy_later_trans P1 P2)|].
  repeat split; eapply grown_trans; eauto; intros; congruence.
Qed.

Lemma NoDup_map_inj {A B : Type} (g : A -> B) (l : list A) (x y : A) :
  List.NoDup (map g l) -> In x l -> In y l -> g x = g y -> x = y.
Proof.
  induction l as [|a l IH]; simpl; intros Hnd Hx Hy E; [destruct Hx|].
  inversion Hnd as [|? ? Ha Hnd']; subst.
  destruct Hx as [-> | Hx], Hy as [-> | Hy].
  - reflexivity.
  - exfalso. apply Ha. rewrite E. apply in_map. exact Hy.
  - exfalso. apply Ha. rewrite <- E. apply in_map. exact Hx.
  - exact (IH Hnd' Hx Hy E).
Qed.

Lemma get_row_in {A : Type} (id : A -> Z) (k : Z) (rows : list A) (r : A) :
  get_row id k rows = Some r -> In r rows.
Proof. unfold get_row. intros H. apply find_some in H. apply H. Qed.

(* with primary keys that are keys, a request only adds to the history *)
Lemma transition_history (db db' : DB) :
  unique_ids db -> transition db db' -> history db db'.
Proof.
  intros (_ & Hpk & _) Ht. destruct Ht; unfold history; simpl.
  - apply history_refl.
  - split; [reflexivity|]. split.
    + apply grown_update; [apply user_later_refl|]. intros x _ _.
      unfold user_later. repeat split.
    + split; [apply grown_refl; apply policy_later_refl|].
      repeat split; apply grown_refl; reflexivity.
  - split; [reflexivity|]. split.
    + apply grown_update; [apply user_later_refl|]. intros x _ _.
      unfold user_later. repeat split.
    + split; [apply grown_refl; apply policy_later_refl|].
      repeat split; apply grown_refl; reflexivity.
  - split; [reflexivity|]. split; [apply grown_snoc; apply user_later_refl|].
    split; [apply grown_refl; apply policy_later_refl|].
    repeat split; apply grown_refl; reflexivity.
  - split; [reflexivity|]. split; [apply grown_refl; apply user_later_refl|].
    split; [apply grown_snoc; apply policy_later_refl|].
    split; [apply grown_snoc; reflexivity|].
    split; apply grown_refl; reflexivity.
  - split; [reflexivity|]. split; [apply grown_refl; apply user_later_refl|].
    split.
    + apply grown_update; [apply policy_later_refl|]. intros x Hx Hid.
      assert (x = p) as ->.
      { apply (NoDup_map_inj policy_id_ (policies db)); try assumption.
        eapply get_row_in. eassumption. }
      unfold policy_later, same_contract. split; [repeat split|].
      right. split; [assumption | reflexivity].
    + repeat split; apply grown_refl; reflexivity.
  - split; [reflexivity|]. split; [apply grown_refl; apply user_later_refl|].
    split; [apply grown_refl; apply policy_later_refl|].
    split; [apply grown_refl; reflexivity|].
    split; [apply grown_snoc; reflexivity | apply grown_refl; reflexivity].
  - split; [reflexivity|]. split; [apply grown_refl; apply user_later_refl|].
    split; [apply grown_refl; apply policy_later_refl|].
    split; [apply grown_refl; reflexivity|].
    split; [apply grown_refl; reflexivity | apply grown_snoc; reflexivity].
Qed.

Section Sequences.

Variable strptime_ymd : string -> option date.
Variable float_of_str : string -> option Q.
Variable secure_filename : string -> string.
Variable os_path_join : string -> string -> string.
Variable splitext_ext : string -> string.

Local Abbreviation step :=
  (after_call strptime_ymd float_of_str secure_filename os_path_join splitext_ext).
Local Abbreviation steps :=
  (after_calls strptime_ymd float_of_str secure_filename os_path_join splitext_ext).

Lemma steps_cons (c : call) (cs : list call) (w : DB * option Z) :
  steps (c :: cs) w = steps cs (step c w).
Proof. reflexivity. Qed.

(* what every transition keeps, every sequence of requests keeps *)
Lemma steps_invariant (P : DB -> Prop) :
  (forall db db', transition db db' -> P db -> P db') ->
  forall cs db sess, P db -> P (fst (steps cs (db, sess))).
Proof.
  intros HP cs. induction cs as [|c cs IH]; intros db sess H; [exact H|].
  rewrite steps_cons.
  destruct (step c (db, sess)) as [db' sess'] eqn:E.
  apply IH.
  apply (HP db db'); [|exact H].
  pose proof (after_call_transition strptime_ymd float_of_str secure_filename os_path_join
                splitext_ext c db sess) as Ht.
  rewrite E in Ht. exact Ht.
Qed.

Lemma transition_consistent (db db' : DB) :
  transition db db' -> consistent db -> consistent db'.
Proof.
  intros Ht (H1 & H2 & H3 & H4). unfold consistent.
  split; [exact (transition_unique_ids db db' Ht H1)|].
  split; [exact (transition_unique_users db db' Ht H2)|].
  split; [exact (transition_unique_numbers db db' Ht H3)|].
  exact (transition_nominees_attached db db' Ht H4).
Qed.

Lemma steps_history (cs : list call) (db : DB) (sess : option Z) :
  unique_ids db -> history db (fst (steps cs (db, sess))).
Proof.
  intros Hpk.
  assert (H : unique_ids (fst (steps cs (db, sess)))
              /\ history db (fst (steps cs (db, sess)))).
  { apply (steps_invariant (fun d => unique_ids d /\ history db d)).
    - intros d d' Ht (Hu & Hh). split.
      + exact (transition_unique_ids d d' Ht Hu).
      + exact (history_trans db d d' Hh (transition_history d d' Hu Ht)).
    - split; [exact Hpk | apply history_refl]. }
  apply H.
Qed.

(** X1: through every sequence of requests the primary keys stay keys, the
    columns declared UNIQUE (token, username, email, PAN, policy number,
    claim number) hold no value twice, and every nominee names a policy of
    the table held by the same user. *)
Theorem requests_keep_consistency (cs : list call) (db : DB) (sess : option Z) :
  consistent db -> consistent (fst (steps cs (db, sess))).
Proof.
  apply (steps_invariant consistent). exact transition_consistent.
Qed.

(** X2: no request deletes a row or rewrites a scheme, a nominee, a claim
    or a report: after any sequence of requests the schemes are the same,
    and each other table is the old one, rows in place, with rows added at
    its end. *)
Theorem requests_delete_nothing (cs : list call) (db : DB) (sess : option Z) :
  unique_ids db ->
  let db' := fst (steps cs (db, sess)) in
  schemes db' = schemes db
  /\ (length (users db) <= length (users db'))%nat
  /\ (length (policies db) <= length (policies db'))%nat
  /\ (exists added, nominees db' = (nominees db ++ added)%list)
  /\ (exists added, claims db' = (claims db ++ added)%list)
  /\ (exists added, reports db' = (reports db ++ added)%list).
Proof.
  intros Hpk db'. subst db'.
  destruct (steps_history cs db sess Hpk) as (Hs & Hu & Hp & Hn & Hc & Hr).
  assert (Heq : forall (A : Type) (l l' : list A),
             grown eq l l' -> exists added, l' = (l ++ added)%list).
  { intros A l l' (kept & added & -> & H). exists added. f_equal.
    induction H; [reflexivity | congruence]. }
  split; [exact Hs|].
  split; [exact (grown_length _ _ _ Hu)|].
  split; [exact (grown_length _ _ _ Hp)|].
  split; [apply Heq; exact Hn|]. split; apply Heq; assumption.
Qed.

(** X3: a policy keeps its contract through every sequence of requests: it
    stays in the table with the number, holder, scheme, dates and amounts it
    had, and its status is the one it had or went from 'applied' to
    'withdrawn'; a withdrawn policy stays withdrawn and an applied policy is
    never made active. *)
Theorem policy_contract_kept (cs : list call) (db : DB) (sess : option Z) (p : Policy) :
  unique_ids db ->
  In p (policies db) ->
  exists q,
    In q (policies (fst (steps cs (db, sess))))
    /\ same_contract p q
    /\ (status q = status p \/ (status p = "applied" /\ status q = "withdrawn"))
    /\ (status p = "withdrawn" -> status q = "withdrawn")
    /\ (status p = "applied" -> status q <> "active").
Proof.
  intros Hpk Hin.
  destruct (steps_history cs db sess Hpk) as (_ & _ & Hp & _).
  destruct (grown_in _ _ _ p Hp Hin) as (q & Hq & Hc & Hs).
  exists q. split; [exact Hq|]. split; [exact Hc|]. split; [exact Hs|]. split.
  - intros Hw. destruct Hs as [E | (E & _)]; congruence.
  - intros Ha. destruct Hs as [E | (_ & E)]; rewrite E; [rewrite Ha|]; discriminate.
Qed.

(** X4: no sequence of requests changes what identifies a user: the row
    stays in the table with its id, token, username, password hash, email,
    PAN and the other fields of the registration; only the last login and
    the picture can differ. *)
Theorem user_identity_kept (cs : list call) (db : DB) (sess : option Z) (u : User) :
  unique_ids db ->
  In u (users db) ->
  exists v, In v (users (fst (steps cs (db, sess)))) /\ user_later u v.
Proof.
  intros Hpk Hin.
  destruct (steps_history cs db sess Hpk) as (_ & Hu & _).
  exact (grown_in _ _ _ u Hu Hin).
Qed.

(** X5: the application never activates a policy: from a database without
    an active policy, no sequence of requests reaches one with an active
    policy. *)
Theorem requests_never_activate (cs : list call) (db : DB) (sess : option Z) :
  no_active_policy db -> no_active_policy (fst (steps cs (db, sess))).
Proof.
  apply (steps_invariant no_active_policy). exact transition_no_active_policy.
Qed.

End Sequences.

Lemma consistent_db1 : consistent db1.
Proof.
  unfold consistent, unique_ids, unique_users, unique_numbers, nominees_attached.
  simpl. repeat split; repeat constructor; simpl; try tauto.
Qed.

Lemma requests_keep_consistency_witness :
  consistent (fst (after_calls strptime_padded float_of_digits (fun s => s) posix_join
                     ext_of_name sample_calls (db1, None))).
Proof.
  apply (requests_keep_consistency strptime_padded float_of_digits (fun s => s) posix_join
           ext_of_name sample_calls db1 None).
  exact consistent_db1.
Defined.

Lemma requests_delete_nothing_witness :
  let db' := fst (after_calls strptime_padded float_of_digits (fun s => s) posix_join
                    ext_of_name sample_calls (db1, None)) in
  schemes db' = schemes db1
  /\ (length (users db1) <= length (users db'))%nat
  /\ (length (policies db1) <= length (policies db'))%nat
  /\ (exists added, nominees db' = (nominees db1 ++ added)%list)
  /\ (exists added, claims db' = (claims db1 ++ added)%list)
  /\ (exists added, reports db' = (reports db1 ++ added)%list).
Proof.
  apply (requests_delete_nothing strptime_padded float_of_digits (fun s => s) posix_join
           ext_of_name sample_calls db1 None).
  apply consistent_db1.
Defined.

Lemma policy_contract_kept_witness :
  exists q,
    In q (policies (fst (after_calls strptime_padded float_of_digits (fun s => s)
                           posix_join ext_of_name sample_calls (db1, None))))
    /\ same_contract applied_policy q
    /\ (status q = status applied_policy
        \/ (status applied_policy = "applied" /\ status q = "withdrawn"))
    /\ (status applied_policy = "withdrawn" -> status q = "withdrawn")
    /\ (status applied_policy = "applied" -> status q <> "active").
Proof.
  apply (policy_contract_kept strptime_padded float_of_digits (fun s => s) posix_join
           ext_of_name sample_calls db1 None applied_policy).
  - apply consistent_db1.
  - left. reflexivity.
Defined.

Lemma user_identity_kept_witness :
  exists v,
    In v (users (fst (after_calls strptime_padded float_of_digits (fun s => s)
                        posix_join ext_of_name sample_calls (db1, None))))
    /\ user_later alice v.
Proof.
  apply (user_identity_kept strptime_padded float_of_digits (fun s => s) posix_join
           ext_of_name sample_calls db1 None alice).
  - apply consistent_db1.
  - left. reflexivity.
Defined.

Lemma requests_never_activate_witness :
  no_active_policy (fst (after_calls strptime_padded float_of_digits (fun s => s)
                           posix_join ext_of_name sample_calls (db1, None))).
Proof.
  apply (requests_never_activate strptime_padded float_of_digits (fun s => s) posix_join
           ext_of_name sample_calls db1 None).
  intros p [<- | []]. vm_compute. discriminate.
Defined.

(* what the sample session leaves *)
Example sample_session :
  let w := after_calls strptime_padded float_of_digits (fun s => s) posix_join
             ext_of_name sample_calls (db0, None) in
  snd w = None
  /\ map username (users (fst w)) = ["alice"; "bob"]
  /\ map status (policies (fst w)) = ["withdrawn"]
  /\ map policy_user_id (policies (fst w)) = [2]
  /\ map nominee_name (nominees (fst w)) = ["Jane Doe"].
Proof. vm_compute. repeat split. Qed.

(** ** Sessions *)


Lemma protected_redirect (strptime_ymd : string -> option date)
    (float_of_str : string -> option Q) (secure_filename : string -> string)
    (os_path_join : string -> string -> string) (splitext_ext : string -> string)
    (c : call) (db : DB) :
  protected c = true ->
  run_answer (view_of strptime_ymd float_of_str secure_filename os_path_join
                splitext_ext c) db None
  = (Answer (Redirect "/login"), db, None).
Proof.
  destruct c; simpl; intros H; try discriminate H; reflexivity.
Qed.

(** X7: without a session every view behind the login (dashboard, schemes,
    apply, my policies, withdraw, claim, profile, both reports) answers with
    the redirect to /login and writes nothing. *)
Theorem protected_needs_session (strptime_ymd : string -> option date)
    (float_of_str : string -> option Q) (secure_filename : string -> string)
    (os_path_join : string -> string -> string) (splitext_ext : string -> string)
    (c : call) (db : DB) :
  protected c = true ->
  run_answer (view_of strptime_ymd float_of_str secure_filename os_path_join
                splitext_ext c) db None
  = (Answer (Redirect "/login"), db, None).
Proof. apply protected_redirect. Qed.

Lemma protected_needs_session_witness :
  run_answer
    (view_of strptime_padded float_of_digits (fun s => s) posix_join ext_of_name
       (CallWithdrawPolicy (mk_datetime 2024 3 15 11 0 0 0) 1)) db1 None
  = (Answer (Redirect "/login"), db1, None).
Proof.
  apply (protected_needs_session strptime_padded float_of_digits (fun s => s) posix_join
           ext_of_name (CallWithdrawPolicy (mk_datetime 2024 3 15 11 0 0 0) 1) db1).
  reflexivity.
Defined.

(** X8: logout ends the session and writes nothing: whoever was logged in,
    the next request to a view behind the login is answered with the
    redirect to /login and leaves the database as it was before the logout. *)
Theorem logout_closes_session (strptime_ymd : string -> option date)
    (float_of_str : string -> option Q) (secure_filename : string -> string)
    (os_path_join : string -> string -> string) (splitext_ext : string -> string)
    (c : call) (db : DB) (sess : option Z) :
  protected c = true ->
  let w := after_call strptime_ymd float_of_str secure_filename os_path_join
             splitext_ext CallLogout (db, sess) in
  w = (db, None)
  /\ run_answer (view_of strptime_ymd float_of_str secure_filename os_path_join
                   splitext_ext c) (fst w) (snd w)
     = (Answer (Redirect "/login"), db, None).
Proof.
  intros Hc w. subst w. split; [reflexivity|].
  exact (protected_redirect strptime_ymd float_of_str secure_filename os_path_join
           splitext_ext c db Hc).
Qed.

Lemma logout_closes_session_witness :
  let w := after_call strptime_padded float_of_digits (fun s => s) posix_join ext_of_name
             CallLogout (db1, Some 1) in
  w = (db1, None)
  /\ run_answer
       (view_of strptime_padded float_of_digits (fun s => s) posix_join ext_of_name
          (CallMyPolicies (mk_my_policies_env t_2024_03_15_1030
                             (fun _ => t_2024_03_15_1030))))
       (fst w) (snd w)
     = (Answer (Redirect "/login"), db1, None).
Proof.
  apply (logout_closes_session strptime_padded float_of_digits (fun s => s) posix_join
           ext_of_name
           (CallMyPolicies (mk_my_policies_env t_2024_03_15_1030
                              (fun _ => t_2024_03_15_1030)))
           db1 (Some 1)).
  reflexivity.
Defined.

(** ** Registering, continued *)


Section RegisterMore.

Variable strptime_ymd : string -> option date.



End RegisterMore.


Section RegisterLogin.

Variable strptime_ymd : string -> option date.


End RegisterLogin.


(** ** The list of one's policies *)

Lemma insert_desc_perm (p : Policy) (l : list Policy) :
  Permutation (insert_desc p l) (p :: l).
Proof.
  induction l as [|q l IH]; simpl; [reflexivity|].
  destruct (created_key q <=? created_key p); [reflexivity|].
  rewrite IH. apply perm_swap.
Qed.

Lemma order_by_created_at_desc_perm (l : list Policy) :
  Permutation (order_by_created_at_desc l) l.
Proof.
  induction l as [|p l IH]; simpl; [reflexivity|].
  rewrite insert_desc_perm. apply perm_skip. exact IH.
Qed.

Lemma insert_desc_sorted (p : Policy) (l : list Policy) :
  newest_first l -> newest_first (insert_desc p l).
Proof.
  induction l as [|q l IH]; simpl; intros Hs.
  - split; [intros q []|exact I].
  - destruct Hs as [Hq Hs].
    destruct (created_key q <=? created_key p) eqn:E.
    + apply Z.leb_le in E. simpl. split; [|split; assumption].
      intros x [<- | Hx]; [exact E|]. specialize (Hq x Hx). lia.
    + apply Z.leb_gt in E. simpl. split; [|exact (IH Hs)].
      intros x Hx.
      apply (Permutation_in _ (insert_desc_perm p l)) in Hx.
      destruct Hx as [<- | Hx]; [lia | exact (Hq x Hx)].
Qed.

Lemma order_by_created_at_desc_sorted (l : list Policy) :
  newest_first (order_by_created_at_desc l).
Proof.
  induction l as [|p l IH]; simpl; [exact I|]. apply insert_desc_sorted. exact IH.
Qed.

Lemma card_policy_card_of (env : my_policies_env) (db : DB) (l : list Policy) :
  map card_policy (map (card_of env db) l) = l.
Proof. rewrite map_map. simpl. apply map_id. Qed.

(** X11: the page of one's policies shows one card for each policy of the
    logged-in user and none of anybody else, the newest first, and writes
    nothing. *)
Theorem my_policies_lists_own_newest_first (env : my_policies_env) (db : DB) (uid : Z) :
  exists cards,
    run_answer (my_policies env) db (Some uid)
      = (Listing (MyPoliciesPage cards), db, Some uid)
    /\ Permutation (map card_policy cards)
         (List.filter (fun p => policy_user_id p =? uid) (policies db))
    /\ (forall p, In p (map card_policy cards)
                  <-> In p (policies db) /\ policy_user_id p = uid)
    /\ newest_first (map card_policy cards).
Proof.
  eexists. split; [reflexivity|].
  rewrite card_policy_card_of.
  split; [apply order_by_created_at_desc_perm|].
  split; [|apply order_by_created_at_desc_sorted].
  intros p. split.
  - intros Hin. apply (Permutation_in _ (order_by_created_at_desc_perm _)) in Hin.
    apply filter_In in Hin. destruct Hin as [Hin Hown].
    apply Z.eqb_eq in Hown. split; assumption.
  - intros [Hin Hown].
    apply (Permutation_in _ (Permutation_sym (order_by_created_at_desc_perm _))).
    apply filter_In. split; [exact Hin | apply Z.eqb_eq; exact Hown].
Qed.

(** ** Withdrawing, continued *)

Lemma dt_sub_split (a b c : datetime) : dt_sub a c = dt_sub a b + dt_sub b c.
Proof. unfold dt_sub. lia. Qed.

Lemma is_withdrawable_later (t t' : datetime) (p : Policy) :
  is_withdrawable t p = false -> 0 <= dt_sub t' t -> is_withdrawable t' p = false.
Proof.
  intros Hw Hlater.
  destruct (is_withdrawable t' p) eqn:Hw'; [|reflexivity].
  apply is_withdrawable_iff in Hw'. destruct Hw' as [Hst Hlt].
  apply (proj1 (total_seconds_lt _ _)) in Hlt.
  assert (Hw0 : is_withdrawable t p = true).
  { apply is_withdrawable_iff. split; [exact Hst|].
    apply (proj2 (total_seconds_lt _ _)).
    rewrite (dt_sub_split t' t (created_at p)) in Hlt. lia. }
  congruence.
Qed.

(** X12: the window for withdrawing never opens again: a policy that is not
    withdrawable at one reading of the clock is not withdrawable at any
    reading that is not earlier. *)
Theorem window_never_reopens (t t' : datetime) (p : Policy) :
  is_withdrawable t p = false -> 0 <= dt_sub t' t -> is_withdrawable t' p = false.
Proof. apply is_withdrawable_later. Qed.

Lemma window_never_reopens_witness :
  is_withdrawable (mk_datetime 2024 4 1 0 0 0 0) applied_policy = false.
Proof.
  apply (window_never_reopens (mk_datetime 2024 3 16 10 30 0 0)
           (mk_datetime 2024 4 1 0 0 0 0) applied_policy).
  - vm_compute. reflexivity.
  - vm_compute. discriminate.
Defined.

Lemma card_in_page (env : my_policies_env) (db : DB) (uid : Z) (cards : list policy_card)
    (c : policy_card) :
  run_answer (my_policies env) db (Some uid)
    = (Listing (MyPoliciesPage cards), db, Some uid) ->
  In c cards ->
  In (card_policy c) (policies db) /\ policy_user_id (card_policy c) = uid
  /\ c = card_of env db (card_policy c).
Proof.
  intros Hpage Hin. unfold run_answer, my_policies in Hpage. unfold_m.
  cbn -[card_of order_by_created_at_desc] in Hpage.
  injection Hpage as <-.
  apply in_map_iff in Hin. destruct Hin as (p & <- & Hin).
  apply (Permutation_in _ (order_by_created_at_desc_perm _)) in Hin.
  apply filter_In in Hin. destruct Hin as [Hin Hown]. apply Z.eqb_eq in Hown.
  simpl. repeat split; assumption.
Qed.

Lemma get_row_unique {A : Type} (id : A -> Z) (rows : list A) (r : A) :
  List.NoDup (map id rows) -> In r rows -> get_row id (id r) rows = Some r.
Proof.
  intros Hnd Hin.
  destruct (get_row id (id r) rows) as [x|] eqn:Hget.
  - f_equal. apply (NoDup_map_inj id rows x r Hnd); [exact (get_row_in _ _ _ _ Hget) | exact Hin|].
    exact (get_row_id _ _ _ _ Hget).
  - exfalso. unfold get_row in Hget.
    apply (find_none _ _ Hget r) in Hin. rewrite Z.eqb_refl in Hin. discriminate.
Qed.

(** X13: the page of one's policies and the withdrawal agree: when a card
    shows the withdraw form, posting it while the clock reads what it read
    for the card withdraws that policy; when a card shows no form, a
    withdrawal of that policy at any reading that is not earlier changes
    nothing. *)
Theorem withdraw_form_is_honoured (env : my_policies_env) (db : DB) (uid : Z)
    (cards : list policy_card) (c : policy_card) :
  unique_ids db ->
  run_answer (my_policies env) db (Some uid)
    = (Listing (MyPoliciesPage cards), db, Some uid) ->
  In c cards ->
  let pid := policy_id_ (card_policy c) in
  (card_withdrawable c = true ->
   run_view (withdraw_policy (mp_utcnow env pid) pid) db (Some uid)
   = (Redirect "/my-policies",
      with_policies db (update_row policy_id_ pid (set_status "withdrawn") (policies db)),
      Some uid))
  /\ (card_withdrawable c = false ->
      forall t, 0 <= dt_sub t (mp_utcnow env pid) ->
      run_view (withdraw_policy t pid) db (Some uid)
      = (Redirect "/my-policies", db, Some uid)).
Proof.
  intros (_ & Hpk & _) Hpage Hin pid. subst pid.
  destruct (card_in_page env db uid cards c Hpage Hin) as (Hp & Hown & Hc).
  pose proof (get_row_unique policy_id_ (policies db) (card_policy c) Hpk Hp) as Hget.
  assert (Hw : card_withdrawable c
               = is_withdrawable (mp_utcnow env (policy_id_ (card_policy c))) (card_policy c)).
  { rewrite Hc at 1. reflexivity. }
  split.
  - intros Hshown. rewrite Hw in Hshown.
    exact (withdraw_policy_first _ _ uid db _ Hget Hown Hshown).
  - intros Hhidden t Hlater. rewrite Hw in Hhidden.
    apply (withdraw_policy_skip t _ uid db _ Hget). right.
    exact (is_withdrawable_later _ t _ Hhidden Hlater).
Qed.

Lemma unique_ids_db1 : unique_ids db1.
Proof.
  unfold unique_ids. simpl.
  repeat split; repeat constructor; simpl; tauto.
Qed.

Lemma withdraw_form_is_honoured_witness :
  (card_withdrawable
     (card_of (mk_my_policies_env t_2024_03_15_1030 (fun _ => t_2024_03_15_1030)) db1
        applied_policy) = true ->
   run_view (withdraw_policy t_2024_03_15_1030 1) db1 (Some 1)
   = (Redirect "/my-policies",
      with_policies db1 (update_row policy_id_ 1 (set_status "withdrawn") (policies db1)),
      Some 1))
  /\ (card_withdrawable
        (card_of (mk_my_policies_env t_2024_03_15_1030 (fun _ => t_2024_03_15_1030)) db1
           applied_policy) = false ->
      forall t, 0 <= dt_sub t t_2024_03_15_1030 ->
      run_view (withdraw_policy t 1) db1 (Some 1) = (Redirect "/my-policies", db1, Some 1)).
Proof.
  apply (withdraw_form_is_honoured
           (mk_my_policies_env t_2024_03_15_1030 (fun _ => t_2024_03_15_1030)) db1 1
           [card_of (mk_my_policies_env t_2024_03_15_1030 (fun _ => t_2024_03_15_1030)) db1
              applied_policy]
           (card_of (mk_my_policies_env t_2024_03_15_1030 (fun _ => t_2024_03_15_1030)) db1
              applied_policy)).
  - exact unique_ids_db1.
  - reflexivity.
  - left. reflexivity.
Defined.

(** X14: a request to withdraw touches at most the policy it names: every
    other policy and every other table is as before, and no row is added or
    removed.  A policy that does not exist gives 404 to a logged-in caller,
    and a policy of another user is left as it is. *)
Theorem withdraw_touches_one_policy (utcnow : datetime) (policy_id : Z) (db : DB)
    (sess : option Z) :
  let r := run_view (withdraw_policy utcnow policy_id) db sess in
  users (db_of r) = users db /\ schemes (db_of r) = schemes db
  /\ nominees (db_of r) = nominees db /\ claims (db_of r) = claims db
  /\ reports (db_of r) = reports db
  /\ length (policies (db_of r)) = length (policies db)
  /\ (forall j, j <> policy_id ->
        get_row policy_id_ j (policies (db_of r)) = get_row policy_id_ j (policies db))
  /\ (get_row policy_id_ policy_id (policies db) = None -> sess <> None ->
      response_of r = HttpError 404)
  /\ (forall p, get_row policy_id_ policy_id (policies db) = Some p ->
        sess <> Some (policy_user_id p) -> db_of r = db).
Proof.
  intros r. subst r.
  destruct (withdraw_policy_outcome utcnow policy_id db sess)
    as (_ & [(Hs & _ & Hdb) | [(Hs & Hget & Hresp & Hdb) | (uid & p & Hs & Hget & _ & H)]]).
  - rewrite Hdb. do 6 (split; [reflexivity|]). split; [|split].
    + intros j _. reflexivity.
    + intros _ Hne. exfalso. exact (Hne Hs).
    + intros p _ _. reflexivity.
  - rewrite Hdb. do 6 (split; [reflexivity|]). split; [|split].
    + intros j _. reflexivity.
    + intros _ _. exact Hresp.
    + intros p _ _. reflexivity.
  - destruct H as [(Hown & _ & Hdb) | (_ & Hdb)].
    + rewrite Hdb. simpl. do 5 (split; [reflexivity|]).
      split; [apply update_row_length|]. split; [|split].
      * intros j Hj. apply update_row_other; [intros x; reflexivity|].
        rewrite (get_row_id _ _ _ _ Hget). exact Hj.
      * intros Hnone. rewrite Hget in Hnone. discriminate Hnone.
      * intros q Hq Hne. rewrite Hget in Hq. injection Hq as <-.
        exfalso. apply Hne. rewrite Hs, Hown. reflexivity.
    + rewrite Hdb. do 6 (split; [reflexivity|]). split; [|split].
      * intros j _. reflexivity.
      * intros Hnone. rewrite Hget in Hnone. discriminate Hnone.
      * intros q _ _. reflexivity.
Qed.

(** X15: an application that succeeds can be taken back: a withdrawal of the
    new policy in the same session, at a reading of the clock less than
    86400 seconds after the one that dated the policy, sets its status to
    'withdrawn' and changes nothing else. *)
Theorem apply_then_withdraw (env : apply_env) (scheme_id : Z) (req : request) (db : DB)
    (sess : option Z) (p : Policy) (n : Nominee) (t : datetime) :
  response_of (run_view (apply_policy env scheme_id req) db sess)
    = Html (ApplicationSuccessful p n) ->
  (total_seconds (dt_sub t (apply_utcnow env)) < inject_Z 86400)%Q ->
  let db' := db_of (run_view (apply_policy env scheme_id req) db sess) in
  run_view (withdraw_policy t (policy_id_ p)) db' sess
  = (Redirect "/my-policies",
     mk_DB (users db) (schemes db) (policies db ++ [set_status "withdrawn" p])
       (nominees db ++ [n]) (claims db) (reports db),
     sess).
Proof.
  intros Hresp Hlt db'. subst db'.
  destruct (apply_policy_outcome env scheme_id req db sess)
    as [[_ Hno] | (uid & user & scheme & ends & name & rel & Hs & Hu & Hsch & Ht & He & Hn
                   & Hr & H)].
  { exfalso. exact (Hno p n Hresp). }
  unfold applied_rows in H. destruct H as [Hresp' Hdb].
  rewrite Hresp in Hresp'. injection Hresp' as -> ->.
  rewrite Hdb, Hs.
  set (p := mk_Policy _ _ _ _ _ _ _ _ _ _).
  set (n := mk_Nominee _ _ _ _ _).
  assert (Hid : policy_id_ p = next_id policy_id_ (policies db)) by reflexivity.
  rewrite (withdraw_policy_first t (policy_id_ p) uid _ p).
  - unfold with_policies. simpl policies. rewrite Hid at 1.
    rewrite (update_row_last policy_id_ (set_status "withdrawn") (policies db) p Hid).
    reflexivity.
  - simpl policies. exact (get_row_app_new policy_id_ (policies db) p Hid).
  - simpl. exact (get_row_id _ _ _ _ Hu).
  - apply is_withdrawable_iff. split; [reflexivity | exact Hlt].
Qed.

Lemma apply_then_withdraw_witness :
  run_view (withdraw_policy (mk_datetime 2024 3 15 11 0 0 0) (policy_id_ applied_policy))
    (db_of (run_view
              (apply_policy
                 (mk_apply_env t_2024_03_15_1030 "ab12cd34-0000-4000-8000-000000000000"
                    (mk_date 2024 3 15) (mk_date 2024 3 15) t_2024_03_15_1030)
                 1
                 (post_form [("digital_token", "a1b2c3d4"); ("nominee_name", "Jane Doe");
                             ("nominee_relationship", "spouse")]))
              db0 (Some 1)))
    (Some 1)
  = (Redirect "/my-policies",
     mk_DB (users db0) (schemes db0) (policies db0 ++ [set_status "withdrawn" applied_policy])
       (nominees db0 ++ [jane_doe]) (claims db0) (reports db0),
     Some 1).
Proof.
  apply (apply_then_withdraw
           (mk_apply_env t_2024_03_15_1030 "ab12cd34-0000-4000-8000-000000000000"
              (mk_date 2024 3 15) (mk_date 2024 3 15) t_2024_03_15_1030)
           1
           (post_form [("digital_token", "a1b2c3d4"); ("nominee_name", "Jane Doe");
                       ("nominee_relationship", "spouse")])
           db0 (Some 1) applied_policy jane_doe (mk_datetime 2024 3 15 11 0 0 0)).
  - vm_compute. reflexivity.
  - vm_compute. reflexivity.
Defined.

(** ** Claims, continued *)

Section ClaimMore.

Variable float_of_str : string -> option Q.
Variable secure_filename : string -> string.
Variable os_path_join : string -> string -> string.

Ltac step_claim :=
  cbn -[generate_claim_number save_documents PyStr.upper integer_affinity next_id
        strftime String.append].

(* a POST with the right token: how the view ends, read off the request *)
Lemma make_claim_right_token (env : claim_env) (req : request) (db : DB) (uid : Z)
    (user : User) :
  method req = POST ->
  get_row user_id_ uid (users db) = Some user ->
  PyStr.upper (form_get req "digital_token") = digital_token user ->
  let r := run_view (make_claim float_of_str secure_filename os_path_join env req) db
             (Some uid) in
  (forallb up_saved (List.filter (fun f => PyStr.nonempty (up_filename f)) (files req))
     = false -> r = (HttpError 500, db, Some uid))
  /\ (exists code, r = (HttpError code, db, Some uid))
     \/ (exists c, response_of r = Html (ClaimSubmitted c)).
Proof.
  intros Hpost Huser Htoken r. subst r.
  unfold make_claim, flush_claim. unfold_m. step_claim.
  rewrite Huser. step_claim. rewrite Hpost.
  unfold form_get in Htoken. rewrite Htoken, String.eqb_refl. step_claim.
  pose proof (save_documents_store secure_filename os_path_join (files req)
                (mk_store db db (Some uid))) as Hs.
  pose proof (save_documents_result secure_filename os_path_join (files req)
                (mk_store db db (Some uid))) as Hr.
  destruct (save_documents secure_filename os_path_join (files req)
              (mk_store db db (Some uid))) as [res s'].
  simpl in Hs, Hr. subst s' res.
  destruct (forallb up_saved
              (List.filter (fun f => PyStr.nonempty (up_filename f)) (files req)));
    step_claim; [|left; split; [reflexivity | exists 500; reflexivity]].
  destruct (form req !! "policy_id") as [pid|]; step_claim;
    [|left; split; [discriminate | exists 400; reflexivity]].
  destruct (form req !! "claim_amount") as [atext|]; step_claim;
    [|left; split; [discriminate | exists 400; reflexivity]].
  destruct (float_of_str atext) as [amount|]; step_claim;
    [|left; split; [discriminate | exists 500; reflexivity]].
  destruct (taken claim_number (generate_claim_number (claim_now env) (claim_uuid4 env))
              (claims db)); step_claim;
    [left; split; [discriminate | exists 500; reflexivity]|].
  right. eexists. reflexivity.
Qed.


(** X17: the documents of a claim: when one of the uploads that has a file
    name cannot be saved, the request ends with 500 and no claim is stored;
    a claim that is stored lists one path for each upload that has a name,
    in the order of the uploads, each made of the folder claim_documents,
    the time stamp of the save and the secured file name, and is filed
    under the logged-in user with the status 'submitted'. *)
Theorem make_claim_documents (env : claim_env) (req : request) (db : DB) (uid : Z)
    (user : User) :
  method req = POST ->
  get_row user_id_ uid (users db) = Some user ->
  PyStr.upper (form_get req "digital_token") = digital_token user ->
  let r := run_view (make_claim float_of_str secure_filename os_path_join env req) db
             (Some uid) in
  let named := List.filter (fun f => PyStr.nonempty (up_filename f)) (files req) in
  (forallb up_saved named = false -> r = (HttpError 500, db, Some uid))
  /\ (forall c, response_of r = Html (ClaimSubmitted c) ->
        forallb up_saved named = true
        /\ document_paths c
           = map (fun f => os_path_join "claim_documents"
                             (String.append (strftime "%Y%m%d_%H%M%S_" (up_now f))
                                (secure_filename (up_filename f)))) named
        /\ claim_user_id c = uid /\ claim_status c = "submitted"
        /\ claims (db_of r) = (claims db ++ [c])%list).
Proof.
  intros Hpost Huser Htoken r named. subst r named. split.
  - intros Hfail.
    destruct (make_claim_right_token env req db uid user Hpost Huser Htoken)
      as [(H & _) | (c & Hr)].
    + exact (H Hfail).
    + exfalso.
      destruct (make_claim_outcome float_of_str secure_filename os_path_join env req db
                  (Some uid)) as [_ [(_ & Hno) | H]].
      * exact (Hno c Hr).
      * destruct H as (uid' & user' & pid & atext & amount & c' & _ & _ & _ & _ & Hsaved & _).
        rewrite Hsaved in Hfail. discriminate Hfail.
  - intros c Hresp.
    destruct (make_claim_outcome float_of_str secure_filename os_path_join env req db
                (Some uid)) as [_ [(_ & Hno) | H]].
    + exfalso. exact (Hno c Hresp).
    + destruct H as (uid' & user' & pid & atext & amount & c' & Hs & _ & Hu & _ & Hsaved
                     & _ & _ & _ & _ & Hc & Hr & Hdb).
      rewrite Hresp in Hr. injection Hr as <-.
      injection Hs as <-. rewrite Huser in Hu. injection Hu as <-.
      split; [exact Hsaved|]. rewrite Hdb, Hc. simpl.
      repeat split. exact (get_row_id _ _ _ _ Huser).
Qed.

End ClaimMore.


Lemma make_claim_documents_witness :
  let r := run_view
             (make_claim float_of_digits (fun s => s) posix_join sample_claim_env
                claim_with_documents) db1 (Some 1) in
  let named := List.filter (fun f => PyStr.nonempty (up_filename f))
                 (files claim_with_documents) in
  (forallb up_saved named = false -> r = (HttpError 500, db1, Some 1))
  /\ (forall c, response_of r = Html (ClaimSubmitted c) ->
        forallb up_saved named = true
        /\ document_paths c
           = map (fun f => posix_join "claim_documents"
                             (String.append (strftime "%Y%m%d_%H%M%S_" (up_now f))
                                (up_filename f))) named
        /\ claim_user_id c = 1 /\ claim_status c = "submitted"
        /\ claims (db_of r) = (claims db1 ++ [c])%list).
Proof.
  apply (make_claim_documents float_of_digits (fun s => s) posix_join sample_claim_env
           claim_with_documents db1 1 alice).
  - reflexivity.
  - reflexivity.
  - vm_compute. reflexivity.
Defined.

Lemma no_active_filter (uid : Z) (l : list Policy) :
  (forall p, In p l -> status p <> "active") ->
  filter (fun p => (policy_user_id p =? uid) && String.eqb (status p) "active") l = [].
Proof.
  induction l as [|q l IH]; intros H; [reflexivity|].
  rewrite filter_cons.
  destruct (decide _) as [Hq|_].
  - exfalso. apply Is_true_true in Hq. apply andb_true_iff in Hq. destruct Hq as [_ Hq].
    apply String.eqb_eq in Hq. exact (H q (or_introl eq_refl) Hq).
  - apply IH. intros p Hp. apply H. right. exact Hp.
Qed.

Section ClaimForm.

Variable strptime_ymd : string -> option date.
Variable float_of_str : string -> option Q.
Variable secure_filename : string -> string.
Variable os_path_join : string -> string -> string.
Variable splitext_ext : string -> string.

(** X18: no request makes a policy active, so the claim form never offers
    one: starting from a database without an active policy, after any
    sequence of requests the claim form, asked for by a logged-in user who
    exists, lists no policy to claim on. *)
Theorem claim_form_never_offered (cs : list call) (db : DB) (sess : option Z)
    (env : claim_env) (req : request) (uid : Z) :
  no_active_policy db ->
  let w := after_calls strptime_ymd float_of_str secure_filename os_path_join splitext_ext
             cs (db, sess) in
  method req = GET ->
  snd w = Some uid ->
  get_row user_id_ uid (users (fst w)) <> None ->
  run_view (make_claim float_of_str secure_filename os_path_join env req) (fst w) (snd w)
  = (Html (ClaimForm []), fst w, snd w).
Proof.
  intros Hinv w Hget Hsess Huser.
  assert (Hw : no_active_policy (fst w)).
  { subst w.
    exact (steps_invariant strptime_ymd float_of_str secure_filename os_path_join
             splitext_ext no_active_policy transition_no_active_policy cs db sess Hinv). }
  rewrite Hsess.
  destruct (get_row user_id_ uid (users (fst w))) as [user|] eqn:Hu; [|contradiction].
  unfold make_claim. unfold_m. cbn -[filter]. rewrite Hu. cbn -[filter]. rewrite Hget.
  cbn -[filter]. rewrite (no_active_filter (user_id_ user) (policies (fst w)) Hw).
  reflexivity.
Qed.

End ClaimForm.

Lemma claim_form_never_offered_witness :
  let w := after_calls strptime_padded float_of_digits (fun s => s) posix_join ext_of_name
             (firstn 3 sample_calls) (db0, None) in
  run_view
    (make_claim float_of_digits (fun s => s) posix_join sample_claim_env
       (mk_request GET false None ∅ []))
    (fst w) (snd w)
  = (Html (ClaimForm []), fst w, snd w).
Proof.
  apply (claim_form_never_offered strptime_padded float_of_digits (fun s => s) posix_join
           ext_of_name (firstn 3 sample_calls) db0 None sample_claim_env
           (mk_request GET false None ∅ []) 2).
  - intros p Hp. destruct Hp.
  - reflexivity.
  - vm_compute. reflexivity.
  - vm_compute. discriminate.
Defined.

(** ** Applying, continued *)

(* a POST with the right token: an error and nothing written, or success *)
Lemma apply_policy_right_token (env : apply_env) (scheme_id : Z) (req : request) (db : DB)
    (uid : Z) (user : User) (scheme : Scheme) :
  method req = POST ->
  get_row user_id_ uid (users db) = Some user ->
  get_row scheme_id_ scheme_id (schemes db) = Some scheme ->
  PyStr.upper (form_get req "digital_token") = digital_token user ->
  let r := run_view (apply_policy env scheme_id req) db (Some uid) in
  (r = (HttpError
          (match date_add_days (apply_today_end env) 3650 with
           | None => 500
           | Some _ =>
               if taken policy_number
                    (generate_policy_number (apply_now env) (apply_uuid4 env)) (policies db)
               then 500 else 400
           end), db, Some uid)
   /\ (date_add_days (apply_today_end env) 3650 = None
       \/ taken policy_number
            (generate_policy_number (apply_now env) (apply_uuid4 env)) (policies db) = true
       \/ form req !! "nominee_name" = None
       \/ form req !! "nominee_relationship" = None))
  \/ (form req !! "nominee_name" <> None /\ form req !! "nominee_relationship" <> None
      /\ exists p n, response_of r = Html (ApplicationSuccessful p n)).
Proof.
  intros Hpost Huser Hscheme Htoken r. subst r.
  unfold apply_policy, flush_policy, flush_nominee. unfold_m. step_apply.
  rewrite Hscheme. step_apply. rewrite Hpost. step_apply. rewrite Huser. step_apply.
  unfold form_get in Htoken. rewrite Htoken, String.eqb_refl. step_apply.
  change (365 * 10) with 3650.
  destruct (date_add_days (apply_today_end env) 3650) as [ends|]; step_apply;
    [|left; split; [reflexivity | left; reflexivity]].
  destruct (taken policy_number (generate_policy_number (apply_now env) (apply_uuid4 env))
              (policies db)); step_apply;
    [left; split; [reflexivity | right; left; reflexivity]|].
  destruct (form req !! "nominee_name") as [name|]; step_apply;
    [|left; split; [reflexivity | right; right; left; reflexivity]].
  destruct (form req !! "nominee_relationship") as [rel|]; step_apply;
    [|left; split; [reflexivity | right; right; right; reflexivity]].
  right. split; [discriminate|]. split; [discriminate|].
  eexists _, _. reflexivity.
Qed.

(** X19: an application is stored whole or not at all: when the form lacks
    the nominee's name or relationship, the policy that was already flushed
    is not committed; the database is as before and the answer is an error,
    400 for the missing field unless the end date overflowed or the policy
    number was taken first (500). *)
Theorem apply_policy_incomplete_form (env : apply_env) (scheme_id : Z) (req : request)
    (db : DB) (uid : Z) (user : User) (scheme : Scheme) :
  method req = POST ->
  get_row user_id_ uid (users db) = Some user ->
  get_row scheme_id_ scheme_id (schemes db) = Some scheme ->
  PyStr.upper (form_get req "digital_token") = digital_token user ->
  form req !! "nominee_name" = None \/ form req !! "nominee_relationship" = None ->
  run_view (apply_policy env scheme_id req) db (Some uid)
  = (HttpError
       (match date_add_days (apply_today_end env) 3650 with
        | None => 500
        | Some _ =>
            if taken policy_number
                 (generate_policy_number (apply_now env) (apply_uuid4 env)) (policies db)
            then 500 else 400
        end), db, Some uid).
Proof.
  intros Hpost Huser Hscheme Htoken Hmissing.
  destruct (apply_policy_right_token env scheme_id req db uid user scheme Hpost Huser Hscheme
              Htoken) as [(Hr & _) | (Hn & Hrel & _)].
  - exact Hr.
  - exfalso. destruct Hmissing as [H | H]; [exact (Hn H) | exact (Hrel H)].
Qed.

Lemma apply_policy_incomplete_form_witness :
  run_view
    (apply_policy
       (mk_apply_env t_2024_03_15_1030 "ab12cd34-0000-4000-8000-000000000000"
          (mk_date 2024 3 15) (mk_date 2024 3 15) t_2024_03_15_1030)
       1 (post_form [("digital_token", "a1b2c3d4"); ("nominee_name", "Jane Doe")]))
    db0 (Some 1)
  = (HttpError
       (match date_add_days (mk_date 2024 3 15) 3650 with
        | None => 500
        | Some _ =>
            if taken policy_number
                 (generate_policy_number t_2024_03_15_1030
                    "ab12cd34-0000-4000-8000-000000000000") (policies db0)
            then 500 else 400
        end), db0, Some 1).
Proof.
  apply (apply_policy_incomplete_form
           (mk_apply_env t_2024_03_15_1030 "ab12cd34-0000-4000-8000-000000000000"
              (mk_date 2024 3 15) (mk_date 2024 3 15) t_2024_03_15_1030)
           1 (post_form [("digital_token", "a1b2c3d4"); ("nominee_name", "Jane Doe")])
           db0 1 alice pure_life).
  - reflexivity.
  - reflexivity.
  - reflexivity.
  - vm_compute. reflexivity.
  - right. vm_compute. reflexivity.
Defined.

Lemma upper_char_idem (c : ascii) :
  PyStr.upper_char (PyStr.upper_char c) = PyStr.upper_char c.
Proof. destruct c as [[] [] [] [] [] [] [] []]; vm_compute; reflexivity. Qed.

Lemma upper_idem (s : string) : PyStr.upper (PyStr.upper s) = PyStr.upper s.
Proof.
  induction s as [|c s IH]; simpl; [reflexivity|]. rewrite upper_char_idem, IH. reflexivity.
Qed.

Lemma upper_char_lower (c : ascii) :
  PyStr.upper_char (PyStr.lower_char c) = PyStr.upper_char c.
Proof. destruct c as [[] [] [] [] [] [] [] []]; vm_compute; reflexivity. Qed.

Lemma upper_lower (s : string) : PyStr.upper (PyStr.lower s) = PyStr.upper s.
Proof.
  induction s as [|c s IH]; simpl; [reflexivity|]. rewrite upper_char_lower, IH. reflexivity.
Qed.

(** X20: the token may be typed in any letter case: for a user whose token
    came from the generator, an application that submits the token in lower
    case passes the token check: the answer is the page of a successful
    application or an HTTP error, not the token-mismatch page. *)
Theorem token_accepted_in_lower_case (env : apply_env) (scheme_id : Z) (req : request)
    (db : DB) (uid : Z) (user : User) (scheme : Scheme) (uuid4 : string) :
  method req = POST ->
  get_row user_id_ uid (users db) = Some user ->
  get_row scheme_id_ scheme_id (schemes db) = Some scheme ->
  digital_token user = generate_token uuid4 ->
  form_get req "digital_token" = PyStr.lower (digital_token user) ->
  let r := run_view (apply_policy env scheme_id req) db (Some uid) in
  (exists p n, response_of r = Html (ApplicationSuccessful p n))
  \/ (exists code, response_of r = HttpError code).
Proof.
  intros Hpost Huser Hscheme Hgen Hform r. subst r.
  assert (Htoken : PyStr.upper (form_get req "digital_token") = digital_token user).
  { rewrite Hform, upper_lower, Hgen. unfold generate_token. apply upper_idem. }
  destruct (apply_policy_right_token env scheme_id req db uid user scheme Hpost Huser Hscheme
              Htoken) as [(Hr & _) | (_ & _ & p & n & Hr)].
  - right. rewrite Hr. eexists. reflexivity.
  - left. exists p, n. exact Hr.
Qed.

Lemma token_accepted_in_lower_case_witness :
  let r := run_view
             (apply_policy
                (mk_apply_env t_2024_03_15_1030 "ab12cd34-0000-4000-8000-000000000000"
                   (mk_date 2024 3 15) (mk_date 2024 3 15) t_2024_03_15_1030)
                1 (post_form [("digital_token", "a1b2c3d4"); ("nominee_name", "Jane Doe");
                              ("nominee_relationship", "spouse")]))
             db0 (Some 1) in
  (exists p n, response_of r = Html (ApplicationSuccessful p n))
  \/ (exists code, response_of r = HttpError code).
Proof.
  apply (token_accepted_in_lower_case
           (mk_apply_env t_2024_03_15_1030 "ab12cd34-0000-4000-8000-000000000000"
              (mk_date 2024 3 15) (mk_date 2024 3 15) t_2024_03_15_1030)
           1 (post_form [("digital_token", "a1b2c3d4"); ("nominee_name", "Jane Doe");
                         ("nominee_relationship", "spouse")])
           db0 1 alice pure_life "a1b2c3d4-0000-4000-8000-000000000000").
  - reflexivity.
  - reflexivity.
  - reflexivity.
  - vm_compute. reflexivity.
  - vm_compute. reflexivity.
Defined.

(** ** The profile *)

Section ProfileMore.

Variable secure_filename : string -> string.
Variable os_path_join : string -> string -> string.
Variable splitext_ext : string -> string.

(** X21: a request to the profile writes at most the picture of the
    logged-in user: every other table and the row of every other user are
    as before, no row is added or removed, and unless the page of an updated
    profile comes back (a POST with a named file, the folder made and the
    file saved) the database is unchanged.  When it does come back, the row
    of the user is the old one with the new path as its picture. *)
Theorem profile_writes_only_picture (picture : option upload) (makedirs_ok : bool)
    (req : request) (db : DB) (sess : option Z) :
  let r := run_answer (profile secure_filename os_path_join splitext_ext picture
                         makedirs_ok req) db sess in
  let db' := snd (fst r) in
  snd r = sess
  /\ schemes db' = schemes db /\ policies db' = policies db
  /\ nominees db' = nominees db /\ claims db' = claims db /\ reports db' = reports db
  /\ length (users db') = length (users db)
  /\ (forall j, sess <> Some j ->
        get_row user_id_ j (users db') = get_row user_id_ j (users db))
  /\ (fst (fst r) <> Listing ProfileUpdated -> db' = db)
  /\ (fst (fst r) = Listing ProfileUpdated ->
      exists uid user file,
        sess = Some uid /\ method req = POST /\ picture = Some file
        /\ makedirs_ok = true /\ up_saved file = true
        /\ get_row user_id_ uid (users db) = Some user
        /\ get_row user_id_ uid (users db')
           = Some (set_profile_picture
                     (os_path_join "profile_pictures"
                        (String.append "profile_"
                           (String.append (str_of_int uid)
                              (String.append "_"
                                 (String.append
                                    (strftime "%Y%m%d_%H%M%S_" (up_now file))
                                    (splitext_ext (secure_filename (up_filename file))))))))
                     user)).
Proof.
  intros r db'. subst r db'.
  destruct (profile_outcome secure_filename os_path_join splitext_ext picture makedirs_ok
              req db sess) as (Hs & [(Hdb & Hno) | H]).
  - split; [exact Hs|]. rewrite Hdb. do 6 (split; [reflexivity|]).
    split; [intros j _; reflexivity|]. split; [intros _; reflexivity|].
    intros Hup. exfalso. exact (Hno Hup).
  - destruct H as (uid & user & file & Hsess & Hpost & Hpic & _ & Hmk & Hsaved & Huser
                   & Hresp & Hdb).
    split; [exact Hs|]. rewrite Hdb. simpl. do 5 (split; [reflexivity|]).
    split; [apply update_row_length|].
    split; [|split].
    + intros j Hj. apply update_row_other; [intros x; reflexivity|].
      intros ->. apply Hj. exact Hsess.
    + intros Hno. exfalso. exact (Hno Hresp).
    + intros _. exists uid, user, file.
      repeat (split; [assumption|]).
      rewrite get_row_update by (intros x; reflexivity). rewrite Huser. reflexivity.
Qed.

End ProfileMore.

(** ** Helper functions *)

(** X22: the age is the number of full years: the n-th anniversary of the
    birth, compared as (year, month, day), is not after today exactly when n
    is at most the age. *)
Theorem calculate_age_full_years (today dob : date) (n : Z) :
  n <= calculate_age today dob
  <-> date_le (mk_date (year dob + n) (month dob) (day dob)) today.
Proof.
  unfold calculate_age, before_birthday, date_le. simpl.
  destruct (month today <? month dob) eqn:E1; simpl.
  - apply Z.ltb_lt in E1. lia.
  - apply Z.ltb_ge in E1.
    destruct (month today =? month dob) eqn:E2; simpl.
    + apply Z.eqb_eq in E2.
      destruct (day today <? day dob) eqn:E3; [apply Z.ltb_lt in E3 | apply Z.ltb_ge in E3];
        lia.
    + apply Z.eqb_neq in E2. lia.
Qed.

Lemma string_append_length (a b : string) :
  String.length (String.append a b) = (String.length a + String.length b)%nat.
Proof.
  induction a as [|c a IH]; [reflexivity|].
  change (S (String.length (String.append a b)) = S (String.length a + String.length b)).
  rewrite IH. reflexivity.
Qed.

Lemma all_chars_append (p : ascii -> bool) (a b : string) :
  all_chars p (String.append a b) = all_chars p a && all_chars p b.
Proof.
  induction a as [|c a IH]; [reflexivity|].
  change (p c && all_chars p (String.append a b) = p c && all_chars p a && all_chars p b).
  rewrite IH. apply andb_assoc.
Qed.

Lemma code_chr (z : Z) : 0 <= z < 256 -> PyStr.code (PyStr.chr z) = z.
Proof.
  intros Hz. unfold PyStr.code, PyStr.chr.
  rewrite N_ascii_embedding by lia. lia.
Qed.

Lemma zero_pad_length (w : nat) (n : Z) : String.length (PyStr.zero_pad w n) = w.
Proof.
  revert n. induction w as [|w IH]; intros n; [reflexivity|].
  rewrite zero_pad_S, string_append_length, IH. simpl. lia.
Qed.

Lemma zero_pad_all_digits (w : nat) (n : Z) :
  all_chars PyStr.is_digit (PyStr.zero_pad w n) = true.
Proof.
  revert n. induction w as [|w IH]; intros n; [reflexivity|].
  rewrite zero_pad_S, all_chars_append, IH. simpl.
  unfold PyStr.is_digit, PyStr.digit_char.
  pose proof (Z.mod_pos_bound n 10 ltac:(lia)) as Hd.
  rewrite code_chr by lia.
  rewrite andb_true_r. apply andb_true_iff. split; apply Z.leb_le; lia.
Qed.

Lemma prefix_length (n : nat) (s : string) :
  (n <= String.length s)%nat -> String.length (PyStr.prefix n s) = n.
Proof.
  revert s. induction n as [|n IH]; intros s Hs; [reflexivity|].
  destruct s as [|c s]; simpl in *; [lia|]. rewrite IH by lia. reflexivity.
Qed.

Lemma upper_length (s : string) : String.length (PyStr.upper s) = String.length s.
Proof. induction s as [|c s IH]; simpl; [reflexivity | rewrite IH; reflexivity]. Qed.

Lemma stamp_length (t : datetime) : String.length (strftime "%Y%m%d%H%M" t) = 12%nat.
Proof.
  rewrite strftime_stamp. unfold YYYYMMDDHHMM.
  rewrite !string_append_length, !zero_pad_length. reflexivity.
Qed.

Lemma stamp_all_digits (t : datetime) :
  all_chars PyStr.is_digit (strftime "%Y%m%d%H%M" t) = true.
Proof.
  rewrite strftime_stamp. unfold YYYYMMDDHHMM.
  rewrite !all_chars_append, !zero_pad_all_digits. reflexivity.
Qed.

(** X23: the shape of the generated identifiers: for a clock in the years
    1000 to 9999 and the text of a UUID, a policy number is POL and a claim
    number CLM, then twelve digits, then six characters of the UUID in upper
    case, 21 characters in all (one more than the 20 their columns
    declare); a digital token is eight characters that upper-casing leaves
    as they are. *)
Theorem generated_identifiers_shape (now : datetime) (uuid4 : string) :
  valid_datetime now = true ->
  1000 <= dt_year now ->
  (8 <= String.length uuid4)%nat ->
  String.length (generate_policy_number now uuid4) = 21%nat
  /\ String.length (generate_claim_number now uuid4) = 21%nat
  /\ (exists digits,
        String.length digits = 12%nat /\ all_chars PyStr.is_digit digits = true
        /\ generate_policy_number now uuid4
           = String.append "POL" (String.append digits (PyStr.upper (PyStr.prefix 6 uuid4)))
        /\ generate_claim_number now uuid4
           = String.append "CLM" (String.append digits (PyStr.upper (PyStr.prefix 6 uuid4))))
  /\ String.length (generate_token uuid4) = 8%nat
  /\ PyStr.upper (generate_token uuid4) = generate_token uuid4.
Proof.
  intros _ _ Hlen.
  unfold generate_policy_number, generate_claim_number, generate_token.
  rewrite !string_append_length, !upper_length, !stamp_length.
  rewrite !prefix_length by lia.
  split; [reflexivity|]. split; [reflexivity|]. split.
  - exists (strftime "%Y%m%d%H%M" now).
    split; [apply stamp_length|]. split; [apply stamp_all_digits|]. split; reflexivity.
  - split; [reflexivity | apply upper_idem].
Qed.

Lemma generated_identifiers_shape_witness :
  String.length
    (generate_policy_number t_2024_03_15_1030 "ab12cd34-0000-4000-8000-000000000000")
  = 21%nat
  /\ String.length
       (generate_claim_number t_2024_03_15_1030 "ab12cd34-0000-4000-8000-000000000000")
     = 21%nat
  /\ (exists digits,
        String.length digits = 12%nat /\ all_chars PyStr.is_digit digits = true
        /\ generate_policy_number t_2024_03_15_1030 "ab12cd34-0000-4000-8000-000000000000"
           = String.append "POL"
               (String.append digits
                  (PyStr.upper (PyStr.prefix 6 "ab12cd34-0000-4000-8000-000000000000")))
        /\ generate_claim_number t_2024_03_15_1030 "ab12cd34-0000-4000-8000-000000000000"
           = String.append "CLM"
               (String.append digits
                  (PyStr.upper (PyStr.prefix 6 "ab12cd34-0000-4000-8000-000000000000"))))
  /\ String.length (generate_token "ab12cd34-0000-4000-8000-000000000000") = 8%nat
  /\ PyStr.upper (generate_token "ab12cd34-0000-4000-8000-000000000000")
     = generate_token "ab12cd34-0000-4000-8000-000000000000".
Proof.
  apply (generated_identifiers_shape t_2024_03_15_1030
           "ab12cd34-0000-4000-8000-000000000000").
  - vm_compute. reflexivity.
  - vm_compute. discriminate.
  - vm_compute. lia.
Defined.



Section RegisterPan.

Variable strptime_ymd : string -> option date.


End RegisterPan.

Example pan_with_newline :
  validate_pan (String.append "abcde1234f" (String (PyStr.chr 10) EmptyString)) = true
  /\ PyStr.strip
       (PyStr.upper (String.append "abcde1234f" (String (PyStr.chr 10) EmptyString)))
     = "ABCDE1234F".
Proof. split; vm_compute; reflexivity. Qed.

(** ** The digest of a password *)










(** ** What the pages count, and what an application does not check *)

Section Pages.

Variable secure_filename : string -> string.
Variable os_path_join : string -> string -> string.
Variable splitext_ext : string -> string.

(** X26: the pages agree on the number of policies: for a logged-in user
    who exists, the dashboard and the profile show as the number of policies
    the number of cards on the page of one's policies, and none of the three
    writes anything.  When the session names no user, the dashboard ends the
    session and redirects to /login. *)
Theorem dashboard_counts_the_cards (env : my_policies_env) (req : request) (db : DB)
    (uid : Z) :
  match get_row user_id_ uid (users db) with
  | Some user =>
      exists cards,
        run_answer (my_policies env) db (Some uid)
          = (Listing (MyPoliciesPage cards), db, Some uid)
        /\ run_answer dashboard db (Some uid)
           = (Listing (DashboardPage user (length cards) (count_claims uid db)), db,
              Some uid)
        /\ run_answer (profile secure_filename os_path_join splitext_ext None true req) db
             (Some uid)
           = (Listing (ProfilePage user (length cards) (count_claims uid db)), db, Some uid)
  | None =>
      run_answer dashboard db (Some uid) = (Answer (Redirect "/login"), db, None)
  end.
Proof.
  destruct (get_row user_id_ uid (users db)) as [user|] eqn:Huser.
  - eexists. split; [reflexivity|].
    rewrite length_map.
    rewrite (Permutation_length (order_by_created_at_desc_perm _)).
    pose proof (get_row_id _ _ _ _ Huser) as Hid.
    split.
    + unfold dashboard, run_answer. unfold_m. simpl. rewrite Huser. simpl.
      unfold count_policies. rewrite Hid. reflexivity.
    + unfold profile, run_answer. unfold_m. simpl. rewrite Huser.
      destruct (method req); simpl; unfold count_policies; rewrite Hid; reflexivity.
  - unfold dashboard, run_answer, clear_session. unfold_m. simpl. rewrite Huser. reflexivity.
Qed.

End Pages.

(** X27: an application checks the token and nothing about eligibility: for
    a scheme of the table, offered or not, and a user of any age, a POST
    with the right token, both nominee fields, an end date in range and a
    policy number not yet used stores a policy on that scheme for the user,
    with the premium and the coverage of the scheme, and its nominee. *)
Theorem apply_policy_ignores_eligibility (env : apply_env) (scheme_id : Z) (req : request)
    (db : DB) (uid : Z) (user : User) (scheme : Scheme) :
  method req = POST ->
  get_row user_id_ uid (users db) = Some user ->
  get_row scheme_id_ scheme_id (schemes db) = Some scheme ->
  PyStr.upper (form_get req "digital_token") = digital_token user ->
  date_add_days (apply_today_end env) 3650 <> None ->
  taken policy_number (generate_policy_number (apply_now env) (apply_uuid4 env))
    (policies db) = false ->
  form req !! "nominee_name" <> None ->
  form req !! "nominee_relationship" <> None ->
  let r := run_view (apply_policy env scheme_id req) db (Some uid) in
  exists p n,
    response_of r = Html (ApplicationSuccessful p n)
    /\ policies (db_of r) = (policies db ++ [p])%list
    /\ nominees (db_of r) = (nominees db ++ [n])%list
    /\ policy_user_id p = uid /\ policy_scheme_id p = scheme_id
    /\ premium_amount p = scheme_premium_amount scheme
    /\ coverage_amount p = scheme_coverage_amount scheme
    /\ status p = "applied".
Proof.
  intros Hpost Huser Hscheme Htoken Hdate Hfresh Hname Hrel r. subst r.
  destruct (apply_policy_right_token env scheme_id req db uid user scheme Hpost Huser Hscheme
              Htoken) as [(_ & [H | [H | [H | H]]]) | (_ & _ & p & n & Hr)].
  - exfalso. exact (Hdate H).
  - exfalso. rewrite Hfresh in H. discriminate H.
  - exfalso. exact (Hname H).
  - exfalso. exact (Hrel H).
  - exists p, n. split; [exact Hr|].
    destruct (apply_policy_success env scheme_id req db (Some uid) p n Hr)
      as (scheme' & Hs' & Hp & Hn & Hst & Hprem & Hcov & _ & _ & _ & Hsess & _).
    rewrite Hscheme in Hs'. injection Hs' as <-.
    injection Hsess as Hsess.
    split; [exact Hp|]. split; [exact Hn|]. split; [symmetry; exact Hsess|].
    split.
    + destruct (apply_policy_outcome env scheme_id req db (Some uid))
        as [[_ Hno] | (uid' & user' & scheme' & ends & name & rel & _ & _ & Hsch & _ & _ & _
                       & _ & H)].
      * exfalso. exact (Hno p n Hr).
      * unfold applied_rows in H. destruct H as [Hr' _].
        rewrite Hr in Hr'. injection Hr' as -> _. simpl.
        rewrite Hscheme in Hsch. injection Hsch as <-.
        exact (get_row_id _ _ _ _ Hscheme).
    + split; [exact Hprem|]. split; [exact Hcov | exact Hst].
Qed.

Lemma apply_policy_ignores_eligibility_witness :
  let r := run_view
             (apply_policy
                (mk_apply_env t_2024_03_15_1030 "ab12cd34-0000-4000-8000-000000000000"
                   (mk_date 2024 3 15) (mk_date 2024 3 15) t_2024_03_15_1030)
                2 (post_form [("digital_token", "A1B2C3D4"); ("nominee_name", "Jane Doe");
                              ("nominee_relationship", "spouse")]))
             db2 (Some 1) in
  exists p n,
    response_of r = Html (ApplicationSuccessful p n)
    /\ policies (db_of r) = (policies db2 ++ [p])%list
    /\ nominees (db_of r) = (nominees db2 ++ [n])%list
    /\ policy_user_id p = 1 /\ policy_scheme_id p = 2
    /\ premium_amount p = scheme_premium_amount senior_plan
    /\ coverage_amount p = scheme_coverage_amount senior_plan
    /\ status p = "applied".
Proof.
  apply (apply_policy_ignores_eligibility
           (mk_apply_env t_2024_03_15_1030 "ab12cd34-0000-4000-8000-000000000000"
              (mk_date 2024 3 15) (mk_date 2024 3 15) t_2024_03_15_1030)
           2 (post_form [("digital_token", "A1B2C3D4"); ("nominee_name", "Jane Doe");
                         ("nominee_relationship", "spouse")])
           db2 1 alice senior_plan).
  - reflexivity.
  - reflexivity.
  - reflexivity.
  - vm_compute. reflexivity.
  - vm_compute. discriminate.
  - reflexivity.
  - vm_compute. discriminate.
  - vm_compute. discriminate.
Defined.

(* alice is 30, the plan is for 60 to 80 and is not offered *)
Example senior_plan_not_for_alice :
  is_active senior_plan = false /\ age alice < min_age senior_plan
  /\ List.filter is_active (schemes db2) = [pure_life].
Proof. repeat split. Qed.
